(** * Rent-moment backend: catalog model, order engine and product queries

    A shallow embedding of the Mongoose models (Product, Category, Order) and
    of the Express route handlers of [routes/products.js] and
    [routes/orders.js], with the properties of the specification stated over
    them.

    Conventions of the embedding:
    - a JavaScript number holding a price or an amount is an IEEE binary64
      value, here a primitive [float]; counters, page numbers and
      timestamps, which stay far below 2^53, are integers;
    - a JavaScript string is a [string] of code units below 256; only the
      ASCII letters change under [toLowerCase], and every code unit outside
      [a-z0-9] is treated alike by the slug expressions;
    - an ObjectId is its hexadecimal string, and the ids a handler receives
      are well-formed (Mongoose throws on one that is not);
    - a [Date] is [option Z]: milliseconds since the epoch, [None] for an
      Invalid Date, whose comparisons are all false;
    - a collection is the list of its documents in insertion order;
    - a response carries a document with its references as they are
      stored; where a handler reads or saves the document it has populated
      (the ownership check of [GET /api/orders/:id], the save of the two
      product reads) the populated document is what the model uses;
    - an [async] route handler is a function from the database (and the
      request) to a response and the next database; an early
      [return res.status(..).json(..)] and a thrown error are the two
      non-local exits of the handler monad [M]. *)

From Stdlib Require Import PrimFloat.
From Stdlib Require Import ZArith List String Ascii Bool Lia Permutation FinFun.
From Stdlib Require Import Decimal DecimalNat DecimalString.
Import ListNotations.

Set Warnings "-inexact-float".

Open Scope string_scope.
Open Scope list_scope.

(** ** JavaScript strings *)

Module JsString.

Definition is_upper (c : ascii) : bool :=
  let n := nat_of_ascii c in (65 <=? n)%nat && (n <=? 90)%nat.

Definition lower_char (c : ascii) : ascii :=
  if is_upper c then ascii_of_nat (nat_of_ascii c + 32) else c.

(** [String.prototype.toLowerCase] *)
Fixpoint toLowerCase (s : string) : string :=
  match s with
  | EmptyString => EmptyString
  | String c r => String (lower_char c) (toLowerCase r)
  end.

(** the character class [[a-z0-9]] *)
Definition is_slug_char (c : ascii) : bool :=
  let n := nat_of_ascii c in
  ((97 <=? n)%nat && (n <=? 122)%nat) || ((48 <=? n)%nat && (n <=? 57)%nat).

Definition hyphen : ascii := "-"%char.

(** [s.replace(/[^a-z0-9]+/g, '-')]: [in_run] records that the scan is
    inside a match of [[^a-z0-9]+], whose hyphen has been written. *)
Fixpoint replace_runs (in_run : bool) (s : string) : string :=
  match s with
  | EmptyString => EmptyString
  | String c r =>
      if is_slug_char c then String c (replace_runs false r)
      else if in_run then replace_runs true r
      else String hyphen (replace_runs true r)
  end.

(** the alternative [^-] of [/(^-|-$)/g]: one hyphen at index 0 *)
Definition strip_leading (s : string) : string :=
  match s with
  | String c r => if Ascii.eqb c hyphen then r else s
  | EmptyString => s
  end.

(** the alternative [-$]: one hyphen at the last index of what the scan
    has not consumed yet *)
Fixpoint strip_trailing (s : string) : string :=
  match s with
  | EmptyString => EmptyString
  | String c EmptyString => if Ascii.eqb c hyphen then EmptyString else s
  | String c r => String c (strip_trailing r)
  end.

(** [s.replace(/(^-|-$)/g, '')] *)
Definition trim_hyphens (s : string) : string :=
  strip_trailing (strip_leading s).

(** Template-literal rendering of a non-negative integer counter. *)
Definition decimal (n : nat) : string :=
  NilEmpty.string_of_uint (Nat.to_uint n).

(** Truthiness of a string value. *)
Definition truthy (s : string) : bool :=
  match s with EmptyString => false | _ => true end.

End JsString.

Import JsString.

(** The slug expression shared by the Product and Category pre-save hooks:
    [name.toLowerCase().replace(/[^a-z0-9]+/g, '-').replace(/(^-|-$)/g, '')] *)
Definition baseSlug (name : string) : string :=
  trim_hyphens (replace_runs false (toLowerCase name)).

(** *** The slug in the words of the specification

    The maximal runs of [[a-z0-9]] of a string, in order. *)
Fixpoint alnum_words (s : string) : list string :=
  match s with
  | EmptyString => []
  | String c r =>
      if is_slug_char c then
        match alnum_words r, r with
        | w :: ws, String c' _ =>
            if is_slug_char c' then String c w :: ws
            else String c EmptyString :: w :: ws
        | _, _ => [String c EmptyString]
        end
      else alnum_words r
  end.

(** Lowercase the name, then join its alphanumeric runs with single hyphens:
    every run of other characters between two of them is one hyphen, and the
    runs before the first and after the last are trimmed away. *)
Definition spec_slug (name : string) : string :=
  String.concat "-" (alnum_words (toLowerCase name)).

(** ** Documents *)

Definition ObjectId := string.

(** A [Date]: milliseconds since the epoch, [None] for an Invalid Date. *)
Definition JsDate := option Z.

Definition date_lt (a b : JsDate) : bool :=
  match a, b with
  | Some x, Some y => (x <? y)%Z
  | _, _ => false
  end.

Definition date_le (a b : JsDate) : bool :=
  match a, b with
  | Some x, Some y => (x <=? y)%Z
  | _, _ => false
  end.

Definition option_eqb {A} (eqb : A -> A -> bool) (a b : option A) : bool :=
  match a, b with
  | Some x, Some y => eqb x y
  | None, None => true
  | _, _ => false
  end.

Definition is_nan (x : float) : bool := negb (PrimFloat.eqb x x).

Module Category.

Record t := mk {
  _id : ObjectId;
  name : string;
  slug : option string;
  isActive : bool;
  sortOrder : Z
}.

End Category.

Module Size.

Record t := mk {
  size : string;
  isAvailable : bool;
  quantity : float
}.

Definition sizes : list string :=
  ["XS"; "S"; "M"; "L"; "XL"; "XXL"; "Free Size"].

End Size.

Module Product.

(** The paths of [productSchema] that the handlers below read or write;
    [brand], [material], [condition], [tags], [specifications],
    [careInstructions], [rating] and [numReviews] are carried through
    unchanged by all of them and are left out. *)
Record t := mk {
  _id : ObjectId;
  name : string;
  description : string;
  categories : list ObjectId;
  category : option ObjectId;
  images : list string;
  price : float;
  originalPrice : float;
  sizes : list Size.t;
  color : string;
  rentalDuration : float;
  isAvailable : bool;
  isFeatured : bool;
  slug : option string;
  views : Z;
  createdAt : Z
}.

Definition set_category (v : option ObjectId) (p : t) : t :=
  mk (_id p) (name p) (description p) (categories p) v (images p) (price p)
     (originalPrice p) (sizes p) (color p) (rentalDuration p)
     (isAvailable p) (isFeatured p) (slug p) (views p) (createdAt p).

(** the path [slug] is declared [lowercase: true]: its setter lowercases *)
Definition set_slug (v : string) (p : t) : t :=
  mk (_id p) (name p) (description p) (categories p) (category p) (images p)
     (price p) (originalPrice p) (sizes p) (color p) (rentalDuration p)
     (isAvailable p) (isFeatured p) (Some (toLowerCase v)) (views p)
     (createdAt p).

Definition set_views (v : Z) (p : t) : t :=
  mk (_id p) (name p) (description p) (categories p) (category p) (images p)
     (price p) (originalPrice p) (sizes p) (color p) (rentalDuration p)
     (isAvailable p) (isFeatured p) (slug p) v (createdAt p).

Definition set_categories (v : list ObjectId) (p : t) : t :=
  mk (_id p) (name p) (description p) v (category p) (images p) (price p)
     (originalPrice p) (sizes p) (color p) (rentalDuration p)
     (isAvailable p) (isFeatured p) (slug p) (views p) (createdAt p).

End Product.

(** Errors raised inside a handler. *)
Inductive Exn : Type :=
| ValidationError            (* Mongoose document or update validation *)
| DuplicateKey (field : string)   (* E11000 on a unique index *)
| TypeError                  (* property read on null *)
| BadValue                   (* the server refuses the query *)
| UploadFailed.              (* the image store refused an image *)

Inductive Result (A : Type) : Type :=
| Ok (a : A)
| Err (e : Exn).

Arguments Ok {A} a.
Arguments Err {A} e.

Module Address.

Record t := mk {
  name : string;
  phone : string;
  street : string;
  city : string;
  state : string;
  zipCode : string;
  country : string
}.

End Address.

Module OrderItem.

Record t := mk {
  product : ObjectId;
  quantity : float;
  rentalDuration : float;
  price : float;
  totalPrice : float
}.

End OrderItem.

Inductive PaymentStatus : Type :=
| PaymentPending | Paid | Failed | Refunded.

Inductive OrderStatus : Type :=
| Pending | Confirmed | Processing | Shipped | Delivered | Returned | Cancelled.

(** The stored strings of the two enumerations. *)
Definition paymentStatusName (s : PaymentStatus) : string :=
  match s with
  | PaymentPending => "Pending"
  | Paid => "Paid"
  | Failed => "Failed"
  | Refunded => "Refunded"
  end.

Definition orderStatusName (s : OrderStatus) : string :=
  match s with
  | Pending => "Pending"
  | Confirmed => "Confirmed"
  | Processing => "Processing"
  | Shipped => "Shipped"
  | Delivered => "Delivered"
  | Returned => "Returned"
  | Cancelled => "Cancelled"
  end.

Definition paymentMethods : list string :=
  ["Credit Card"; "Debit Card"; "PayPal"; "Cash on Delivery"].

(** [Array.prototype.includes] and [$in] on strings *)
Definition includes (l : list string) (s : string) : bool :=
  existsb (String.eqb s) l.

Module Order.

Record t := mk {
  _id : ObjectId;
  user : option ObjectId;
  isGuestOrder : bool;
  items : list OrderItem.t;
  shippingAddress : Address.t;
  paymentMethod : string;
  paymentStatus : PaymentStatus;
  orderStatus : OrderStatus;
  subtotal : float;
  shippingCost : float;
  tax : float;
  totalAmount : float;
  orderNumber : option string;
  rentalStartDate : JsDate;
  rentalEndDate : JsDate;
  needDate : JsDate;
  notes : option string;
  adminNotes : option string;
  isActive : bool
}.

Definition set_orderStatus (v : OrderStatus) (o : t) : t :=
  mk (_id o) (user o) (isGuestOrder o) (items o) (shippingAddress o)
     (paymentMethod o) (paymentStatus o) v (subtotal o) (shippingCost o)
     (tax o) (totalAmount o) (orderNumber o) (rentalStartDate o)
     (rentalEndDate o) (needDate o) (notes o) (adminNotes o) (isActive o).

Definition set_paymentStatus (v : PaymentStatus) (o : t) : t :=
  mk (_id o) (user o) (isGuestOrder o) (items o) (shippingAddress o)
     (paymentMethod o) v (orderStatus o) (subtotal o) (shippingCost o)
     (tax o) (totalAmount o) (orderNumber o) (rentalStartDate o)
     (rentalEndDate o) (needDate o) (notes o) (adminNotes o) (isActive o).

Definition set_adminNotes (v : string) (o : t) : t :=
  mk (_id o) (user o) (isGuestOrder o) (items o) (shippingAddress o)
     (paymentMethod o) (paymentStatus o) (orderStatus o) (subtotal o)
     (shippingCost o) (tax o) (totalAmount o) (orderNumber o)
     (rentalStartDate o) (rentalEndDate o) (needDate o) (notes o) (Some v)
     (isActive o).

Definition set_orderNumber (v : string) (o : t) : t :=
  mk (_id o) (user o) (isGuestOrder o) (items o) (shippingAddress o)
     (paymentMethod o) (paymentStatus o) (orderStatus o) (subtotal o)
     (shippingCost o) (tax o) (totalAmount o) (Some v)
     (rentalStartDate o) (rentalEndDate o) (needDate o) (notes o)
     (adminNotes o) (isActive o).

End Order.

(** ** The database and the environment of a request *)

(** Modelled from the spec: the users collection, whose model is not among
    the sources.  A user account is given by its id; the handlers here only
    look an account up by id and delete it. *)
Definition Accounts := list ObjectId.

Record Db := mkDb {
  products : list Product.t;
  categories : list Category.t;
  orders : list Order.t;
  users : Accounts
}.

Definition with_products (ps : list Product.t) (db : Db) : Db :=
  mkDb ps (categories db) (orders db) (users db).

Definition with_orders (os : list Order.t) (db : Db) : Db :=
  mkDb (products db) (categories db) os (users db).

Definition with_users (us : Accounts) (db : Db) : Db :=
  mkDb (products db) (categories db) (orders db) us.

(** What a request reads from outside the program: the clock, the random
    generator, the ObjectId generator, the image store and the two matchers
    the database server evaluates ([$text] and case-insensitive [$regex]). *)
Record Env := mkEnv {
  now : Z;                  (* [new Date()], in milliseconds *)
  localTZA : Z -> bool -> Z;
    (* ECMAScript's LocalTZA(t, isUTC): the offset of local time from UTC,
       in milliseconds, at the UTC instant [t] when [isUTC], at the local
       time [t] otherwise *)
  fullYear : nat;           (* [date.getFullYear()] *)
  month : nat;              (* [date.getMonth()], from 0 *)
  dayOfMonth : nat;         (* [date.getDate()] *)
  random1000 : nat;         (* [Math.floor(Math.random() * 1000)] *)
  newId : ObjectId;         (* the [_id] given to a new document *)
  uploadImage : string -> option string;
  textSearch : string -> Product.t -> bool;
  regexMatchI : string -> string -> bool
}.

Definition msPerDay : Z := 86400000.

(** ECMAScript's LocalTime(t) and UTC(t). *)
Definition localTime (env : Env) (t : Z) : Z := (t + localTZA env t true)%Z.

Definition utcOf (env : Env) (t : Z) : Z := (t - localTZA env t false)%Z.

(** [const today = new Date(); today.setHours(0, 0, 0, 0)], as
    [Date.prototype.setHours] is specified: the local time of the clock,
    its time within the day set to zero ([MakeDate(Day(t), 0)]), taken back
    to UTC.  The result follows the calendar of the zone: on a day on which
    the clocks change it is 23 or 25 hours before the next midnight. *)
Definition startOfToday (env : Env) : JsDate :=
  Some (utcOf env (localTime env (now env) / msPerDay * msPerDay))%Z.

(** ** Saving a Product *)

(** The first pre-save hook: the legacy [category] follows [categories[0]]. *)
Definition productPreSaveCategory (p : Product.t) : Product.t :=
  match Product.categories p with
  | c :: _ => Product.set_category (Some c) p
  | [] => p
  end.

(** [this.constructor.findOne({ slug: slug, _id: { $ne: this._id } })] *)
Definition findOneSlug (coll : list Product.t) (slug : string)
    (self : ObjectId) : option Product.t :=
  find (fun q => option_eqb String.eqb (Product.slug q) (Some slug)
                 && negb (String.eqb (Product._id q) self)) coll.

(** The [while (true)] loop of the second hook, entered with the current
    candidate [slug] and the next [counter]; [fuel] bounds the number of
    queries. *)
Fixpoint probeSlug (fuel : nat) (coll : list Product.t) (self : ObjectId)
    (base slug : string) (counter : nat) : option string :=
  match fuel with
  | O => None
  | S fuel' =>
      match findOneSlug coll slug self with
      | None => Some slug
      | Some _ =>
          probeSlug fuel' coll self base (base ++ "-" ++ decimal counter)
                    (S counter)
      end
  end.

(** The second pre-save hook.  One query more than there are products is
    enough for the loop to end ([probeSlug_total] below), so the last branch
    is never taken. *)
Definition productPreSaveSlug (coll : list Product.t) (isModifiedName : bool)
    (p : Product.t) : Product.t :=
  if negb isModifiedName then p
  else
    let base := baseSlug (Product.name p) in
    match probeSlug (S (List.length coll)) coll (Product._id p) base base 1 with
    | Some slug => Product.set_slug slug p
    | None => p
    end.

(** The Category hook assigns the base slug without probing. *)
Definition categoryPreSaveSlug (isModifiedName : bool) (c : Category.t)
    : Category.t :=
  if negb isModifiedName then c
  else Category.mk (Category._id c) (Category.name c)
         (Some (toLowerCase (baseSlug (Category.name c))))
         (Category.isActive c) (Category.sortOrder c).

(** The validators declared in [productSchema]. *)
Definition validateSize (s : Size.t) : bool :=
  includes Size.sizes (Size.size s) && PrimFloat.leb 0 (Size.quantity s).

Definition validateProduct (p : Product.t) : bool :=
  truthy (Product.name p) && (String.length (Product.name p) <=? 100)%nat
  && truthy (Product.description p)
  && forallb truthy (Product.images p)
  && PrimFloat.leb 0 (Product.price p)
  && PrimFloat.leb 0 (Product.originalPrice p)
  && forallb validateSize (Product.sizes p)
  && truthy (Product.color p)
  && PrimFloat.leb 1 (Product.rentalDuration p).

(** The unique sparse index on [slug]: another document holds the slug. *)
Definition slugConflict (coll : list Product.t) (p : Product.t) : bool :=
  match Product.slug p with
  | None => false
  | Some s =>
      existsb (fun q => option_eqb String.eqb (Product.slug q) (Some s)
                        && negb (String.eqb (Product._id q) (Product._id p)))
              coll
  end.

Definition replaceProduct (p : Product.t) (coll : list Product.t)
    : list Product.t :=
  map (fun q => if String.eqb (Product._id q) (Product._id p) then p else q)
      coll.

(** [product.save()]: validation, the two hooks in the order they are
    registered, then the write under the unique index. *)
Definition saveProduct (isNew isModifiedName : bool) (p : Product.t)
    (coll : list Product.t) : Result (Product.t * list Product.t) :=
  if negb (validateProduct p) then Err ValidationError
  else
    let p1 := productPreSaveCategory p in
    let p2 := productPreSaveSlug coll isModifiedName p1 in
    if slugConflict coll p2 then Err (DuplicateKey "slug")
    else Ok (p2, if isNew then coll ++ [p2] else replaceProduct p2 coll).

(** ** Requests, responses and the handler monad *)

Inductive Role : Type := RoleUser | RoleAdmin.

(** [req.user], as the [protect] middleware leaves it. *)
Record AuthUser := mkAuthUser {
  id : ObjectId;
  role : Role
}.

Definition isAdmin (u : AuthUser) : bool :=
  match role u with RoleAdmin => true | RoleUser => false end.

(** One entry of [validationResult(req).array()]: field and message. *)
Definition FieldError := (string * string)%type.

(** The pagination fields of a listing response ([hasNextPage] and
    [hasPrevPage], which [GET /api/products] adds, are left out). *)
Record PageInfo := mkPageInfo {
  totalPages : option Z;     (* [None] when [limit] is 0 *)
  currentPage : Z;
  total : Z
}.

Record Summary := mkSummary {
  totalOrders : nat;
  pendingOrders : nat;
  completedOrders : nat;
  cancelledOrders : nat;
  totalRevenue : float
}.

Inductive Payload : Type :=
| NoData
| Errors (errors : list FieldError)
| OneProduct (p : Product.t)
| ProductPage (ps : list Product.t) (info : PageInfo)
| OneOrder (o : Order.t)
| OrderSummary (s : Summary).

Record Response := mkResponse {
  status : nat;
  success : bool;
  message : option string;
  data : Payload
}.

(** [res.status(code).json({ success: false, message })] *)
Definition failure (code : nat) (msg : string) : Response :=
  mkResponse code false (Some msg) NoData.

Definition validationFailure (errs : list FieldError) : Response :=
  mkResponse 400 false (Some "Validation errors") (Errors errs).

(** How a step of a handler ends: it goes on with a value, it has sent the
    response and returned, or it has thrown. *)
Inductive Flow (A : Type) : Type :=
| Next (a : A)
| Reply (r : Response)
| Throw (e : Exn).

Arguments Next {A} a.
Arguments Reply {A} r.
Arguments Throw {A} e.

Definition M (A : Type) : Type := Db -> Flow A * Db.

Definition ret {A} (a : A) : M A := fun db => (Next a, db).

Definition bind {A B} (m : M A) (k : A -> M B) : M B :=
  fun db =>
    match m db with
    | (Next a, db') => k a db'
    | (Reply r, db') => (Reply r, db')
    | (Throw e, db') => (Throw e, db')
    end.

Definition reply {A} (r : Response) : M A := fun db => (Reply r, db).
Definition throw {A} (e : Exn) : M A := fun db => (Throw e, db).
Definition getDb : M Db := fun db => (Next db, db).
Definition putDb (db' : Db) : M unit := fun _ => (Next tt, db').

Definition lift {A} (r : Result A) : M A :=
  match r with
  | Ok a => ret a
  | Err e => throw e
  end.

Declare Scope handler_scope.
Delimit Scope handler_scope with handler.
Notation "x <- m ;; k" := (bind m (fun x => k))
  (at level 61, m at next level, right associativity) : handler_scope.
Notation "m ;; k" := (bind m (fun _ => k))
  (at level 61, right associativity) : handler_scope.
Notation "'guard' c 'else' r ;; k" :=
  (bind (if c then ret tt else reply r) (fun _ => k))
  (at level 61, c at next level, r at next level, right associativity)
  : handler_scope.
Open Scope handler_scope.

(** [try { body } catch (error) { onError }]: the handler as Express runs it. *)
Definition tryCatch (body : M Response) (onError : Exn -> Response)
    : Db -> Response * Db :=
  fun db =>
    match body db with
    | (Next r, db') => (r, db')
    | (Reply r, db') => (r, db')
    | (Throw e, db') => (onError e, db')
    end.

(** ** Product routes *)

Definition findProductById (i : ObjectId) (coll : list Product.t)
    : option Product.t :=
  find (fun p => String.eqb (Product._id p) i) coll.

Definition findCategoryById (i : ObjectId) (coll : list Category.t)
    : option Category.t :=
  find (fun c => String.eqb (Category._id c) i) coll.

(** An entry of a JSON array of ids: [None] is [null] or [undefined]. *)
Definition JsonValue := option string.

Definition truthyValue (v : JsonValue) : bool :=
  match v with
  | Some s => truthy s
  | None => false
  end.

(** [categories.filter(categoryId => categoryId && categoryId !== null
    && categoryId !== undefined)] *)
Definition filterCategories (cs : list JsonValue) : list JsonValue :=
  filter truthyValue cs.

(** The strings of an array of ids, as Mongoose casts it to ObjectIds. *)
Definition castIds (cs : list JsonValue) : list ObjectId :=
  flat_map (fun v => match v with Some s => [s] | None => [] end) cs.

(** [for (const categoryId of ...) { if (!await Category.findById(..)) return 400 }] *)
Fixpoint verifyCategories (cs : list JsonValue) : M unit :=
  match cs with
  | [] => ret tt
  | v :: rest =>
      db <- getDb ;;
      let i := match v with Some s => s | None => EmptyString end in
      match findCategoryById i (categories db) with
      | None => reply (failure 400 ("Category with ID " ++ i ++ " not found"))
      | Some _ => verifyCategories rest
      end
  end.

(** The image loop: data URLs go to the image store, other strings stay. *)
Fixpoint uploadImages (env : Env) (imgs : list string) : M (list string) :=
  match imgs with
  | [] => ret []
  | image :: rest =>
      url <- (if String.prefix "data:image" image then
                match uploadImage env image with
                | Some u => ret u
                | None => throw UploadFailed
                end
              else ret image) ;;
      urls <- uploadImages env rest ;;
      ret (url :: urls)
  end.

(** The [catch] of the create and update handlers. *)
Definition productOnError (what : string) (e : Exn) : Response :=
  match e with
  | DuplicateKey f =>
      if String.eqb f "slug" then
        failure 400 "A product with this name already exists. Please use a different name."
      else
        failure 400 ("Duplicate " ++ f ++ " value. Please use a different " ++ f ++ ".")
  | _ => failure 500 ("Server error while " ++ what ++ " product")
  end.

(** [String.prototype.trim], on the white space below code unit 256 *)
Definition is_space (c : ascii) : bool :=
  let n := nat_of_ascii c in
  ((9 <=? n)%nat && (n <=? 13)%nat) || (n =? 32)%nat || (n =? 160)%nat.

Fixpoint trimStart (s : string) : string :=
  match s with
  | String c r => if is_space c then trimStart r else s
  | EmptyString => s
  end.

Fixpoint trimEnd (s : string) : string :=
  match s with
  | EmptyString => EmptyString
  | String c r =>
      match trimEnd r with
      | EmptyString => if is_space c then EmptyString else String c EmptyString
      | r' => String c r'
      end
  end.

Definition trim (s : string) : string := trimEnd (trimStart s).

Module NewProduct.

(** The body of [POST /api/products]. *)
Record t := mk {
  name : string;
  description : string;
  categories : list JsonValue;
  images : list string;
  price : float;
  originalPrice : float;
  sizes : list Size.t;
  color : string;
  rentalDuration : float;
  isFeatured : option bool
}.

End NewProduct.

(** [POST /api/products], behind [protect] and [admin]; [errs] is what the
    express-validator chain reports for the body.  The chain has trimmed
    [name]; the schema trims [description] and [color] when the document
    is built. *)
Definition createProduct (env : Env) (errs : list FieldError)
    (body : NewProduct.t) : Db -> Response * Db :=
  tryCatch
    (guard (match errs with [] => true | _ => false end)
       else validationFailure errs ;;
     let filteredCategories := filterCategories (NewProduct.categories body) in
     guard (negb (List.length filteredCategories =? 0)%nat)
       else failure 400 "At least one category is required" ;;
     verifyCategories filteredCategories ;;
     uploadedImages <- uploadImages env (NewProduct.images body) ;;
     let product :=
       Product.mk (newId env) (NewProduct.name body)
         (trim (NewProduct.description body)) (castIds filteredCategories)
         None uploadedImages (NewProduct.price body)
         (NewProduct.originalPrice body) (NewProduct.sizes body)
         (trim (NewProduct.color body)) (NewProduct.rentalDuration body) true
         (match NewProduct.isFeatured body with Some b => b | None => false end)
         None 0%Z (now env) in
     db <- getDb ;;
     saved <- lift (saveProduct true true product (products db)) ;;
     putDb (with_products (snd saved) db) ;;
     ret (mkResponse 201 true (Some "Product created successfully")
            (OneProduct (fst saved))))
    (productOnError "creating").

Module ProductUpdate.

(** The body of [PUT /api/products/:id]: every key is optional, and the
    body is handed to the database as it is, whatever keys it holds. *)
Record t := mk {
  name : option string;
  description : option string;
  categories : option (list JsonValue);
  category : option ObjectId;
  images : option (list string);
  price : option float;
  originalPrice : option float;
  sizes : option (list Size.t);
  color : option string;
  rentalDuration : option float;
  isAvailable : option bool;
  isFeatured : option bool;
  slug : option string;
  views : option Z
}.

Definition set_categories (v : list JsonValue) (u : t) : t :=
  mk (name u) (description u) (Some v) (category u) (images u) (price u)
     (originalPrice u) (sizes u) (color u) (rentalDuration u)
     (isAvailable u) (isFeatured u) (slug u) (views u).

Definition set_images (v : list string) (u : t) : t :=
  mk (name u) (description u) (categories u) (category u) (Some v) (price u)
     (originalPrice u) (sizes u) (color u) (rentalDuration u)
     (isAvailable u) (isFeatured u) (slug u) (views u).

End ProductUpdate.

Definition orElse {A} (o : option A) (d : A) : A :=
  match o with Some v => v | None => d end.

Definition check {A} (o : option A) (ok : A -> bool) : bool :=
  match o with Some v => ok v | None => true end.

(** The document after [$set]ting the keys of the body, cast through the
    schema: [description] and [color] trimmed, [slug] lowercased. *)
Definition applyUpdate (u : ProductUpdate.t) (p : Product.t) : Product.t :=
  Product.mk (Product._id p)
    (orElse (ProductUpdate.name u) (Product.name p))
    (orElse (option_map trim (ProductUpdate.description u))
            (Product.description p))
    (match ProductUpdate.categories u with
     | Some cs => castIds cs
     | None => Product.categories p
     end)
    (match ProductUpdate.category u with
     | Some c => Some c
     | None => Product.category p
     end)
    (orElse (ProductUpdate.images u) (Product.images p))
    (orElse (ProductUpdate.price u) (Product.price p))
    (orElse (ProductUpdate.originalPrice u) (Product.originalPrice p))
    (orElse (ProductUpdate.sizes u) (Product.sizes p))
    (orElse (option_map trim (ProductUpdate.color u)) (Product.color p))
    (orElse (ProductUpdate.rentalDuration u) (Product.rentalDuration p))
    (orElse (ProductUpdate.isAvailable u) (Product.isAvailable p))
    (orElse (ProductUpdate.isFeatured u) (Product.isFeatured p))
    (match ProductUpdate.slug u with
     | Some s => Some (toLowerCase s)
     | None => Product.slug p
     end)
    (orElse (ProductUpdate.views u) (Product.views p))
    (Product.createdAt p).

(** [runValidators: true]: the declared validators of the scalar paths the
    update sets. *)
Definition validateUpdate (u : ProductUpdate.t) : bool :=
  check (ProductUpdate.name u)
        (fun n => truthy n && (String.length n <=? 100)%nat)
  && check (option_map trim (ProductUpdate.description u)) truthy
  && check (ProductUpdate.price u) (PrimFloat.leb 0)
  && check (ProductUpdate.originalPrice u) (PrimFloat.leb 0)
  && check (option_map trim (ProductUpdate.color u)) truthy
  && check (ProductUpdate.rentalDuration u) (PrimFloat.leb 1).

(** [Product.findByIdAndUpdate(id, body, { new: true, runValidators: true })]:
    no document middleware runs; the unique index is checked when the
    update writes [slug]. *)
Definition findByIdAndUpdate (i : ObjectId) (u : ProductUpdate.t)
    (coll : list Product.t) : Result (option Product.t * list Product.t) :=
  if negb (validateUpdate u) then Err ValidationError
  else
    match findProductById i coll with
    | None => Ok (None, coll)
    | Some p =>
        let p' := applyUpdate u p in
        if match ProductUpdate.slug u with
           | Some _ => slugConflict coll p'
           | None => false
           end
        then Err (DuplicateKey "slug")
        else Ok (Some p', replaceProduct p' coll)
    end.

(** The block [if (req.body.categories) { ... }] of the update handler: the
    array is filtered in place, must not be left empty, and every id in it
    must be a Category. *)
Definition prepareCategories (body : ProductUpdate.t) : M ProductUpdate.t :=
  match ProductUpdate.categories body with
  | Some cs =>
      let cs' := filterCategories cs in
      guard (negb (List.length cs' =? 0)%nat)
        else failure 400 "At least one category is required" ;;
      verifyCategories cs' ;;
      ret (ProductUpdate.set_categories cs' body)
  | None => ret body
  end.

(** The block [if (req.body.images) { ... }]. *)
Definition prepareImages (env : Env) (body : ProductUpdate.t)
    : M ProductUpdate.t :=
  match ProductUpdate.images body with
  | Some imgs =>
      uploadedImages <- uploadImages env imgs ;;
      ret (ProductUpdate.set_images uploadedImages body)
  | None => ret body
  end.

(** [PUT /api/products/:id], behind [protect] and [admin]. *)
Definition updateProduct (env : Env) (errs : list FieldError)
    (i : ObjectId) (body : ProductUpdate.t) : Db -> Response * Db :=
  tryCatch
    (guard (match errs with [] => true | _ => false end)
       else validationFailure errs ;;
     db <- getDb ;;
     match findProductById i (products db) with
     | None => reply (failure 404 "Product not found")
     | Some _ =>
         body1 <- prepareCategories body ;;
         body2 <- prepareImages env body1 ;;
         db1 <- getDb ;;
         updated <- lift (findByIdAndUpdate i body2 (products db1)) ;;
         putDb (with_products (snd updated) db1) ;;
         ret (mkResponse 200 true (Some "Product updated successfully")
                (match fst updated with
                 | Some p => OneProduct p
                 | None => NoData
                 end))
     end)
    (productOnError "updating").

(** [.populate('categories', ..)]: the references whose category is found,
    in their order; a reference to a category that is gone is dropped from
    the populated array. *)
Definition populated (cats : list Category.t) (ids : list ObjectId)
    : list ObjectId :=
  filter (fun c => match findCategoryById c cats with
                   | Some _ => true
                   | None => false
                   end) ids.

(** [product.save()] on a document that was read with
    [.populate('category', ..).populate('categories', ..)].  The hooks see
    the populated array, so the first hook assigns the first category that
    was found; the write sets the paths that were assigned, and
    [categories], which was not, stays as it is stored. *)
Definition savePopulated (cats : list Category.t) (p : Product.t)
    (coll : list Product.t) : Result (Product.t * list Product.t) :=
  match saveProduct false false
          (Product.set_categories (populated cats (Product.categories p)) p)
          coll with
  | Ok saved =>
      let stored := Product.set_categories (Product.categories p) (fst saved) in
      Ok (stored, replaceProduct stored coll)
  | Err e => Err e
  end.

(** [GET /api/products/:id] behind [optionalAuth]: an authenticated view
    increments [views] and saves the populated document.  The response
    carries the document with its references as they are stored. *)
Definition getProduct (user : option AuthUser) (i : ObjectId)
    : Db -> Response * Db :=
  tryCatch
    (db <- getDb ;;
     match findProductById i (products db) with
     | None => reply (failure 404 "Product not found")
     | Some product =>
         guard (Product.isAvailable product)
           else failure 404 "Product is not available" ;;
         shown <- match user with
                  | Some _ =>
                      let product' :=
                        Product.set_views (Product.views product + 1)%Z product in
                      saved <- lift (savePopulated (categories db) product'
                                       (products db)) ;;
                      putDb (with_products (snd saved) db) ;;
                      ret (fst saved)
                  | None => ret product
                  end ;;
         ret (mkResponse 200 true None (OneProduct shown))
     end)
    (fun _ => failure 500 "Server error while fetching product").

(** ** Product listing *)

(** The filter object a listing handler hands to [Product.find]; an absent
    key is [None]. *)
Record ProductFilter := mkFilter {
  f_isAvailable : option bool;
  f_or_category : option string;     (* [$or: [{category}, {categories}]] *)
  f_text : option string;            (* [$text: { $search }] *)
  f_price : option (option float * option float);   (* [$gte], [$lte] *)
  f_size : option string;            (* ['sizes.size'] *)
  f_color : option string;           (* [$regex], [$options: 'i'] *)
  f_isFeatured : option bool
}.

(** The clause [$or: [{ category: c }, { categories: c }]]: the single
    reference equals [c], or the array holds [c]. *)
Definition matchesCategory (c : string) (p : Product.t) : bool :=
  option_eqb String.eqb (Product.category p) (Some c)
  || existsb (String.eqb c) (Product.categories p).

(** Whether a document satisfies the filter: the conjunction of its keys. *)
Definition matches (env : Env) (f : ProductFilter) (p : Product.t) : bool :=
  check (f_isAvailable f) (Bool.eqb (Product.isAvailable p))
  && check (f_or_category f) (fun c => matchesCategory c p)
  && check (f_text f) (fun s => textSearch env s p)
  && check (f_price f)
       (fun r => check (fst r) (fun lo => PrimFloat.leb lo (Product.price p))
                 && check (snd r) (fun hi => PrimFloat.leb (Product.price p) hi))
  && check (f_size f)
       (fun s => existsb (fun z => String.eqb (Size.size z) s) (Product.sizes p))
  && check (f_color f) (fun c => regexMatchI env c (Product.color p))
  && check (f_isFeatured f) (Bool.eqb (Product.isFeatured p)).

(** The order of two numbers and of two booleans as the database sorts
    them. *)
Definition compareNumber (x y : float) : comparison :=
  match PrimFloat.compare x y with
  | FLt => Lt
  | FGt => Gt
  | _ => Eq
  end.

Definition compareBool (x y : bool) : comparison :=
  match x, y with
  | false, true => Lt
  | true, false => Gt
  | _, _ => Eq
  end.


(** The order of two documents under one sort key.  The handlers pass any
    key of the query on to the database.  Under a key outside
    [sortableKeys], a path the documents of the model do not carry or an
    array, documents compare equal here: where a statement depends on the
    order of a listing it is made for the keys of [sortableKeys] and for
    documents no two of which tie, the order among ties being the
    database's choice. *)
Definition compareField (field : string) (a b : Product.t) : comparison :=
  if String.eqb field "createdAt" then
    Z.compare (Product.createdAt a) (Product.createdAt b)
  else if String.eqb field "views" then
    Z.compare (Product.views a) (Product.views b)
  else if String.eqb field "price" then
    compareNumber (Product.price a) (Product.price b)
  else if String.eqb field "name" then
    String.compare (Product.name a) (Product.name b)
  else if String.eqb field "originalPrice" then
    compareNumber (Product.originalPrice a) (Product.originalPrice b)
  else if String.eqb field "rentalDuration" then
    compareNumber (Product.rentalDuration a) (Product.rentalDuration b)
  else if String.eqb field "description" then
    String.compare (Product.description a) (Product.description b)
  else if String.eqb field "color" then
    String.compare (Product.color a) (Product.color b)
  else if String.eqb field "_id" then
    String.compare (Product._id a) (Product._id b)
  else if String.eqb field "isFeatured" then
    compareBool (Product.isFeatured a) (Product.isFeatured b)
  else if String.eqb field "isAvailable" then
    compareBool (Product.isAvailable a) (Product.isAvailable b)
  else Eq.


(** [sortOptions[sort] = order === 'desc' ? -1 : 1] *)
Definition sortOrder (field order : string) (a b : Product.t) : comparison :=
  if String.eqb order "desc" then compareField field b a
  else compareField field a b.

Fixpoint insertBy {A} (cmp : A -> A -> comparison) (x : A) (l : list A)
    : list A :=
  match l with
  | [] => [x]
  | y :: r =>
      match cmp x y with
      | Gt => y :: insertBy cmp x r
      | _ => x :: l
      end
  end.

Definition sortBy {A} (cmp : A -> A -> comparison) (l : list A) : list A :=
  fold_right (insertBy cmp) [] l.

(** [.skip(n)]: the server refuses a negative count. *)
Definition skipDocs {A} (n : Z) (l : list A) : Result (list A) :=
  if (n <? 0)%Z then Err BadValue else Ok (skipn (Z.to_nat n) l).

(** [.limit(n)]: 0 is no limit, a negative count is its absolute value. *)
Definition limitDocs {A} (n : Z) (l : list A) : list A :=
  if (n =? 0)%Z then l else firstn (Z.abs_nat n) l.

(** [Product.find(filter).sort(..).limit(limit).skip(skip).exec()] *)
Definition findProducts (env : Env) (f : ProductFilter) (field order : string)
    (limit skip : Z) (coll : list Product.t) : Result (list Product.t) :=
  match skipDocs skip (sortBy (sortOrder field order) (filter (matches env f) coll)) with
  | Ok l => Ok (limitDocs limit l)
  | Err e => Err e
  end.

(** [Product.countDocuments(filter)] *)
Definition countProducts (env : Env) (f : ProductFilter)
    (coll : list Product.t) : Z :=
  Z.of_nat (List.length (filter (matches env f) coll)).

(** [Math.ceil(total / limit)] on integers *)
Definition ceilDiv (total limit : Z) : option Z :=
  if (limit =? 0)%Z then None else Some (- ((- total) / limit))%Z.

Module ListQuery.

(** [req.query] of [GET /api/products], with its defaults applied and its
    numbers parsed; a key that is absent or empty is [None]. *)
Record t := mk {
  page : Z;
  limit : Z;
  category : option string;
  search : option string;
  minPrice : option float;
  maxPrice : option float;
  size : option string;
  color : option string;
  sort : string;
  order : string;
  featured : option string
}.

End ListQuery.

Definition truthyParam (o : option string) : option string :=
  match o with
  | Some s => if truthy s then Some s else None
  | None => None
  end.

(** The filter object [GET /api/products] builds. *)
Definition buildFilter (q : ListQuery.t) : ProductFilter :=
  mkFilter (Some true)
    (truthyParam (ListQuery.category q))
    (truthyParam (ListQuery.search q))
    (match ListQuery.minPrice q, ListQuery.maxPrice q with
     | None, None => None
     | lo, hi => Some (lo, hi)
     end)
    (truthyParam (ListQuery.size q))
    (truthyParam (ListQuery.color q))
    (match ListQuery.featured q with
     | Some s => if String.eqb s "true" then Some true else None
     | None => None
     end).

(** [Product.updateMany({ _id: { $in: ids } }, { $inc: { views: 1 } })] *)
Definition incViews (ids : list ObjectId) (coll : list Product.t)
    : list Product.t :=
  map (fun p => if includes ids (Product._id p)
                then Product.set_views (Product.views p + 1)%Z p else p) coll.

(** [GET /api/products] behind [optionalAuth]. *)
Definition listProducts (env : Env) (user : option AuthUser)
    (q : ListQuery.t) : Db -> Response * Db :=
  tryCatch
    (let f := buildFilter q in
     db <- getDb ;;
     found <- lift (findProducts env f (ListQuery.sort q) (ListQuery.order q)
                      (ListQuery.limit q * 1)
                      ((ListQuery.page q - 1) * ListQuery.limit q)
                      (products db)) ;;
     let total := countProducts env f (products db) in
     match user with
     | Some _ =>
         putDb (with_products (incViews (map Product._id found) (products db)) db)
     | None => ret tt
     end ;;
     ret (mkResponse 200 true None
            (ProductPage found
               (mkPageInfo (ceilDiv total (ListQuery.limit q))
                           (ListQuery.page q) total))))
    (fun _ => failure 500 "Server error while fetching products").

(** [GET /api/products/category/:categoryId] behind [optionalAuth].  As in
    the other handlers the page carries the documents with their
    references as they are stored; the handler's [populate] replaces each
    reference by the name and slug of the category it finds, and by
    nothing when the category is gone. *)
Definition listByCategory (env : Env) (categoryId : string)
    (page limit : Z) (sort order : string) : Db -> Response * Db :=
  tryCatch
    (let f := mkFilter (Some true) (Some categoryId) None None None None None in
     db <- getDb ;;
     found <- lift (findProducts env f sort order (limit * 1)
                      ((page - 1) * limit) (products db)) ;;
     let total := countProducts env f (products db) in
     ret (mkResponse 200 true None
            (ProductPage found (mkPageInfo (ceilDiv total limit) page total))))
    (fun _ => failure 500 "Server error while fetching products").

(** ** Saving an Order *)

(** [s.slice(-2)] *)
Definition lastTwo (s : string) : string :=
  substring (String.length s - 2) 2 s.

Fixpoint zeros (n : nat) : string :=
  match n with
  | O => EmptyString
  | S n' => String "0"%char (zeros n')
  end.

(** [s.padStart(n, '0')] *)
Definition padStart (n : nat) (s : string) : string :=
  zeros (n - String.length s) ++ s.

(** The pre-save hook of [orderSchema], for a new document:
    [`ORD${year}${month}${day}${random}`] *)
Definition makeOrderNumber (env : Env) : string :=
  "ORD" ++ lastTwo (decimal (fullYear env))
        ++ padStart 2 (decimal (month env + 1))
        ++ padStart 2 (decimal (dayOfMonth env))
        ++ padStart 3 (decimal (random1000 env)).

Definition orderPreSave (env : Env) (isNew : bool) (o : Order.t) : Order.t :=
  if negb isNew then o else Order.set_orderNumber (makeOrderNumber env) o.

(** The validators declared in [orderSchema]. *)
Definition validateItem (it : OrderItem.t) : bool :=
  PrimFloat.leb 1 (OrderItem.quantity it)
  && PrimFloat.leb 1 (OrderItem.rentalDuration it)
  && negb (is_nan (OrderItem.price it))
  && negb (is_nan (OrderItem.totalPrice it)).

Definition validateAddress (a : Address.t) : bool :=
  truthy (Address.name a) && truthy (Address.phone a)
  && truthy (Address.street a) && truthy (Address.city a)
  && truthy (Address.state a) && truthy (Address.zipCode a)
  && truthy (Address.country a).

Definition isValidDate (d : JsDate) : bool :=
  match d with Some _ => true | None => false end.

Definition validateOrder (o : Order.t) : bool :=
  forallb validateItem (Order.items o)
  && validateAddress (Order.shippingAddress o)
  && includes paymentMethods (Order.paymentMethod o)
  && negb (is_nan (Order.subtotal o))
  && negb (is_nan (Order.shippingCost o))
  && negb (is_nan (Order.tax o))
  && negb (is_nan (Order.totalAmount o))
  && isValidDate (Order.rentalStartDate o)
  && isValidDate (Order.rentalEndDate o)
  && isValidDate (Order.needDate o).

(** The unique index on [orderNumber]. *)
Definition orderNumberConflict (coll : list Order.t) (o : Order.t) : bool :=
  existsb (fun q => option_eqb String.eqb (Order.orderNumber q)
                                          (Order.orderNumber o)
                    && negb (String.eqb (Order._id q) (Order._id o))) coll.

Definition replaceOrder (o : Order.t) (coll : list Order.t) : list Order.t :=
  map (fun q => if String.eqb (Order._id q) (Order._id o) then o else q) coll.

(** [order.save()] *)
Definition saveOrder (env : Env) (isNew : bool) (o : Order.t)
    (coll : list Order.t) : Result (Order.t * list Order.t) :=
  if negb (validateOrder o) then Err ValidationError
  else
    let o' := orderPreSave env isNew o in
    if isNew then
      if orderNumberConflict coll o' then Err (DuplicateKey "orderNumber")
      else Ok (o', coll ++ [o'])
    else Ok (o', replaceOrder o' coll).

(** ** Order routes *)

Module ItemRequest.

Record t := mk {
  product : ObjectId;
  quantity : float;
  rentalDuration : float      (* sent by the client *)
}.

End ItemRequest.

Module NewOrder.

(** The body of [POST /api/orders] and [POST /api/orders/guest]; the three
    dates are the values of [new Date(..)] on the strings sent. *)
Record t := mk {
  items : list ItemRequest.t;
  shippingAddress : Address.t;
  paymentMethod : string;
  rentalStartDate : JsDate;
  rentalEndDate : JsDate;
  needDate : JsDate;
  notes : option string
}.

End NewOrder.

(** The [for (const item of items)] loop, entered with the items priced so
    far and the running subtotal. *)
Fixpoint priceItems (items : list ItemRequest.t)
    (orderItems : list OrderItem.t) (subtotal : float)
    : M (list OrderItem.t * float) :=
  match items with
  | [] => ret (orderItems, subtotal)
  | item :: rest =>
      db <- getDb ;;
      match findProductById (ItemRequest.product item) (products db) with
      | None =>
          reply (failure 400 ("Product with ID " ++ ItemRequest.product item
                              ++ " not found"))
      | Some product =>
          guard (Product.isAvailable product)
            else failure 400 ("Product " ++ Product.name product
                              ++ " is not available") ;;
          let itemTotal :=
            (Product.price product * ItemRequest.quantity item * 1)%float in
          priceItems rest
            (orderItems ++ [OrderItem.mk (Product._id product)
                              (ItemRequest.quantity item) 1%float
                              (Product.price product) itemTotal])
            (subtotal + itemTotal)%float
      end
  end.

(** The body shared, line for line, by the two creation handlers; they
    differ in the [user] and [isGuestOrder] they give the new order. *)
Definition createOrderAs (owner : option ObjectId) (guest : bool)
    (env : Env) (errs : list FieldError) (body : NewOrder.t)
    : Db -> Response * Db :=
  tryCatch
    (guard (match errs with [] => true | _ => false end)
       else validationFailure errs ;;
     let startDate := NewOrder.rentalStartDate body in
     let endDate := NewOrder.rentalEndDate body in
     let needDateObj := NewOrder.needDate body in
     let today := startOfToday env in
     guard (negb (date_lt startDate today))
       else failure 400 "Rental start date cannot be in the past" ;;
     guard (negb (date_le endDate startDate))
       else failure 400 "Rental end date must be after start date" ;;
     guard (negb (date_lt needDateObj today))
       else failure 400 "Need date cannot be in the past" ;;
     priced <- priceItems (NewOrder.items body) [] 0%float ;;
     let orderItems := fst priced in
     let subtotal := snd priced in
     let shippingCost := (if PrimFloat.ltb 100 subtotal then 0 else 10)%float in
     let tax := (subtotal * 0.08)%float in
     let totalAmount := (subtotal + shippingCost + tax)%float in
     let order :=
       Order.mk (newId env) owner guest orderItems
         (NewOrder.shippingAddress body) (NewOrder.paymentMethod body)
         PaymentPending Pending subtotal shippingCost tax totalAmount None
         startDate endDate needDateObj (NewOrder.notes body) None true in
     db <- getDb ;;
     saved <- lift (saveOrder env true order (orders db)) ;;
     putDb (with_orders (snd saved) db) ;;
     ret (mkResponse 201 true (Some "Order created successfully")
            (OneOrder (fst saved))))
    (fun _ => failure 500 "Server error while creating order").

(** [POST /api/orders], behind [protect] *)
Definition createOrder (user : AuthUser) : Env -> list FieldError ->
    NewOrder.t -> Db -> Response * Db :=
  createOrderAs (Some (id user)) false.

(** [POST /api/orders/guest] *)
Definition createGuestOrder : Env -> list FieldError -> NewOrder.t ->
    Db -> Response * Db :=
  createOrderAs None true.

Definition findOrderById (i : ObjectId) (coll : list Order.t)
    : option Order.t :=
  find (fun o => String.eqb (Order._id o) i) coll.

(** [order.user.toString()] and [order.user._id.toString()]: reading a
    property of [null] throws. *)
Definition ownerString (o : Order.t) : M string :=
  match Order.user o with
  | Some u => ret u
  | None => throw TypeError
  end.

(** [req.user.role !== 'admin' && <owner> !== req.user.id] *)
Definition notAllowed (user : AuthUser) (o : Order.t) : M bool :=
  if negb (isAdmin user) then
    owner <- ownerString o ;;
    ret (negb (String.eqb owner (id user)))
  else ret false.

(** [.populate('user', ..)] on the order that [GET /api/orders/:id] reads:
    the reference is replaced by the owner's account, and by [null] when
    the users collection holds no such account.  The requester is a user
    the access gate has verified for this request, so their own account is
    there. *)
Definition populateOwner (requester : AuthUser) (accounts : Accounts)
    (o : Order.t) : Order.t :=
  match Order.user o with
  | Some u =>
      if String.eqb u (id requester) || includes accounts u then o
      else
        Order.mk (Order._id o) None (Order.isGuestOrder o) (Order.items o)
          (Order.shippingAddress o) (Order.paymentMethod o)
          (Order.paymentStatus o) (Order.orderStatus o) (Order.subtotal o)
          (Order.shippingCost o) (Order.tax o) (Order.totalAmount o)
          (Order.orderNumber o) (Order.rentalStartDate o)
          (Order.rentalEndDate o) (Order.needDate o) (Order.notes o)
          (Order.adminNotes o) (Order.isActive o)
  | None => o
  end.

(** [GET /api/orders/:id], behind [protect].  The ownership check reads
    the populated order; the response carries the order with its
    references as they are stored. *)
Definition getOrder (user : AuthUser) (i : ObjectId) : Db -> Response * Db :=
  tryCatch
    (db <- getDb ;;
     match findOrderById i (orders db) with
     | None => reply (failure 404 "Order not found")
     | Some order =>
         denied <- notAllowed user (populateOwner user (users db) order) ;;
         guard (negb denied) else failure 403 "Access denied" ;;
         ret (mkResponse 200 true None (OneOrder order))
     end)
    (fun _ => failure 500 "Server error while fetching order").

Definition cancellableStatuses : list string := ["Pending"; "Confirmed"].

(** [PUT /api/orders/:id/cancel], behind [protect]; [adminNotes] is
    [req.body.adminNotes]. *)
Definition cancelOrder (env : Env) (user : AuthUser) (i : ObjectId)
    (adminNotes : option string) : Db -> Response * Db :=
  tryCatch
    (db <- getDb ;;
     match findOrderById i (orders db) with
     | None => reply (failure 404 "Order not found")
     | Some order =>
         denied <- notAllowed user order ;;
         guard (negb denied) else failure 403 "Access denied" ;;
         guard (includes cancellableStatuses
                  (orderStatusName (Order.orderStatus order)))
           else failure 400 "Order cannot be cancelled in its current status" ;;
         let order1 := Order.set_orderStatus Cancelled order in
         let order2 :=
           if isAdmin user then
             Order.set_adminNotes
               (trim (match truthyParam adminNotes with
                      | Some note => note
                      | None => "Order cancelled by admin"
                      end)) order1
           else order1 in
         saved <- lift (saveOrder env false order2 (orders db)) ;;
         putDb (with_orders (snd saved) db) ;;
         ret (mkResponse 200 true (Some "Order cancelled successfully")
                (OneOrder (fst saved)))
     end)
    (fun _ => failure 500 "Server error while cancelling order").

(** [Order.countDocuments({ orderStatus: name })] *)
Definition countByStatus (name : string) (coll : list Order.t) : nat :=
  List.length
    (filter (fun o => String.eqb (orderStatusName (Order.orderStatus o)) name)
            coll).

(** [{ $match: { orderStatus: { $in: ['Delivered', 'Paid'] } } }] *)
Definition revenueMatch (o : Order.t) : bool :=
  includes ["Delivered"; "Paid"] (orderStatusName (Order.orderStatus o)).

(** The aggregation pipeline: one group over the matched orders, and no
    group at all when none matches. *)
Definition revenueData (coll : list Order.t) : list float :=
  match filter revenueMatch coll with
  | [] => []
  | matched =>
      [fold_left (fun acc o => (acc + Order.totalAmount o)%float) matched 0%float]
  end.

(** [revenueData.length > 0 ? revenueData[0].totalRevenue : 0] *)
Definition computeTotalRevenue (coll : list Order.t) : float :=
  match revenueData coll with
  | r :: _ => r
  | [] => 0%float
  end.

(** [GET /api/orders/stats/summary], behind [protect] and [admin]; the
    summary of the response (its list of recent orders is left out). *)
Definition orderStats : Db -> Response * Db :=
  tryCatch
    (db <- getDb ;;
     let coll := orders db in
     ret (mkResponse 200 true None
            (OrderSummary
               (mkSummary (List.length coll)
                          (countByStatus "Pending" coll)
                          (countByStatus "Delivered" coll)
                          (countByStatus "Cancelled" coll)
                          (computeTotalRevenue coll)))))
    (fun _ => failure 500 "Server error while fetching order statistics").

(** The revenue in the words of the specification: the amounts of the orders
    that are delivered or paid. *)
Definition spec_revenueMatch (o : Order.t) : bool :=
  match Order.orderStatus o, Order.paymentStatus o with
  | Delivered, _ => true
  | _, Paid => true
  | _, _ => false
  end.

Definition spec_totalRevenue (coll : list Order.t) : float :=
  fold_left (fun acc o => (acc + Order.totalAmount o)%float)
            (filter spec_revenueMatch coll) 0%float.

(** What is left of a string after its leading run of characters outside
    [[a-z0-9]]: where the scan of [replace_runs] is once the run is over. *)
Fixpoint skip_run (s : string) : string :=
  match s with
  | String c r => if is_slug_char c then s else skip_run r
  | EmptyString => s
  end.

(** The candidates the slug loop goes through: [base], [base-1], [base-2], ... *)
Definition slugCandidate (base : string) (k : nat) : string :=
  match k with
  | O => base
  | S _ => base ++ "-" ++ decimal k
  end.

(** The products the specification lets a category listing return: the
    available ones that reference [c] in either field. *)
Definition inCategory (c : string) (p : Product.t) : Prop :=
  Product.isAvailable p = true
  /\ (Product.category p = Some c \/ In c (Product.categories p)).

(** The filter of a listing by category alone. *)
Definition categoryOnly (c : string) : ProductFilter :=
  mkFilter (Some true) (Some c) None None None None None.

(** The products of a listing response. *)
Definition pageProducts (r : Response) : list Product.t :=
  match data r with
  | ProductPage ps _ => ps
  | _ => []
  end.

(** An order item priced from a request item, as the specification has it:
    the product exists and is available, its current price is copied, the
    duration is 1 day whatever the client sent, and the line total is
    price times quantity times 1. *)
Definition linePriced (coll : list Product.t) (req : ItemRequest.t)
    (it : OrderItem.t) : Prop :=
  exists product,
    findProductById (ItemRequest.product req) coll = Some product
    /\ Product.isAvailable product = true
    /\ it = OrderItem.mk (Product._id product) (ItemRequest.quantity req)
              1%float (Product.price product)
              (Product.price product * ItemRequest.quantity req * 1)%float.

(** The sum of the line totals, added in the order of the items. *)
Definition sumLines (lines : list OrderItem.t) (start : float) : float :=
  fold_left (fun acc it => (acc + OrderItem.totalPrice it)%float) lines start.

(** The three answers of the date rules. *)
Definition dateRuleMessages : list (option string) :=
  [Some "Rental start date cannot be in the past";
   Some "Rental end date must be after start date";
   Some "Need date cannot be in the past"].

(** The order of a response. *)
Definition responseOrder (r : Response) : option Order.t :=
  match data r with
  | OneOrder o => Some o
  | _ => None
  end.

(** The requester of the specification's cancellation rule: an admin or
    the owner of the order. *)
Definition mayCancel (user : AuthUser) (o : Order.t) : Prop :=
  isAdmin user = true \/ Order.user o = Some (id user).

Definition isCancellable (o : Order.t) : Prop :=
  Order.orderStatus o = Pending \/ Order.orderStatus o = Confirmed.

(** ** Sample data *)

Module Sample.

Definition noUpload (_ : string) : option string := None.
Definition noText (_ : string) (_ : Product.t) : bool := false.
Definition noRegex (_ _ : string) : bool := false.

(** 2024-05-05T10:00:00Z on a server five and a half hours ahead of UTC *)
Definition env (newId : ObjectId) : Env :=
  mkEnv 1714903200000 (fun _ _ => 19800000%Z) 2024 4 5 7 newId noUpload noText
    noRegex.

(** 2024-11-03T15:00:00Z in New York, on the day the clocks go back at
    06:00Z from four to five hours behind UTC: a day of 25 hours. *)
Definition autumn : Env :=
  mkEnv 1730646000000
    (fun t isUTC =>
       if isUTC then if (t <? 1730613600000)%Z then -14400000 else -18000000
       else if (t <? 1730599200000)%Z then -14400000 else -18000000)%Z
    2024 10 3 7 "o9" noUpload noText noRegex.

Definition dresses : Category.t :=
  Category.mk "c1" "Dresses" (Some "dresses") true 0.

Definition gowns : Category.t :=
  Category.mk "c2" "Gowns" (Some "gowns") true 1.

Definition redDress : NewProduct.t :=
  NewProduct.mk "Red Dress" "A red dress" [Some "c1"] ["https://img/red.jpg"]
    40 120 [Size.mk "M" true 1] "red" 1 None.

(** The accounts of the admin and of two customers. *)
Definition accounts : Accounts := ["u0"; "u1"; "u2"].

Definition emptyShop : Db := mkDb [] [dresses; gowns] [] accounts.

(** The shop after the same product is created twice. *)
Definition twoRedDresses : Db :=
  snd (createProduct (env "p2") [] redDress
         (snd (createProduct (env "p1") [] redDress emptyShop))).

(** The first of them as it is stored, and a later save of it that sets its
    name again. *)
Definition firstRedDress : Product.t :=
  Product.mk "p1" "Red Dress" "A red dress" ["c1"] (Some "c1")
    ["https://img/red.jpg"] 40 120 [Size.mk "M" true 1] "red" 1 true false
    (Some "red-dress") 0 1714903200000.

(** A product whose [categories] were replaced by an update: its [category]
    still names the old first category. *)
Definition staleDress : Product.t :=
  Product.mk "p1" "Red Dress" "A red dress" ["c2"; "c1"] (Some "c1")
    ["https://img/red.jpg"] 40 120 [Size.mk "M" true 1] "red" 1 true false
    (Some "red-dress") 0 1714903200000.

Definition resyncedDress : Product.t :=
  Product.set_category (Some "c2") staleDress.

(** A shop holding that product, and an update of it that replaces its
    categories and renames it. *)
Definition shop : Db := mkDb [firstRedDress] [dresses; gowns] [] accounts.

Definition recategorise : ProductUpdate.t :=
  ProductUpdate.mk (Some "Blue Gown") None (Some [Some "c2"]) None None None
    None None None None None None None None.

(** A catalog with one product per way of referencing the category c1:
    by the legacy field alone, by the array alone, by both but unavailable,
    and not at all. *)
Definition item (i : ObjectId) (cats : list ObjectId) (cat : option ObjectId)
    (available : bool) (created : Z) : Product.t :=
  Product.mk i "Dress" "A dress" cats cat ["https://img/d.jpg"] 40 120
    [Size.mk "M" true 1] "red" 1 available false None 0 created.

Definition legacyOnly : Product.t := item "a" [] (Some "c1") true 1.
Definition arrayOnly : Product.t := item "b" ["c2"; "c1"] (Some "c2") true 2.
Definition hidden : Product.t := item "c" ["c1"] (Some "c1") false 3.
Definition elsewhere : Product.t := item "d" ["c2"] (Some "c2") true 4.

Definition catalog : Db :=
  mkDb [legacyOnly; arrayOnly; hidden; elsewhere] [dresses; gowns] [] accounts.

(** A wardrobe of three dresses at 40, 70 and 60 a day, a customer, and
    baskets for the days after the sample clock. *)
Definition priced (i : ObjectId) (price : float) : Product.t :=
  Product.mk i "Dress" "A dress" ["c1"] (Some "c1") ["https://img/d.jpg"]
    price 120 [Size.mk "M" true 1] "red" 1 true false None 0 0.

Definition wardrobe : Db :=
  mkDb [priced "p40" 40; priced "p70" 70; priced "p60" 60] [dresses; gowns] []
    accounts.

Definition alice : AuthUser := mkAuthUser "u1" RoleUser.
Definition bob : AuthUser := mkAuthUser "u2" RoleUser.
Definition root : AuthUser := mkAuthUser "u0" RoleAdmin.

Definition home : Address.t :=
  Address.mk "Alice" "555-0100" "1 Main St" "Indore" "MP" "452001" "India".

Definition tomorrow : Z := 1714989600000.
Definition dayAfter : Z := 1715076000000.

(** Two dresses for one day each, the client asking for 3 and 5 days. *)
Definition basket : NewOrder.t :=
  NewOrder.mk [ItemRequest.mk "p40" 1 3; ItemRequest.mk "p70" 1 5] home
    "PayPal" (Some tomorrow) (Some dayAfter) (Some tomorrow) None.

Definition smallBasket : NewOrder.t :=
  NewOrder.mk [ItemRequest.mk "p60" 1 2] home "Cash on Delivery"
    (Some tomorrow) (Some dayAfter) (Some tomorrow) None.

(** The same basket returned on the day it starts. *)
Definition sameDayBasket : NewOrder.t :=
  NewOrder.mk [ItemRequest.mk "p40" 1 3; ItemRequest.mk "p70" 1 5] home
    "PayPal" (Some tomorrow) (Some tomorrow) (Some tomorrow) None.

(** The amounts of the order of a response. *)
Definition amounts (r : Response) : option (float * float * float * float) :=
  option_map (fun o => (Order.subtotal o, Order.shippingCost o, Order.tax o,
                        Order.totalAmount o)) (responseOrder r).

(** The wardrobe after Alice's order, after a guest's order, and with
    Alice's order shipped. *)
Definition placed : Db :=
  snd (createOrder alice (env "o1") [] basket wardrobe).

Definition placedByGuest : Db :=
  snd (createGuestOrder (env "o2") [] smallBasket wardrobe).

Definition shipped : Db :=
  with_orders (map (Order.set_orderStatus Shipped) (orders placed)) placed.

(** The wardrobe with Alice's order paid but not yet delivered. *)
Definition paid : Db :=
  with_orders (map (Order.set_paymentStatus Paid) (orders placed)) placed.

(** The revenue of a statistics response. *)
Definition revenue (r : Response) : option float :=
  match data r with
  | OrderSummary s => Some (totalRevenue s)
  | _ => None
  end.

(** A creation request whose categories are a null and an empty string. *)
Definition uncategorised : NewProduct.t :=
  NewProduct.mk "Red Dress" "A red dress" [None; Some EmptyString]
    ["https://img/red.jpg"] 40 120 [Size.mk "M" true 1] "red" 1 None.

(** A third product of that name, before its first save. *)
Definition thirdRedDress : Product.t :=
  Product.mk "p3" "Red Dress" "A red dress" ["c1"] None
    ["https://img/red.jpg"] 40 120 [Size.mk "M" true 1] "red" 1 true false
    None 0 1714903200000.

End Sample.

(** ** Further routes

    The handlers below answer with data that [Payload] has no constructor
    for.  Their outcome is either an error envelope or what a successful
    answer carries: its status, its message and its data. *)

Inductive Outcome (D : Type) : Type :=
| Refused (r : Response)
| Served (code : nat) (msg : option string) (d : D).

Arguments Refused {D} r.
Arguments Served {D} code msg d.

Definition served {D} (o : Outcome D) : option D :=
  match o with
  | Served _ _ d => Some d
  | Refused _ => None
  end.

(** [try { body } catch (error) { onError }] for such a handler: every early
    [return res.status(..).json(..)] of these handlers is an error. *)
Definition serve {D} (body : M (nat * option string * D))
    (onError : Exn -> Response) : Db -> Outcome D * Db :=
  fun db =>
    match body db with
    | (Next (code, msg, d), db') => (Served code msg d, db')
    | (Reply r, db') => (Refused r, db')
    | (Throw e, db') => (Refused (onError e), db')
    end.

Record Page (A : Type) := mkPage {
  pageItems : list A;
  pageInfo : PageInfo
}.

Arguments mkPage {A} pageItems pageInfo.
Arguments pageItems {A} p.
Arguments pageInfo {A} p.

(** *** Orders *)

(** The filter object of [GET /api/orders]. *)
Record OrderFilter := mkOrderFilter {
  of_user : option ObjectId;
  of_orderStatus : option string
}.

Definition matchesOrder (f : OrderFilter) (o : Order.t) : bool :=
  check (of_user f) (fun u => option_eqb String.eqb (Order.user o) (Some u))
  && check (of_orderStatus f)
       (fun st => String.eqb (orderStatusName (Order.orderStatus o)) st).

(** The order of two orders under a sort key other than [createdAt].  The
    handler passes any key on to the database; orders compare equal here
    under a key that is not listed, and the statements about the listing
    of orders do not depend on the order of a page. *)
Definition compareOrderField (field : string) (a b : Order.t) : comparison :=
  if String.eqb field "totalAmount" then
    match PrimFloat.compare (Order.totalAmount a) (Order.totalAmount b) with
    | FLt => Lt
    | FGt => Gt
    | _ => Eq
    end
  else if String.eqb field "orderStatus" then
    String.compare (orderStatusName (Order.orderStatus a))
                   (orderStatusName (Order.orderStatus b))
  else Eq.

(** [.sort(sortOptions)] on orders.  An order is appended to the collection
    when it is created, so the collection is in [createdAt] order: sorting
    by [createdAt] keeps it or reverses it. *)
Definition sortOrders (field order : string) (l : list Order.t)
    : list Order.t :=
  if String.eqb field "createdAt" then
    if String.eqb order "desc" then List.rev l else l
  else
    sortBy (fun a b => if String.eqb order "desc"
                       then compareOrderField field b a
                       else compareOrderField field a b) l.

(** [GET /api/orders], behind [protect]. *)
Definition listOrders (user : AuthUser) (page limit : Z)
    (status : option string) (sort order : string)
    : Db -> Outcome (Page Order.t) * Db :=
  serve
    (let flt :=
       mkOrderFilter (if negb (isAdmin user) then Some (id user) else None)
                     (truthyParam status) in
     db <- getDb ;;
     let matched := filter (matchesOrder flt) (orders db) in
     found <- lift (match skipDocs ((page - 1) * limit)
                            (sortOrders sort order matched) with
                    | Ok l => Ok (limitDocs (limit * 1) l)
                    | Err e => Err e
                    end) ;;
     let total := Z.of_nat (List.length matched) in
     ret (200%nat, None,
          mkPage found (mkPageInfo (ceilDiv total limit) page total)))
    (fun _ => failure 500 "Server error while fetching orders").

Module StatusUpdate.

(** The body of [PUT /api/orders/:id/status], as sent. *)
Record t := mk {
  orderStatus : OrderStatus;
  paymentStatus : option PaymentStatus;
  adminNotes : option string
}.

End StatusUpdate.

(** [PUT /api/orders/:id/status], behind [protect] and [admin].  The
    validation chain has trimmed [adminNotes] in the body. *)
Definition updateOrderStatus (env : Env) (errs : list FieldError)
    (i : ObjectId) (body : StatusUpdate.t) : Db -> Response * Db :=
  tryCatch
    (guard (match errs with [] => true | _ => false end)
       else validationFailure errs ;;
     let adminNotes := option_map trim (StatusUpdate.adminNotes body) in
     db <- getDb ;;
     match findOrderById i (orders db) with
     | None => reply (failure 404 "Order not found")
     | Some order =>
         let order1 := Order.set_orderStatus (StatusUpdate.orderStatus body) order in
         let order2 :=
           match StatusUpdate.paymentStatus body with
           | Some ps => Order.set_paymentStatus ps order1
           | None => order1
           end in
         let order3 :=
           match truthyParam adminNotes with
           | Some note => Order.set_adminNotes (trim note) order2
           | None => order2
           end in
         saved <- lift (saveOrder env false order3 (orders db)) ;;
         putDb (with_orders (snd saved) db) ;;
         ret (mkResponse 200 true (Some "Order status updated successfully")
                (OneOrder (fst saved)))
     end)
    (fun _ => failure 500 "Server error while updating order status").

(** [orderSchema.methods.calculateTotal]: the value returned and the
    document after the two assignments. *)
Definition calculateTotal (o : Order.t) : float * Order.t :=
  let subtotal :=
    fold_left (fun sum item => (sum + OrderItem.totalPrice item)%float)
              (Order.items o) 0%float in
  let totalAmount := (subtotal + Order.shippingCost o + Order.tax o)%float in
  (totalAmount,
   Order.mk (Order._id o) (Order.user o) (Order.isGuestOrder o) (Order.items o)
     (Order.shippingAddress o) (Order.paymentMethod o) (Order.paymentStatus o)
     (Order.orderStatus o) subtotal (Order.shippingCost o) (Order.tax o)
     totalAmount (Order.orderNumber o) (Order.rentalStartDate o)
     (Order.rentalEndDate o) (Order.needDate o) (Order.notes o)
     (Order.adminNotes o) (Order.isActive o)).

(** An order whose stored [subtotal] and [totalAmount] are what
    [calculateTotal] would assign. *)
Definition totalsConsistent (o : Order.t) : Prop :=
  calculateTotal o = (Order.totalAmount o, o).

(** *** Products *)



(** [s.includes(sub)] *)
Definition includesString (sub s : string) : bool :=
  match String.index 0 sub s with
  | Some _ => true
  | None => false
  end.

(** [s.split(c).pop()]: what follows the last [c], the whole string when
    there is none.  [acc] is what has been read since the last [c]. *)
Fixpoint afterLast (c : ascii) (s acc : string) : string :=
  match s with
  | EmptyString => acc
  | String d r =>
      if Ascii.eqb d c then afterLast c r EmptyString
      else afterLast c r (acc ++ String d EmptyString)
  end.

(** [s.split(c)[0]]: what precedes the first [c]. *)
Fixpoint beforeFirst (c : ascii) (s : string) : string :=
  match s with
  | EmptyString => EmptyString
  | String d r => if Ascii.eqb d c then EmptyString else String d (beforeFirst c r)
  end.

(** [image.split('/').pop().split('.')[0]] *)
Definition publicIdOf (image : string) : string :=
  beforeFirst "."%char (afterLast "/"%char image EmptyString).

(** The image loop of the delete handlers.  [destroy] is the image store's
    [deleteImage], [false] when it throws; the [try] around the call
    swallows the error. *)
Fixpoint cleanupImages (destroy : string -> bool) (imgs : list string)
    : M unit :=
  match imgs with
  | [] => ret tt
  | image :: rest =>
      (if includesString "cloudinary" image then
         if destroy (publicIdOf image) then ret tt else ret tt
       else ret tt) ;;
      cleanupImages destroy rest
  end.

(** [Model.findByIdAndDelete(id)]: the first document with the id goes. *)
Fixpoint deleteProductById (i : ObjectId) (coll : list Product.t)
    : list Product.t :=
  match coll with
  | [] => []
  | p :: rest =>
      if String.eqb (Product._id p) i then rest
      else p :: deleteProductById i rest
  end.

(** [DELETE /api/products/:id], behind [protect] and [admin]. *)
Definition deleteProduct (destroy : string -> bool) (i : ObjectId)
    : Db -> Response * Db :=
  tryCatch
    (db <- getDb ;;
     match findProductById i (products db) with
     | None => reply (failure 404 "Product not found")
     | Some product =>
         cleanupImages destroy (Product.images product) ;;
         putDb (with_products (deleteProductById i (products db)) db) ;;
         ret (mkResponse 200 true (Some "Product deleted successfully") NoData)
     end)
    (fun _ => failure 500 "Server error while deleting product").

(** *** Categories

    [Category.t] carries the paths of [categorySchema] that are queried;
    [description] and [image] are validated when a document is saved and
    stored beside them. *)

Definition with_categories (cs : list Category.t) (db : Db) : Db :=
  mkDb (products db) cs (orders db) (users db).

(** [Category.findOne({ name })] *)
Definition findCategoryByName (name : string) (coll : list Category.t)
    : option Category.t :=
  find (fun c => String.eqb (Category.name c) name) coll.

(** The validators declared in [categorySchema]; [image] is [None] when the
    save leaves the stored image, which is not empty, as it is. *)
Definition validateCategory (c : Category.t) (description : option string)
    (image : option string) : bool :=
  truthy (Category.name c)
  && (String.length (Category.name c) <=? 50)%nat
  && check description (fun d => (String.length d <=? 200)%nat)
  && check image truthy.

(** The unique indexes on [name] and on [slug]. *)
Definition categoryConflict (coll : list Category.t) (c : Category.t)
    : option string :=
  if existsb (fun q => String.eqb (Category.name q) (Category.name c)
                       && negb (String.eqb (Category._id q) (Category._id c)))
             coll
  then Some "name"
  else if existsb (fun q => option_eqb String.eqb (Category.slug q)
                              (Category.slug c)
                            && negb (String.eqb (Category._id q)
                                                (Category._id c))) coll
  then Some "slug"
  else None.

Definition replaceCategory (c : Category.t) (coll : list Category.t)
    : list Category.t :=
  map (fun q => if String.eqb (Category._id q) (Category._id c) then c else q)
      coll.

(** [category.save()] *)
Definition saveCategory (isNew isModifiedName : bool) (c : Category.t)
    (description image : option string) (coll : list Category.t)
    : Result (Category.t * list Category.t) :=
  if negb (validateCategory c description image) then Err ValidationError
  else
    let c' := categoryPreSaveSlug isModifiedName c in
    match categoryConflict coll c' with
    | Some field => Err (DuplicateKey field)
    | None => Ok (c', if isNew then coll ++ [c'] else replaceCategory c' coll)
    end.

(** The image of a category request: a data URL goes to the image store. *)
Definition storeImage (env : Env) (image : string) : M string :=
  if String.prefix "data:image" image then
    match uploadImage env image with
    | Some u => ret u
    | None => throw UploadFailed
    end
  else ret image.

Module NewCategory.

(** The body of [POST /api/categories], as sent. *)
Record t := mk {
  name : string;
  description : option string;
  image : string;
  sortOrder : option Z
}.

End NewCategory.

(** [POST /api/categories], behind [protect] and [admin].  The validation
    chain has trimmed [name] and [description] in the body. *)
Definition createCategory (env : Env) (errs : list FieldError)
    (body : NewCategory.t) : Db -> Outcome Category.t * Db :=
  serve
    (guard (match errs with [] => true | _ => false end)
       else validationFailure errs ;;
     let name := trim (NewCategory.name body) in
     let description := option_map trim (NewCategory.description body) in
     db <- getDb ;;
     match findCategoryByName name (categories db) with
     | Some _ => reply (failure 400 "Category with this name already exists")
     | None =>
         imageUrl <- storeImage env (NewCategory.image body) ;;
         let category :=
           Category.mk (newId env) name None true
             (orElse (NewCategory.sortOrder body) 0%Z) in
         saved <- lift (saveCategory true true category description
                          (Some imageUrl) (categories db)) ;;
         putDb (with_categories (snd saved) db) ;;
         ret (201%nat, Some "Category created successfully", fst saved)
     end)
    (fun _ => failure 500 "Server error while creating category").

Module CategoryUpdate.

(** The body of [PUT /api/categories/:id], as sent. *)
Record t := mk {
  name : option string;
  description : option string;
  image : option string;
  sortOrder : option Z;
  isActive : option bool
}.

End CategoryUpdate.

(** [PUT /api/categories/:id], behind [protect] and [admin]. *)
Definition updateCategory (env : Env) (errs : list FieldError)
    (i : ObjectId) (body : CategoryUpdate.t) : Db -> Outcome Category.t * Db :=
  serve
    (guard (match errs with [] => true | _ => false end)
       else validationFailure errs ;;
     let name := truthyParam (option_map trim (CategoryUpdate.name body)) in
     let description := option_map trim (CategoryUpdate.description body) in
     db <- getDb ;;
     match findCategoryById i (categories db) with
     | None => reply (failure 404 "Category not found")
     | Some category =>
         let renamed :=
           match name with
           | Some n => negb (String.eqb n (Category.name category))
           | None => false
           end in
         guard (negb renamed
                || match findCategoryByName (orElse name EmptyString)
                           (categories db) with
                   | Some _ => false
                   | None => true
                   end)
           else failure 400 "Category with this name already exists" ;;
         match truthyParam (CategoryUpdate.image body) with
         | Some image => storeImage env image ;; ret tt
         | None => ret tt
         end ;;
         let category' :=
           Category.mk (Category._id category)
             (orElse name (Category.name category))
             (Category.slug category)
             (orElse (CategoryUpdate.isActive body) (Category.isActive category))
             (orElse (CategoryUpdate.sortOrder body)
                     (Category.sortOrder category)) in
         saved <- lift (saveCategory false renamed category' description None
                          (categories db)) ;;
         putDb (with_categories (snd saved) db) ;;
         ret (200%nat, Some "Category updated successfully", fst saved)
     end)
    (fun _ => failure 500 "Server error while updating category").

(** [Category.findByIdAndDelete(id)] *)
Fixpoint deleteCategoryById (i : ObjectId) (coll : list Category.t)
    : list Category.t :=
  match coll with
  | [] => []
  | c :: rest =>
      if String.eqb (Category._id c) i then rest
      else c :: deleteCategoryById i rest
  end.

(** [DELETE /api/categories/:id], behind [protect] and [admin].  The check
    for products of the category is commented out in the source; the
    removal of the stored image, whose failure is swallowed, leaves the
    database alone. *)
Definition deleteCategory (i : ObjectId) : Db -> Response * Db :=
  tryCatch
    (db <- getDb ;;
     match findCategoryById i (categories db) with
     | None => reply (failure 404 "Category not found")
     | Some _ =>
         putDb (with_categories (deleteCategoryById i (categories db)) db) ;;
         ret (mkResponse 200 true (Some "Category deleted successfully") NoData)
     end)
    (fun _ => failure 500 "Server error while deleting category").

(** [GET /api/categories/slug/:slug]: [Category.findOne({ slug, isActive:
    true })], the filter value cast through the lowercasing setter. *)
Definition getCategoryBySlug (slug : string) : Db -> Outcome Category.t * Db :=
  serve
    (db <- getDb ;;
     match find (fun c => option_eqb String.eqb (Category.slug c)
                            (Some (toLowerCase slug))
                          && Bool.eqb (Category.isActive c) true)
                (categories db) with
     | None => reply (failure 404 "Category not found")
     | Some category => ret (200%nat, None, category)
     end)
    (fun _ => failure 500 "Server error while fetching category").

(** [GET /api/categories/:id] *)
Definition getCategory (i : ObjectId) : Db -> Outcome Category.t * Db :=
  serve
    (db <- getDb ;;
     match findCategoryById i (categories db) with
     | None => reply (failure 404 "Category not found")
     | Some category => ret (200%nat, None, category)
     end)
    (fun _ => failure 500 "Server error while fetching category").

(** The order of two categories under a sort key.  The handler passes any
    key on to the database; categories compare equal here under a key that
    is not listed, and the statements about the list of categories do not
    depend on the order of a page. *)
Definition compareCategoryField (field : string) (a b : Category.t)
    : comparison :=
  if String.eqb field "sortOrder" then
    Z.compare (Category.sortOrder a) (Category.sortOrder b)
  else if String.eqb field "name" then
    String.compare (Category.name a) (Category.name b)
  else Eq.

(** [GET /api/categories] *)
Definition listCategories (page limit : Z) (sort order : string)
    : Db -> Outcome (Page Category.t) * Db :=
  serve
    (db <- getDb ;;
     let matched :=
       filter (fun c => Bool.eqb (Category.isActive c) true) (categories db) in
     found <- lift (match skipDocs ((page - 1) * limit)
                            (sortBy (fun a b =>
                                       if String.eqb order "desc"
                                       then compareCategoryField sort b a
                                       else compareCategoryField sort a b)
                                    matched) with
                    | Ok l => Ok (limitDocs (limit * 1) l)
                    | Err e => Err e
                    end) ;;
     let total := Z.of_nat (List.length matched) in
     ret (200%nat, None,
          mkPage found (mkPageInfo (ceilDiv total limit) page total)))
    (fun _ => failure 500 "Server error while fetching categories").

(** *** Users *)

(** [User.findByIdAndDelete(id)] *)
Fixpoint deleteAccount (i : ObjectId) (coll : Accounts) : Accounts :=
  match coll with
  | [] => []
  | u :: rest => if String.eqb u i then rest else u :: deleteAccount i rest
  end.

(** [DELETE /api/users/:id], behind [protect] and [admin].  The check for
    orders of the user is commented out in the source: the account goes,
    whatever orders name it. *)
Definition deleteUser (user : AuthUser) (i : ObjectId) : Db -> Response * Db :=
  tryCatch
    (db <- getDb ;;
     guard (includes (users db) i) else failure 404 "User not found" ;;
     guard (negb (String.eqb i (id user)))
       else failure 400 "Cannot delete your own account" ;;
     putDb (with_users (deleteAccount i (users db)) db) ;;
     ret (mkResponse 200 true (Some "User deleted successfully") NoData))
    (fun _ => failure 500 "Server error while deleting user").

(** *** The migration to multiple categories *)

(** [{ $or: [{ categories: { $exists: false } }, { categories: { $size: 0 } }] }]:
    a product without the array is one whose array is empty. *)
Definition lacksCategories (p : Product.t) : bool :=
  match Product.categories p with
  | [] => true
  | _ => false
  end.

(** The loop of [migrateToMultipleCategories] over the products found, with
    the collection as the saves leave it and the count of updates; an
    error thrown by a save ends the run where it stands. *)
Fixpoint migrateLoop (todo : list Product.t) (coll : list Product.t)
    (updatedCount : nat) : bool * nat * list Product.t :=
  match todo with
  | [] => (true, updatedCount, coll)
  | product :: rest =>
      match Product.category product with
      | Some c =>
          match saveProduct false false (Product.set_categories [c] product)
                  coll with
          | Ok saved => migrateLoop rest (snd saved) (S updatedCount)
          | Err _ => (false, updatedCount, coll)
          end
      | None => migrateLoop rest coll updatedCount
      end
  end.

(** [migrateToMultipleCategories]: whether the run completed, the count it
    logs, and the collection it leaves. *)
Definition migrateToMultipleCategories (coll : list Product.t)
    : bool * nat * list Product.t :=
  migrateLoop (filter lacksCategories coll) coll 0.

(** What the migration makes of one product. *)
Definition migrated (p : Product.t) : Product.t :=
  match Product.categories p, Product.category p with
  | [], Some c => Product.set_categories [c] p
  | _, _ => p
  end.

(** *** What the order handlers write *)

(** The order [PUT /api/orders/:id/status] saves in place of [o]. *)
Definition statusUpdated (body : StatusUpdate.t) (o : Order.t) : Order.t :=
  let order1 := Order.set_orderStatus (StatusUpdate.orderStatus body) o in
  let order2 :=
    match StatusUpdate.paymentStatus body with
    | Some ps => Order.set_paymentStatus ps order1
    | None => order1
    end in
  match truthyParam (option_map trim (StatusUpdate.adminNotes body)) with
  | Some note => Order.set_adminNotes (trim note) order2
  | None => order2
  end.

(** The order [PUT /api/orders/:id/cancel] saves in place of [o]. *)
Definition cancelledBy (user : AuthUser) (notes : option string)
    (o : Order.t) : Order.t :=
  if isAdmin user then
    Order.set_adminNotes
      (trim (match truthyParam notes with
             | Some note => note
             | None => "Order cancelled by admin"
             end)) (Order.set_orderStatus Cancelled o)
  else Order.set_orderStatus Cancelled o.

(** Two orders that differ at most in their two statuses and their admin
    notes. *)
Definition sameOrderBut (o o' : Order.t) : Prop :=
  Order._id o' = Order._id o
  /\ Order.user o' = Order.user o
  /\ Order.isGuestOrder o' = Order.isGuestOrder o
  /\ Order.items o' = Order.items o
  /\ Order.shippingAddress o' = Order.shippingAddress o
  /\ Order.paymentMethod o' = Order.paymentMethod o
  /\ Order.subtotal o' = Order.subtotal o
  /\ Order.shippingCost o' = Order.shippingCost o
  /\ Order.tax o' = Order.tax o
  /\ Order.totalAmount o' = Order.totalAmount o
  /\ Order.orderNumber o' = Order.orderNumber o
  /\ Order.rentalStartDate o' = Order.rentalStartDate o
  /\ Order.rentalEndDate o' = Order.rentalEndDate o
  /\ Order.needDate o' = Order.needDate o
  /\ Order.notes o' = Order.notes o
  /\ Order.isActive o' = Order.isActive o.

(** Decimal digits. *)
Definition is_digit (c : ascii) : bool :=
  let n := nat_of_ascii c in (48 <=? n)%nat && (n <=? 57)%nat.

Fixpoint allChars (ok : ascii -> bool) (s : string) : bool :=
  match s with
  | EmptyString => true
  | String c r => ok c && allChars ok r
  end.

(** A calendar date and a random draw as the clock and [Math.random] give
    them. *)
(** A string of [k] decimal digits. *)
Definition isDigits (k : nat) (s : string) : bool :=
  (String.length s =? k)%nat && allChars is_digit s.

Definition plausibleClock (env : Env) : Prop :=
  (10 <= fullYear env < 4999)%nat
  /\ (month env < 12)%nat
  /\ (1 <= dayOfMonth env <= 31)%nat
  /\ (random1000 env < 1000)%nat.

(** *** More sample data *)

Module More.

(** Alice's order, as stored. *)
Definition aliceOrder : Order.t :=
  Order.set_orderNumber "ORD240505007"
    (Order.mk "o1" (Some "u1") false
       [OrderItem.mk "p40" 1 1 40 40; OrderItem.mk "p70" 1 1 70 70]
       Sample.home "PayPal" PaymentPending Pending 110 0 8.8 118.8 None
       (Some Sample.tomorrow) (Some Sample.dayAfter) (Some Sample.tomorrow)
       None None true).

(** A shop with Alice's order and a guest's. *)
Definition twoOrders : Db :=
  snd (createGuestOrder (mkEnv 1714903200000 (fun _ _ => 19800000%Z) 2024 4 5 8
                           "o2"
                           Sample.noUpload Sample.noText Sample.noRegex) []
         Sample.smallBasket Sample.placed).

(** A category that is about to be deleted, a product whose first
    category it is, and the shop before and after the deletion. *)
Definition retired : Category.t :=
  Category.mk "c9" "Retired" (Some "retired") true 2.

Definition mixedDress : Product.t :=
  Product.mk "p1" "Red Dress" "A red dress" ["c9"; "c2"] (Some "c9")
    ["https://img/red.jpg"] 40 120 [Size.mk "M" true 1] "red" 1 true false
    (Some "red-dress") 0 1714903200000.

Definition beforeRetiring : Db :=
  mkDb [mixedDress] [retired; Sample.gowns] [] Sample.accounts.

Definition afterRetiring : Db := snd (deleteCategory "c9" beforeRetiring).

(** The shop after the admin has deleted Alice's account: her order stays. *)
Definition orphaned : Db := snd (deleteUser Sample.root "u1" Sample.placed).

Definition deliver : StatusUpdate.t :=
  StatusUpdate.mk Delivered (Some Paid) (Some "  ").

(** A product with one image in the image store and one elsewhere. *)
Definition hosted : Product.t :=
  Product.mk "p9" "Gown" "A gown" ["c2"] (Some "c2")
    ["https://res.cloudinary.com/demo/image/upload/v1/products/gown.front.jpg";
     "https://img/gown.jpg"]
    90 300 [Size.mk "L" true 1] "blue" 1 true false (Some "gown") 0 5.

Definition boutique : Db :=
  mkDb [Sample.firstRedDress; hosted] [Sample.dresses; Sample.gowns]
       [aliceOrder] Sample.accounts.

Definition tops : NewCategory.t :=
  NewCategory.mk "  Summer Tops " (Some "Light tops") "https://img/tops.jpg"
    None.

(** A second category whose name differs from "Summer Tops" and slugs
    alike. *)
Definition topsAgain : NewCategory.t :=
  NewCategory.mk "Summer  Tops!" None "https://img/tops2.jpg" None.

Definition withTops : Db :=
  snd (createCategory (Sample.env "c3") [] tops Sample.emptyShop).

(** Three products from before the [categories] array: one with a legacy
    category, one with neither, one already migrated. *)
Definition legacy : list Product.t :=
  [Sample.legacyOnly;
   Sample.item "e" [] None true 5;
   Sample.arrayOnly].

End More.

(** *** Orders as the creation handlers build them *)

(** The order a creation handler hands to [save], from the priced items. *)
Definition draftOrder (owner : option ObjectId) (guest : bool) (env : Env)
    (body : NewOrder.t) (priced : list OrderItem.t * float) : Order.t :=
  let subtotal := snd priced in
  let shippingCost := (if PrimFloat.ltb 100 subtotal then 0 else 10)%float in
  let tax := (subtotal * 0.08)%float in
  Order.mk (newId env) owner guest (fst priced)
    (NewOrder.shippingAddress body) (NewOrder.paymentMethod body)
    PaymentPending Pending subtotal shippingCost tax
    (subtotal + shippingCost + tax)%float None
    (NewOrder.rentalStartDate body) (NewOrder.rentalEndDate body)
    (NewOrder.needDate body) (NewOrder.notes body) None true.

(** The decimal digits of [n] in exactly [width] places, the most
    significant first. *)
Fixpoint fixedDigits (width n : nat) : string :=
  match width with
  | O => EmptyString
  | S w =>
      (fixedDigits w (n / 10)
       ++ String (ascii_of_nat (48 + n mod 10)) EmptyString)%string
  end.

(** *** Measures of a collection *)

(** The views of all products together. *)
Definition totalViews (coll : list Product.t) : Z :=
  fold_right (fun p acc => (Product.views p + acc)%Z) 0%Z coll.


(** Whether a character occurs in a string. *)
Fixpoint occurs (c : ascii) (s : string) : bool :=
  match s with
  | EmptyString => false
  | String d r => Ascii.eqb d c || occurs c r
  end.


(** The page of a listing response. *)
Definition responseInfo (r : Response) : option PageInfo :=
  match data r with
  | ProductPage _ info => Some info
  | _ => None
  end.

(** A product the migration saves: no [categories], and a legacy
    [category] to fill them from. *)
Definition migratable (p : Product.t) : bool :=
  lacksCategories p
  && match Product.category p with Some _ => true | None => false end.

(** What the slug index sees of a product. *)
Definition slugKey (q : Product.t) : ObjectId * option string :=
  (Product._id q, Product.slug q).

(** The unique index on [slug] holds of a collection. *)
Definition slugsUnique (coll : list Product.t) : Prop :=
  forall q, In q coll -> slugConflict coll q = false.

(** *** The shape of a slug *)

(** A non-empty string of characters of [[a-z0-9]]. *)
Definition slugWord (w : string) : bool :=
  truthy w && allChars is_slug_char w.

(** Words of [[a-z0-9]] separated by single hyphens; [after_hyphen] says that
    a word has to start here. *)
Fixpoint slugShape (after_hyphen : bool) (s : string) : bool :=
  match s with
  | EmptyString => negb after_hyphen
  | String c r =>
      if is_slug_char c then slugShape false r
      else Ascii.eqb c hyphen && negb after_hyphen && slugShape true r
  end.

(** The empty string, or words separated by single hyphens, with no hyphen
    at either end. *)
Definition isSlug (s : string) : bool :=
  match s with
  | EmptyString => true
  | _ => slugShape true s
  end.

(** * Properties *)

(** ** Strings and slugs *)

Section SlugText.

Lemma slug_char_not_hyphen c : is_slug_char c = true -> Ascii.eqb c hyphen = false.
Proof.
  destruct (Ascii.eqb_spec c hyphen) as [-> | _]; [discriminate | reflexivity].
Qed.

Lemma concat_cons_char c w ws :
  String.concat "-" (String c w :: ws) = String c (String.concat "-" (w :: ws)).
Proof. destruct ws; reflexivity. Qed.

Lemma replace_runs_in_run s : replace_runs true s = replace_runs false (skip_run s).
Proof.
  induction s as [| c r IH]; simpl; [reflexivity |].
  destruct (is_slug_char c) eqn:E; simpl; [now rewrite E | exact IH].
Qed.

Lemma strip_leading_replace s :
  strip_leading (replace_runs false s) = replace_runs false (skip_run s).
Proof.
  destruct s as [| c r]; simpl; [reflexivity |].
  destruct (is_slug_char c) eqn:E; simpl.
  - now rewrite (slug_char_not_hyphen c E), E.
  - apply replace_runs_in_run.
Qed.

Lemma alnum_words_skip s : alnum_words (skip_run s) = alnum_words s.
Proof.
  induction s as [| c r IH]; simpl; [reflexivity |].
  destruct (is_slug_char c) eqn:E; simpl; [now rewrite E | exact IH].
Qed.

Lemma alnum_words_head c r :
  is_slug_char c = true -> alnum_words (String c r) <> [].
Proof.
  intros E; simpl; rewrite E.
  destruct (alnum_words r), r; try discriminate.
  destruct (is_slug_char a); discriminate.
Qed.

Lemma replace_runs_head c r :
  is_slug_char c = true -> replace_runs false (String c r) <> EmptyString.
Proof. intros E; simpl; rewrite E; discriminate. Qed.

Lemma strip_trailing_cons c s :
  s <> EmptyString -> strip_trailing (String c s) = String c (strip_trailing s).
Proof. destruct s; [congruence | reflexivity]. Qed.

Lemma skip_run_head s :
  skip_run s = EmptyString \/
  exists c r, skip_run s = String c r /\ is_slug_char c = true.
Proof.
  induction s as [| c r IH]; simpl; [now left |].
  destruct (is_slug_char c) eqn:E; [right; eauto | exact IH].
Qed.

Lemma alnum_words_nil s : skip_run s = EmptyString -> alnum_words s = [].
Proof. intros H; now rewrite <- alnum_words_skip, H. Qed.

(** After the leading run is gone, the trimmed replacement joins the words. *)
Lemma trimmed_replace_words s :
  strip_trailing (replace_runs false (skip_run s))
  = String.concat "-" (alnum_words s).
Proof.
  induction s as [| c r IH]; [reflexivity |].
  simpl skip_run. destruct (is_slug_char c) eqn:E.
  2:{ simpl alnum_words. rewrite E. exact IH. }
  simpl replace_runs. rewrite E.
  destruct r as [| c' r'].
  - simpl. rewrite E. simpl. now rewrite (slug_char_not_hyphen c E).
  - destruct (is_slug_char c') eqn:E'.
    + rewrite strip_trailing_cons by (now apply replace_runs_head).
      assert (Hs : skip_run (String c' r') = String c' r') by (simpl; now rewrite E').
      rewrite Hs in IH. rewrite IH.
      pose proof (alnum_words_head c' r' E') as Hne.
      change (alnum_words (String c (String c' r')))
        with (if is_slug_char c then
                match alnum_words (String c' r') with
                | w :: ws => if is_slug_char c' then String c w :: ws
                             else String c EmptyString :: w :: ws
                | [] => [String c EmptyString]
                end
              else alnum_words (String c' r')).
      rewrite E, E'.
      destruct (alnum_words (String c' r')) as [| w ws]; [congruence |].
      now rewrite concat_cons_char.
    + assert (Hs : skip_run (String c' r') = skip_run r') by (simpl; now rewrite E').
      assert (Hr : replace_runs false (String c' r')
                   = String hyphen (replace_runs false (skip_run r'))).
      { simpl. rewrite E'. now rewrite replace_runs_in_run. }
      rewrite Hr. rewrite Hs in IH.
      change (alnum_words (String c (String c' r')))
        with (if is_slug_char c then
                match alnum_words (String c' r') with
                | w :: ws => if is_slug_char c' then String c w :: ws
                             else String c EmptyString :: w :: ws
                | [] => [String c EmptyString]
                end
              else alnum_words (String c' r')).
      rewrite E, E'.
      destruct (skip_run_head r') as [Hnil | (d & t & Hd & Ed)].
      * assert (Hw : alnum_words (String c' r') = [])
          by (apply alnum_words_nil; now rewrite Hs).
        rewrite Hw, Hnil. reflexivity.
      * rewrite Hd in *.
        rewrite strip_trailing_cons by discriminate.
        rewrite strip_trailing_cons by (now apply replace_runs_head).
        rewrite IH.
        assert (Hne : alnum_words (String c' r') <> []).
        { rewrite <- alnum_words_skip, Hs. now apply alnum_words_head. }
        destruct (alnum_words (String c' r')) as [| w ws]; [congruence |].
        reflexivity.
Qed.

(** The slug expression of the hooks is the slug of the specification. *)
Lemma baseSlug_spec name : baseSlug name = spec_slug name.
Proof.
  unfold baseSlug, spec_slug, trim_hyphens.
  rewrite strip_leading_replace. apply trimmed_replace_words.
Qed.

End SlugText.

(** *** The slug setter leaves generated slugs as they are *)

Section Lowercase.

Lemma lower_slug_char c : is_slug_char c = true -> lower_char c = c.
Proof.
  unfold is_slug_char, lower_char, is_upper.
  set (n := nat_of_ascii c). intros H.
  destruct ((65 <=? n)%nat && (n <=? 90)%nat) eqn:U; [| reflexivity].
  apply andb_true_iff in U as [U1 U2].
  apply Nat.leb_le in U1, U2.
  apply orb_true_iff in H as [H | H]; apply andb_true_iff in H as [H1 H2];
    apply Nat.leb_le in H1, H2; lia.
Qed.

Lemma toLowerCase_replace_runs b s :
  toLowerCase (replace_runs b s) = replace_runs b s.
Proof.
  revert b; induction s as [| c r IH]; intros b; simpl; [reflexivity |].
  destruct (is_slug_char c) eqn:E; simpl.
  - now rewrite (lower_slug_char c E), IH.
  - destruct b; simpl; now rewrite IH.
Qed.

Lemma toLowerCase_strip_leading s :
  toLowerCase s = s -> toLowerCase (strip_leading s) = strip_leading s.
Proof.
  destruct s as [| c r]; simpl; [easy |].
  intros H. destruct (Ascii.eqb c hyphen); [now injection H | exact H].
Qed.

Lemma toLowerCase_strip_trailing s :
  toLowerCase s = s -> toLowerCase (strip_trailing s) = strip_trailing s.
Proof.
  induction s as [| c r IH]; [easy |].
  intros H. simpl in H. injection H as Hc Hr.
  destruct r as [| c' r'].
  - simpl. destruct (Ascii.eqb c hyphen); simpl; [reflexivity | now rewrite Hc].
  - rewrite strip_trailing_cons by discriminate.
    cbn [toLowerCase]. now rewrite Hc, (IH Hr).
Qed.

Lemma toLowerCase_app a b :
  toLowerCase (a ++ b) = (toLowerCase a ++ toLowerCase b)%string.
Proof. induction a as [| c r IH]; simpl; [reflexivity | now rewrite IH]. Qed.

Lemma toLowerCase_uint d :
  toLowerCase (NilEmpty.string_of_uint d) = NilEmpty.string_of_uint d.
Proof. induction d; simpl; try rewrite IHd; reflexivity. Qed.

Lemma toLowerCase_baseSlug name : toLowerCase (baseSlug name) = baseSlug name.
Proof.
  unfold baseSlug, trim_hyphens.
  apply toLowerCase_strip_trailing, toLowerCase_strip_leading,
    toLowerCase_replace_runs.
Qed.

Lemma toLowerCase_candidate name k :
  toLowerCase (slugCandidate (baseSlug name) k) = slugCandidate (baseSlug name) k.
Proof.
  destruct k as [| k]; [apply toLowerCase_baseSlug |].
  unfold slugCandidate.
  rewrite toLowerCase_app, toLowerCase_baseSlug. f_equal.
  change (toLowerCase (String hyphen (decimal (S k))) = String hyphen (decimal (S k))).
  cbn [toLowerCase]. unfold decimal. now rewrite toLowerCase_uint.
Qed.

End Lowercase.

(** *** The candidates are pairwise different *)

Section Candidates.

Lemma append_length a b :
  String.length (a ++ b)%string = (String.length a + String.length b)%nat.
Proof. induction a as [| c r IH]; simpl; [reflexivity | now rewrite IH]. Qed.

Lemma append_cancel_l a x y : (a ++ x = a ++ y)%string -> x = y.
Proof.
  induction a as [| c r IH]; simpl; [easy |].
  intros H; injection H as H; auto.
Qed.

Lemma decimal_inj i j : decimal i = decimal j -> i = j.
Proof.
  unfold decimal. intros H.
  apply Unsigned.to_uint_inj.
  pose proof (NilEmpty.usu (Nat.to_uint i)) as Hi.
  rewrite H, NilEmpty.usu in Hi. congruence.
Qed.

Lemma slugCandidate_inj base i j :
  slugCandidate base i = slugCandidate base j -> i = j.
Proof.
  destruct i as [| i], j as [| j]; simpl; intros H.
  - reflexivity.
  - apply (f_equal String.length) in H. rewrite append_length in H.
    simpl in H. lia.
  - apply (f_equal String.length) in H. rewrite append_length in H.
    simpl in H. lia.
  - apply append_cancel_l in H. injection H as H. now apply decimal_inj.
Qed.

Lemma candidates_NoDup base n :
  NoDup (map (fun i => Some (slugCandidate base i)) (seq 0 n)).
Proof.
  apply Injective_map_NoDup; [| apply seq_NoDup].
  intros i j H. injection H as H. now apply slugCandidate_inj in H.
Qed.

End Candidates.

(** *** The probing loop *)

Section Probing.

Variable coll : list Product.t.
Variable self : ObjectId.
Variable base : string.

Lemma findOneSlug_some slug q :
  findOneSlug coll slug self = Some q ->
  In q coll /\ Product.slug q = Some slug /\ Product._id q <> self.
Proof.
  unfold findOneSlug. intros H.
  apply find_some in H as [Hin Hq].
  apply andb_true_iff in Hq as [Hs Hi].
  split; [exact Hin |]. split.
  - destruct (Product.slug q) as [s |]; simpl in Hs; [| discriminate].
    apply String.eqb_eq in Hs. now subst.
  - apply negb_true_iff, String.eqb_neq in Hi. exact Hi.
Qed.

Lemma findOneSlug_none slug :
  findOneSlug coll slug self = None ->
  forall q, In q coll -> Product._id q <> self -> Product.slug q <> Some slug.
Proof.
  unfold findOneSlug. intros H q Hin Hid Hs.
  pose proof (find_none _ _ H q Hin) as Hq. simpl in Hq.
  rewrite Hs in Hq. simpl in Hq. rewrite String.eqb_refl in Hq.
  apply String.eqb_neq in Hid. rewrite Hid in Hq. discriminate.
Qed.

(** What the loop returns is the first free candidate from where it starts. *)
Lemma probeSlug_some fuel : forall k slug,
  probeSlug fuel coll self base (slugCandidate base k) (S k) = Some slug ->
  exists j, (k <= j < k + fuel)%nat
            /\ slug = slugCandidate base j
            /\ findOneSlug coll (slugCandidate base j) self = None
            /\ forall i, (k <= i < j)%nat ->
                 findOneSlug coll (slugCandidate base i) self <> None.
Proof.
  induction fuel as [| fuel IH]; intros k slug; simpl; [discriminate |].
  destruct (findOneSlug coll (slugCandidate base k) self) eqn:F.
  - intros H. apply (IH (S k)) in H as (j & Hj & -> & Hfree & Hbefore).
    exists j. repeat split; try lia; try assumption.
    intros i Hi. destruct (Nat.eq_dec i k) as [-> | Hne].
    + now rewrite F.
    + apply Hbefore. lia.
  - intros [= <-]. exists k. repeat split; try lia; assumption.
Qed.

(** When the fuel runs out, every candidate tried was taken. *)
Lemma probeSlug_none fuel : forall k,
  probeSlug fuel coll self base (slugCandidate base k) (S k) = None ->
  forall i, (k <= i < k + fuel)%nat ->
    findOneSlug coll (slugCandidate base i) self <> None.
Proof.
  induction fuel as [| fuel IH]; intros k; simpl; [intros _ i Hi; lia |].
  destruct (findOneSlug coll (slugCandidate base k) self) eqn:F; [| discriminate].
  intros H i Hi. destruct (Nat.eq_dec i k) as [-> | Hne].
  - now rewrite F.
  - apply (IH (S k) H). lia.
Qed.

(** One query more than there are products always finds a free candidate:
    the loop of the hook ends. *)
Lemma probeSlug_total :
  exists slug, probeSlug (S (List.length coll)) coll self base base 1 = Some slug.
Proof.
  destruct (probeSlug (S (List.length coll)) coll self base base 1) as [s |] eqn:P;
    [now exists s |].
  exfalso.
  pose proof (probeSlug_none (S (List.length coll)) 0 P) as Htaken.
  assert (Hincl : incl (map (fun i => Some (slugCandidate base i))
                            (seq 0 (S (List.length coll))))
                       (map Product.slug coll)).
  { intros x Hx. apply in_map_iff in Hx as (i & <- & Hi).
    apply in_seq in Hi.
    destruct (findOneSlug coll (slugCandidate base i) self) as [q |] eqn:F.
    - apply findOneSlug_some in F as (Hin & Hs & _).
      rewrite <- Hs. now apply in_map.
    - exfalso. apply (Htaken i); [lia | exact F]. }
  apply NoDup_incl_length in Hincl; [| apply candidates_NoDup].
  rewrite !length_map, length_seq in Hincl. lia.
Qed.

End Probing.

(** ** Saving a product *)

Section ProductSave.

Lemma set_slug_candidate name k p :
  Product.slug (Product.set_slug (slugCandidate (baseSlug name) k) p)
  = Some (slugCandidate (baseSlug name) k).
Proof. simpl. now rewrite toLowerCase_candidate. Qed.

(** The hook on a changed name: the loop ends on the first free candidate,
    and the slug it assigns is held by no other product. *)
Lemma productPreSaveSlug_modified coll p :
  exists k,
    probeSlug (S (List.length coll)) coll (Product._id p)
      (baseSlug (Product.name p)) (baseSlug (Product.name p)) 1
    = Some (slugCandidate (baseSlug (Product.name p)) k)
    /\ productPreSaveSlug coll true p
       = Product.set_slug (slugCandidate (baseSlug (Product.name p)) k) p
    /\ Product.slug (productPreSaveSlug coll true p)
       = Some (slugCandidate (baseSlug (Product.name p)) k)
    /\ findOneSlug coll (slugCandidate (baseSlug (Product.name p)) k)
         (Product._id p) = None
    /\ (forall j, (j < k)%nat ->
          findOneSlug coll (slugCandidate (baseSlug (Product.name p)) j)
            (Product._id p) <> None).
Proof.
  destruct (probeSlug_total coll (Product._id p) (baseSlug (Product.name p)))
    as [s Hs].
  pose proof (probeSlug_some coll (Product._id p) (baseSlug (Product.name p))
                (S (List.length coll)) 0 s Hs) as (k & _ & -> & Hfree & Hbefore).
  exists k. unfold productPreSaveSlug. simpl negb. cbv iota. cbv zeta.
  rewrite Hs. repeat split; try assumption.
  - apply set_slug_candidate.
  - intros j Hj. apply Hbefore. lia.
Qed.

Lemma productPreSaveSlug_unique coll p q :
  In q coll -> Product._id q <> Product._id p ->
  Product.slug q <> Product.slug (productPreSaveSlug coll true p).
Proof.
  intros Hin Hid.
  destruct (productPreSaveSlug_modified coll p) as (k & _ & _ & -> & Hfree & _).
  eapply findOneSlug_none; eassumption.
Qed.

Lemma productPreSaveSlug_id coll m p :
  Product._id (productPreSaveSlug coll m p) = Product._id p.
Proof.
  unfold productPreSaveSlug. destruct m; [| reflexivity].
  change (negb true) with false. cbv iota zeta.
  destruct (probeSlug _ _ _ _ _ _); reflexivity.
Qed.

Lemma productPreSaveSlug_fields coll m p :
  Product.categories (productPreSaveSlug coll m p) = Product.categories p
  /\ Product.category (productPreSaveSlug coll m p) = Product.category p.
Proof.
  unfold productPreSaveSlug. destruct m; [| easy].
  change (negb true) with false. cbv iota zeta.
  destruct (probeSlug _ _ _ _ _ _); split; reflexivity.
Qed.

Lemma slugConflict_false coll p :
  (forall q, In q coll -> Product._id q <> Product._id p ->
             Product.slug q <> Product.slug p) ->
  slugConflict coll p = false.
Proof.
  intros H. unfold slugConflict.
  destruct (Product.slug p) as [s |] eqn:Es; [| reflexivity].
  destruct (existsb _ coll) eqn:X; [| reflexivity].
  apply existsb_exists in X as (q & Hin & Hq).
  apply andb_true_iff in Hq as [Hs Hi].
  apply negb_true_iff, String.eqb_neq in Hi.
  exfalso. apply (H q Hin Hi).
  destruct (Product.slug q); simpl in Hs; [| discriminate].
  apply String.eqb_eq in Hs. now subst.
Qed.

End ProductSave.

Lemma productPreSaveCategory_fields p :
  Product._id (productPreSaveCategory p) = Product._id p
  /\ Product.categories (productPreSaveCategory p) = Product.categories p.
Proof.
  unfold productPreSaveCategory.
  destruct (Product.categories p) eqn:E; simpl; auto.
Qed.

Section SaveOutcome.

Variables (isNew isModifiedName : bool) (p p' : Product.t).
Variables (coll coll' : list Product.t).
Hypothesis saved : saveProduct isNew isModifiedName p coll = Ok (p', coll').

Lemma saveProduct_ok :
  validateProduct p = true
  /\ p' = productPreSaveSlug coll isModifiedName (productPreSaveCategory p)
  /\ slugConflict coll p' = false
  /\ coll' = (if isNew then coll ++ [p'] else replaceProduct p' coll).
Proof.
  unfold saveProduct in saved.
  destruct (validateProduct p); simpl in saved; [| discriminate].
  destruct (slugConflict coll _) eqn:C; [discriminate |].
  injection saved as <- <-. now rewrite C.
Qed.

Lemma saveProduct_id : Product._id p' = Product._id p.
Proof.
  destruct saveProduct_ok as (_ & -> & _).
  rewrite productPreSaveSlug_id. apply productPreSaveCategory_fields.
Qed.

Lemma saveProduct_categories : Product.categories p' = Product.categories p.
Proof.
  destruct saveProduct_ok as (_ & -> & _).
  rewrite (proj1 (productPreSaveSlug_fields _ _ _)).
  apply productPreSaveCategory_fields.
Qed.

Lemma saveProduct_category :
  Product.categories p' <> [] ->
  Product.category p' = hd_error (Product.categories p').
Proof.
  rewrite saveProduct_categories.
  destruct saveProduct_ok as (_ & -> & _).
  rewrite (proj2 (productPreSaveSlug_fields _ _ _)).
  unfold productPreSaveCategory.
  destruct (Product.categories p) as [| c rest] eqn:E; [congruence |].
  intros _. reflexivity.
Qed.

End SaveOutcome.

Section StoredDocument.

Lemma find_app_none {A} (f : A -> bool) l x :
  find f l = None -> find f (l ++ [x]) = if f x then Some x else None.
Proof.
  induction l as [| y l IH]; simpl; [now destruct (f x) |].
  destruct (f y); [discriminate | exact IH].
Qed.

Lemma findProductById_replace q coll :
  findProductById (Product._id q) coll <> None ->
  findProductById (Product._id q) (replaceProduct q coll) = Some q.
Proof.
  unfold findProductById, replaceProduct.
  induction coll as [| y l IH]; simpl; [congruence |].
  destruct (String.eqb (Product._id y) (Product._id q)) eqn:E; simpl.
  - now rewrite String.eqb_refl.
  - rewrite E. exact IH.
Qed.

(** The document a successful save returns is the one the collection holds
    under its [_id]: inserted when it is new, written over the old one
    otherwise. *)
Lemma saveProduct_stored isNew m p coll p' coll' :
  saveProduct isNew m p coll = Ok (p', coll') ->
  (if isNew then findProductById (Product._id p) coll = None
   else findProductById (Product._id p) coll <> None) ->
  findProductById (Product._id p) coll' = Some p'.
Proof.
  intros Hs Hc.
  pose proof (saveProduct_id _ _ _ _ _ _ Hs) as Hid.
  destruct (saveProduct_ok _ _ _ _ _ _ Hs) as (_ & _ & _ & ->).
  rewrite <- Hid. destruct isNew.
  - unfold findProductById. rewrite find_app_none.
    + now rewrite String.eqb_refl.
    + rewrite Hid. exact Hc.
  - apply findProductById_replace. now rewrite Hid.
Qed.

End StoredDocument.

(** X21. A save of a Product document as it is stored, which is how the
    creation handler and the migration script save, keeps its [categories]
    whatever the save changed and whether or not the name or the
    categories were modified, and when they are not empty its legacy
    [category] is their first element; this document is the one stored
    under its [_id]. *)
Theorem save_syncs_category :
  forall (isNew isModifiedName : bool) (p p' : Product.t)
         (coll coll' : list Product.t),
    saveProduct isNew isModifiedName p coll = Ok (p', coll') ->
    Product.categories p' = Product.categories p
    /\ (Product.categories p' <> [] ->
        Product.category p' = hd_error (Product.categories p'))
    /\ ((if isNew then findProductById (Product._id p) coll = None
         else findProductById (Product._id p) coll <> None) ->
        findProductById (Product._id p) coll' = Some p').
Proof.
  intros isNew m p p' coll coll' Hs. split; [| split].
  - exact (saveProduct_categories _ _ _ _ _ _ Hs).
  - exact (saveProduct_category _ _ _ _ _ _ Hs).
  - exact (saveProduct_stored _ _ _ _ _ _ Hs).
Qed.

(** A later save of the stale product, with nothing but its view counter
    changed, brings [category] back to [categories[0]]. *)
Lemma save_syncs_category_witness :
  saveProduct false false Sample.staleDress [Sample.staleDress]
  = Ok (Sample.resyncedDress, [Sample.resyncedDress])
  /\ Product.category Sample.resyncedDress = Some "c2".
Proof.
  assert (H : saveProduct false false Sample.staleDress [Sample.staleDress]
              = Ok (Sample.resyncedDress, [Sample.resyncedDress]))
    by reflexivity.
  split; [exact H |].
  destruct (save_syncs_category _ _ _ _ _ _ H) as (_ & Hc & _).
  refine (Hc _). discriminate.
Defined.

(** A save that goes through never fails on the slug index after the hook
    has picked the slug. *)
Lemma saveProduct_modified_no_conflict p coll :
  slugConflict coll
    (productPreSaveSlug coll true (productPreSaveCategory p)) = false.
Proof.
  apply slugConflict_false. intros q Hin Hid.
  apply productPreSaveSlug_unique; [exact Hin |].
  now rewrite productPreSaveSlug_id in Hid.
Qed.

(** C3. The slug of a Product is a function of its name and of the slugs
    in the collection: the hook's expression is the slug of the
    specification (lowercase, alphanumeric runs joined by single hyphens,
    nothing at either end); when the name was modified the probing loop
    ends, on the first candidate among base, base-1, base-2, ... that no
    document other than the saved one holds, which becomes the slug, so no
    other product has it and the save of a valid document goes through; when
    the name was not modified the hook leaves the document alone and a
    successful save keeps its slug; two products created with the name
    "Red Dress" get red-dress and red-dress-1, and saving the first one again
    with its name set anew keeps red-dress. *)
Theorem product_slug_generation :
  (forall name, baseSlug name = spec_slug name)
  /\ (forall coll p,
        exists k,
          probeSlug (S (List.length coll)) coll (Product._id p)
            (baseSlug (Product.name p)) (baseSlug (Product.name p)) 1
          = Some (slugCandidate (baseSlug (Product.name p)) k)
          /\ Product.slug (productPreSaveSlug coll true p)
             = Some (slugCandidate (baseSlug (Product.name p)) k)
          /\ findOneSlug coll (slugCandidate (baseSlug (Product.name p)) k)
               (Product._id p) = None
          /\ (forall j, (j < k)%nat ->
                findOneSlug coll (slugCandidate (baseSlug (Product.name p)) j)
                  (Product._id p) <> None)
          /\ (forall q, In q coll -> Product._id q <> Product._id p ->
                Product.slug q <> Product.slug (productPreSaveSlug coll true p)))
  /\ (forall isNew p coll,
        validateProduct p = true ->
        exists p' coll' k,
          saveProduct isNew true p coll = Ok (p', coll')
          /\ Product.slug p'
             = Some (slugCandidate (baseSlug (Product.name p)) k)
          /\ (forall q, In q coll -> Product._id q <> Product._id p ->
                Product.slug q <> Product.slug p'))
  /\ (forall coll p, productPreSaveSlug coll false p = p)
  /\ (forall isNew p coll p' coll',
        saveProduct isNew false p coll = Ok (p', coll') ->
        Product.slug p' = Product.slug p)
  /\ map Product.slug (products Sample.twoRedDresses)
     = [Some "red-dress"; Some "red-dress-1"]
  /\ Product.slug
       (productPreSaveSlug (products Sample.twoRedDresses) true
          Sample.firstRedDress) = Some "red-dress".
Proof.
  split; [exact baseSlug_spec |].
  split.
  { intros coll p.
    destruct (productPreSaveSlug_modified coll p)
      as (k & Hp & Hset & Hslug & Hfree & Hbefore).
    exists k. repeat split; try assumption.
    intros q Hin Hid. now apply productPreSaveSlug_unique. }
  split.
  { intros isNew p coll Hv. unfold saveProduct. rewrite Hv. simpl.
    rewrite saveProduct_modified_no_conflict.
    destruct (productPreSaveSlug_modified coll (productPreSaveCategory p))
      as (k & _ & _ & Hslug & _).
    destruct (productPreSaveCategory_fields p) as [Hid _].
    assert (Hname : Product.name (productPreSaveCategory p) = Product.name p).
    { unfold productPreSaveCategory.
      destruct (Product.categories p); reflexivity. }
    rewrite Hname in Hslug.
    eexists. eexists. exists k. split; [reflexivity |].
    split; [exact Hslug |].
    intros q Hin Hq. apply productPreSaveSlug_unique; [exact Hin |].
    now rewrite Hid. }
  split; [reflexivity |].
  split.
  { intros isNew p coll p' coll' H.
    destruct (saveProduct_ok _ _ _ _ _ _ H) as (_ & -> & _).
    unfold productPreSaveSlug, productPreSaveCategory. simpl.
    destruct (Product.categories p); reflexivity. }
  split; reflexivity.
Qed.

(** The probing at work: with red-dress and red-dress-1 taken by two other
    products, a third "Red Dress" gets red-dress-2. *)
Lemma product_slug_generation_witness :
  exists k,
    Product.slug
      (productPreSaveSlug (products Sample.twoRedDresses) true
         Sample.thirdRedDress)
    = Some (slugCandidate "red-dress" k)
    /\ k = 2%nat.
Proof.
  destruct (proj1 (proj2 product_slug_generation)
              (products Sample.twoRedDresses)
              Sample.thirdRedDress)
    as (k & Hp & Hs & _).
  exists k. split; [exact Hs |].
  apply (slugCandidate_inj "red-dress").
  vm_compute in Hp. injection Hp as Hp. vm_compute. now rewrite <- Hp.
Defined.

(** ** Steps of the product handlers *)

Section HandlerSteps.

Lemma verifyCategories_cases cs db :
  verifyCategories cs db = (Next tt, db)
  \/ exists msg, verifyCategories cs db = (Reply (failure 400 msg), db).
Proof.
  induction cs as [| v rest IH]; simpl; [now left |].
  unfold bind, getDb.
  destruct (findCategoryById _ (categories db)); [exact IH |].
  right. eexists. reflexivity.
Qed.

Lemma uploadImages_cases env imgs db :
  (exists urls, uploadImages env imgs db = (Next urls, db))
  \/ uploadImages env imgs db = (Throw UploadFailed, db).
Proof.
  induction imgs as [| image rest IH]; simpl; [left; now exists [] |].
  unfold bind, ret, throw.
  destruct (String.prefix "data:image" image);
    [destruct (uploadImage env image) as [u |] |];
    simpl; destruct IH as [(urls & Hx) | Hx]; rewrite ?Hx; simpl; eauto.
Qed.

Lemma productOnError_status what e :
  status (productOnError what e) = 400%nat
  \/ status (productOnError what e) = 500%nat.
Proof.
  destruct e; simpl; auto. destruct (String.eqb field "slug"); auto.
Qed.

Lemma productOnError_failure what e : success (productOnError what e) = false.
Proof. destruct e; simpl; auto. destruct (String.eqb field "slug"); auto. Qed.

Lemma castIds_filter_nil cs :
  castIds (filterCategories cs) = [] -> filterCategories cs = [].
Proof.
  unfold filterCategories.
  induction cs as [| v rest IH]; simpl; [reflexivity |].
  destruct v as [s |]; simpl; [| exact IH].
  destruct (truthy s); simpl; [discriminate | exact IH].
Qed.

Lemma length_zero_nil {A} (l : list A) :
  (List.length l =? 0)%nat = true <-> l = [].
Proof. destruct l; simpl; split; congruence. Qed.

End HandlerSteps.

(** How [findByIdAndUpdate] writes: the keys of the body and nothing else. *)
Lemma findByIdAndUpdate_ok i u coll p r coll' :
  findProductById i coll = Some p ->
  findByIdAndUpdate i u coll = Ok (r, coll') ->
  r = Some (applyUpdate u p) /\ coll' = replaceProduct (applyUpdate u p) coll.
Proof.
  unfold findByIdAndUpdate. intros ->.
  destruct (validateUpdate u); simpl; [| discriminate].
  destruct (match ProductUpdate.slug u with
            | Some _ => slugConflict coll (applyUpdate u p)
            | None => false
            end); [discriminate |].
  intros [= <- <-]. auto.
Qed.

Lemma findProductById_id i coll p :
  findProductById i coll = Some p -> Product._id p = i.
Proof.
  unfold findProductById. intros H. apply find_some in H as [_ H].
  now apply String.eqb_eq.
Qed.

Section UpdateSteps.

Variable env : Env.
Variable db : Db.

Lemma prepareCategories_cases body :
  (exists msg, prepareCategories body db = (Reply (failure 400 msg), db))
  \/ (exists body',
        prepareCategories body db = (Next body', db)
        /\ ProductUpdate.categories body'
           = option_map filterCategories (ProductUpdate.categories body)
        /\ (forall cs, ProductUpdate.categories body' = Some cs -> cs <> [])
        /\ ProductUpdate.category body' = ProductUpdate.category body
        /\ ProductUpdate.slug body' = ProductUpdate.slug body
        /\ ProductUpdate.name body' = ProductUpdate.name body).
Proof.
  unfold prepareCategories.
  destruct (ProductUpdate.categories body) as [cs |] eqn:Ec.
  - unfold bind, ret, reply.
    destruct (List.length (filterCategories cs) =? 0)%nat eqn:El; simpl.
    + left. eexists. reflexivity.
    + destruct (verifyCategories_cases (filterCategories cs) db)
        as [Hv | (msg & Hv)]; rewrite Hv.
      * right. eexists. split; [reflexivity |]. simpl. repeat split.
        intros cs' [= <-] Hn. apply length_zero_nil in Hn. congruence.
      * left. eexists. reflexivity.
  - right. exists body. rewrite Ec. repeat split. discriminate.
Qed.

Lemma prepareImages_cases body :
  prepareImages env body db = (Throw UploadFailed, db)
  \/ (exists body',
        prepareImages env body db = (Next body', db)
        /\ ProductUpdate.categories body' = ProductUpdate.categories body
        /\ ProductUpdate.category body' = ProductUpdate.category body
        /\ ProductUpdate.slug body' = ProductUpdate.slug body
        /\ ProductUpdate.name body' = ProductUpdate.name body).
Proof.
  unfold prepareImages.
  destruct (ProductUpdate.images body) as [imgs |].
  - unfold bind, ret.
    destruct (uploadImages_cases env imgs db) as [(urls & Hu) | Hu]; rewrite Hu.
    + right. eexists. split; [reflexivity |]. simpl. auto.
    + now left.
  - right. exists body. auto.
Qed.

End UpdateSteps.

(** An update either fails and leaves the database as it was, or hands the
    body to the database with its [categories] filtered and its images
    uploaded, every other key as it was sent; the stored document is then
    the old one with these keys set. *)
Lemma updateProduct_cases env errs i body db resp db' :
  updateProduct env errs i body db = (resp, db') ->
  (success resp = false /\ db' = db
   /\ (status resp = 400%nat \/ status resp = 404%nat \/ status resp = 500%nat))
  \/ (exists p body',
        findProductById i (products db) = Some p
        /\ ProductUpdate.categories body'
           = option_map filterCategories (ProductUpdate.categories body)
        /\ (forall cs, ProductUpdate.categories body' = Some cs -> cs <> [])
        /\ ProductUpdate.category body' = ProductUpdate.category body
        /\ ProductUpdate.slug body' = ProductUpdate.slug body
        /\ ProductUpdate.name body' = ProductUpdate.name body
        /\ resp = mkResponse 200 true (Some "Product updated successfully")
                    (OneProduct (applyUpdate body' p))
        /\ db' = with_products
                   (replaceProduct (applyUpdate body' p) (products db)) db).
Proof.
  unfold updateProduct, tryCatch.
  unfold bind at 1. destruct errs as [| e errs]; simpl;
    [| intros [= <- <-]; left; auto].
  unfold bind at 1, getDb at 1.
  destruct (findProductById i (products db)) as [p |] eqn:Hfind;
    [| intros [= <- <-]; left; simpl; auto].
  unfold bind at 1.
  destruct (prepareCategories_cases db body)
    as [(msg & Hc) | (body1 & Hc & Hcats & Hne & Hcat & Hslug & Hname)];
    rewrite Hc; [intros [= <- <-]; left; simpl; auto |].
  unfold bind at 1.
  destruct (prepareImages_cases env db body1)
    as [Hi | (body2 & Hi & Hcats2 & Hcat2 & Hslug2 & Hname2)];
    rewrite Hi; [intros [= <- <-]; left; simpl; auto |].
  unfold bind, getDb, putDb, lift, ret, throw.
  destruct (findByIdAndUpdate i body2 (products db)) as [[r coll'] | e] eqn:U.
  - apply (findByIdAndUpdate_ok _ _ _ _ _ _ Hfind) in U as [-> ->].
    simpl. intros [= <- <-]. right. exists p, body2.
    rewrite Hcats2, Hcat2, Hslug2, Hname2. repeat split; assumption.
  - intros [= <- <-]. left. rewrite productOnError_failure.
    destruct (productOnError_status "updating" e) as [H | H]; rewrite H; auto.
Qed.

(** C9. The update endpoint writes the keys of the request body and runs
    no save hook: after a successful update the stored product has the
    [categories] and the [name] of the body, while its legacy [category]
    and its [slug] are exactly what they were, unless the body itself
    carries a [category] or a [slug] key. *)
Theorem update_bypasses_hooks :
  forall env errs i body db resp db' p,
    findProductById i (products db) = Some p ->
    updateProduct env errs i body db = (resp, db') ->
    status resp = 200%nat ->
    exists p',
      data resp = OneProduct p'
      /\ findProductById i (products db') = Some p'
      /\ (ProductUpdate.category body = None ->
          Product.category p' = Product.category p)
      /\ (ProductUpdate.slug body = None -> Product.slug p' = Product.slug p)
      /\ (forall cs, ProductUpdate.categories body = Some cs ->
            Product.categories p' = castIds (filterCategories cs))
      /\ (forall n, ProductUpdate.name body = Some n -> Product.name p' = n).
Proof.
  intros env errs i body db resp db' p Hfind Hrun Hstatus.
  destruct (updateProduct_cases _ _ _ _ _ _ _ Hrun)
    as [(_ & _ & [H | [H | H]]) |
        (p0 & body' & Hf & Hcats & _ & Hcat & Hslug & Hname & -> & ->)];
    try (rewrite H in Hstatus; discriminate).
  rewrite Hfind in Hf. injection Hf as <-.
  exists (applyUpdate body' p). split; [reflexivity |]. split; [| split; [| split; [| split]]].
  - simpl. rewrite <- (findProductById_id _ _ _ Hfind) at 1.
    change (Product._id p) with (Product._id (applyUpdate body' p)).
    apply findProductById_replace. simpl.
    rewrite (findProductById_id _ _ _ Hfind), Hfind. discriminate.
  - intros Hn. simpl. now rewrite Hcat, Hn.
  - intros Hn. simpl. now rewrite Hslug, Hn.
  - intros cs Hn. simpl. now rewrite Hcats, Hn.
  - intros n Hn. simpl. now rewrite Hname, Hn.
Qed.

(** Recategorised and renamed by an update, the product keeps the category
    and the slug it had: [category] is no longer [categories[0]]. *)
Lemma update_bypasses_hooks_witness :
  exists p',
    findProductById "p1"
      (products (snd (updateProduct (Sample.env "x") [] "p1"
                        Sample.recategorise Sample.shop))) = Some p'
    /\ Product.categories p' = ["c2"]
    /\ Product.category p' = Some "c1"
    /\ Product.name p' = "Blue Gown"
    /\ Product.slug p' = Some "red-dress".
Proof.
  destruct (update_bypasses_hooks (Sample.env "x") [] "p1" Sample.recategorise
              Sample.shop _ _ Sample.firstRedDress eq_refl
              (surjective_pairing _) eq_refl)
    as (p' & _ & Hstored & Hcat & Hslug & Hcats & Hname).
  exists p'. split; [exact Hstored |].
  split; [exact (Hcats _ eq_refl) |].
  split; [exact (Hcat eq_refl) |].
  split; [exact (Hname _ eq_refl) | exact (Hslug eq_refl)].
Defined.

(** ** Categories of created and updated products *)

Section FilteredCategories.

Lemma filterCategories_no_null cs : ~ In None (filterCategories cs).
Proof.
  unfold filterCategories. intros H. apply filter_In in H as [_ H].
  discriminate.
Qed.

Lemma filterCategories_keeps cs s :
  In (Some s) (filterCategories cs) <-> In (Some s) cs /\ s <> EmptyString.
Proof.
  unfold filterCategories. rewrite filter_In. simpl.
  destruct s; simpl; intuition congruence.
Qed.

Lemma castIds_filter_not_nil cs :
  filterCategories cs <> [] -> castIds (filterCategories cs) <> [].
Proof. intros H Hn. now apply castIds_filter_nil in Hn. Qed.

End FilteredCategories.

(** A creation either fails and leaves the database as it was, or saves a
    new document built from the body, with the filtered categories. *)
Lemma createProduct_cases env errs body db resp db' :
  createProduct env errs body db = (resp, db') ->
  (success resp = false /\ db' = db
   /\ (status resp = 400%nat \/ status resp = 500%nat))
  \/ (exists urls p coll',
        filterCategories (NewProduct.categories body) <> []
        /\ saveProduct true true
             (Product.mk (newId env) (NewProduct.name body)
                (trim (NewProduct.description body))
                (castIds (filterCategories (NewProduct.categories body))) None
                urls (NewProduct.price body) (NewProduct.originalPrice body)
                (NewProduct.sizes body) (trim (NewProduct.color body))
                (NewProduct.rentalDuration body) true
                (match NewProduct.isFeatured body with
                 | Some b => b
                 | None => false
                 end) None 0%Z (now env))
             (products db) = Ok (p, coll')
        /\ resp = mkResponse 201 true (Some "Product created successfully")
                    (OneProduct p)
        /\ db' = with_products coll' db).
Proof.
  unfold createProduct, tryCatch.
  unfold bind at 1. destruct errs as [| e errs]; simpl;
    [| intros [= <- <-]; left; auto].
  unfold bind at 1.
  destruct (List.length (filterCategories (NewProduct.categories body)) =? 0)%nat
    eqn:El; simpl; [intros [= <- <-]; left; auto |].
  unfold bind at 1.
  destruct (verifyCategories_cases
              (filterCategories (NewProduct.categories body)) db)
    as [Hv | (msg & Hv)]; rewrite Hv; [| intros [= <- <-]; left; auto].
  unfold bind at 1.
  destruct (uploadImages_cases env (NewProduct.images body) db)
    as [(urls & Hu) | Hu]; rewrite Hu; [| intros [= <- <-]; left; auto].
  unfold bind, getDb, putDb, lift, ret, throw.
  destruct (saveProduct true true _ (products db)) as [[p coll'] | e] eqn:S.
  - simpl. intros [= <- <-]. right. exists urls, p, coll'.
    split; [| auto].
    intros Hn. apply length_zero_nil in Hn. congruence.
  - intros [= <- <-]. left. rewrite productOnError_failure.
    destruct (productOnError_status "creating" e) as [H | H]; rewrite H; auto.
Qed.

(** C7. The create and update operations drop the null and undefined
    entries of a [categories] list (no entry of the filtered list is null,
    and every non-empty id of the list stays), answer with an error and
    write nothing when the filtered list is empty, and whenever they do
    write a product for a request that carried [categories], the stored
    categories are the filtered ones and are not empty; a failed request
    leaves the database as it was. *)
Theorem empty_categories_rejected :
  (forall cs,
      ~ In None (filterCategories cs)
      /\ forall s, In (Some s) (filterCategories cs)
                   <-> In (Some s) cs /\ s <> EmptyString)
  /\ (forall env errs body db resp db',
        createProduct env errs body db = (resp, db') ->
        (filterCategories (NewProduct.categories body) = [] ->
         status resp = 400%nat /\ success resp = false /\ db' = db)
        /\ (success resp = false -> db' = db)
        /\ (success resp = true ->
            exists p,
              resp = mkResponse 201 true (Some "Product created successfully")
                       (OneProduct p)
              /\ products db' = products db ++ [p]
              /\ Product.categories p
                 = castIds (filterCategories (NewProduct.categories body))
              /\ Product.categories p <> []))
  /\ (forall env errs i body db resp db' cs,
        updateProduct env errs i body db = (resp, db') ->
        ProductUpdate.categories body = Some cs ->
        (filterCategories cs = [] ->
         success resp = false /\ db' = db
         /\ (status resp = 400%nat
             \/ (status resp = 404%nat
                 /\ findProductById i (products db) = None)))
        /\ (success resp = false -> db' = db)
        /\ (success resp = true ->
            exists p',
              resp = mkResponse 200 true (Some "Product updated successfully")
                       (OneProduct p')
              /\ findProductById i (products db') = Some p'
              /\ Product.categories p' = castIds (filterCategories cs)
              /\ Product.categories p' <> [])).
Proof.
  split; [intros cs; split;
          [apply filterCategories_no_null | apply filterCategories_keeps] |].
  split.
  - intros env errs body db resp db' Hrun.
    pose proof (createProduct_cases _ _ _ _ _ _ Hrun) as Hcases.
    split; [| split].
    + intros Hnil. revert Hrun. unfold createProduct, tryCatch.
      unfold bind at 1. destruct errs; simpl; [| intros [= <- <-]; auto].
      unfold bind at 1. rewrite Hnil. simpl. intros [= <- <-]; auto.
    + intros Hf.
      destruct Hcases as [(_ & -> & _) | (urls & p & coll' & _ & _ & -> & _)];
        [reflexivity | discriminate].
    + intros Ht.
      destruct Hcases as [(Hf & _) | (urls & p & coll' & Hne & Hs & -> & ->)];
        [congruence |].
      exists p. split; [reflexivity |].
      destruct (saveProduct_ok _ _ _ _ _ _ Hs) as (_ & _ & _ & ->).
      pose proof (saveProduct_categories _ _ _ _ _ _ Hs) as Hc. simpl in Hc.
      split; [reflexivity |]. split; [exact Hc |].
      rewrite Hc. now apply castIds_filter_not_nil.
  - intros env errs i body db resp db' cs Hrun Hcs.
    pose proof (updateProduct_cases _ _ _ _ _ _ _ Hrun) as Hcases.
    split; [| split].
    + intros Hnil. revert Hrun. unfold updateProduct, tryCatch.
      unfold bind at 1. destruct errs; simpl; [| intros [= <- <-]; auto].
      unfold bind at 1, getDb at 1.
      destruct (findProductById i (products db));
        [| intros [= <- <-]; simpl; auto].
      unfold bind at 1, prepareCategories. rewrite Hcs.
      unfold bind at 1. rewrite Hnil. simpl. intros [= <- <-]; auto.
    + intros Hf.
      destruct Hcases as [(_ & -> & _) | (p & body' & _ & _ & _ & _ & _ & _ & -> & _)];
        [reflexivity | discriminate].
    + intros Ht.
      destruct Hcases
        as [(Hf & _) | (p & body' & Hfind & Hcats & Hne & _ & _ & _ & -> & ->)];
        [congruence |].
      exists (applyUpdate body' p). split; [reflexivity |].
      rewrite Hcs in Hcats. simpl in Hcats.
      split; [| split].
      * simpl. rewrite <- (findProductById_id _ _ _ Hfind) at 1.
        change (Product._id p) with (Product._id (applyUpdate body' p)).
        apply findProductById_replace. simpl.
        rewrite (findProductById_id _ _ _ Hfind), Hfind. discriminate.
      * simpl. now rewrite Hcats.
      * simpl. rewrite Hcats. apply castIds_filter_not_nil.
        now apply Hne.
Qed.

(** A creation whose categories are all dropped by the filter is answered
    400 and stores nothing. *)
Lemma empty_categories_rejected_witness :
  status (fst (createProduct (Sample.env "p1") [] Sample.uncategorised
                 Sample.emptyShop)) = 400%nat
  /\ snd (createProduct (Sample.env "p1") [] Sample.uncategorised
            Sample.emptyShop) = Sample.emptyShop.
Proof.
  destruct (proj1 (proj1 (proj2 empty_categories_rejected) (Sample.env "p1") []
                     Sample.uncategorised Sample.emptyShop _ _
                     (surjective_pairing _)) eq_refl)
    as (Hs & _ & Hdb).
  split; [exact Hs | exact Hdb].
Defined.

(** ** Listing by category *)

Section Listing.

Variable env : Env.

Lemma matchesCategory_iff c p :
  matchesCategory c p = true
  <-> Product.category p = Some c \/ In c (Product.categories p).
Proof.
  unfold matchesCategory. rewrite orb_true_iff, existsb_exists.
  split; intros [H | H].
  - left. destruct (Product.category p); simpl in H; [| discriminate].
    apply String.eqb_eq in H. now subst.
  - right. destruct H as (x & Hin & Hx). apply String.eqb_eq in Hx. now subst.
  - left. rewrite H. simpl. apply String.eqb_refl.
  - right. exists c. split; [exact H | apply String.eqb_refl].
Qed.

Lemma matches_categoryOnly c p :
  matches env (categoryOnly c) p = true <-> inCategory c p.
Proof.
  unfold matches, categoryOnly, inCategory. simpl.
  rewrite !andb_true_r, andb_true_iff, matchesCategory_iff.
  destruct (Product.isAvailable p); simpl; intuition congruence.
Qed.

Lemma insertBy_perm {A} (cmp : A -> A -> comparison) x l :
  Permutation (insertBy cmp x l) (x :: l).
Proof.
  induction l as [| y r IH]; simpl; [reflexivity |].
  destruct (cmp x y); try reflexivity.
  rewrite IH. apply perm_swap.
Qed.

Lemma sortBy_perm {A} (cmp : A -> A -> comparison) l :
  Permutation (sortBy cmp l) l.
Proof.
  induction l as [| x r IH]; simpl; [reflexivity |].
  rewrite insertBy_perm. now constructor.
Qed.

Lemma limitDocs_incl {A} n (l : list A) x : In x (limitDocs n l) -> In x l.
Proof.
  unfold limitDocs. destruct (n =? 0)%Z; [easy |].
  intros H. rewrite <- (firstn_skipn (Z.abs_nat n) l). apply in_or_app. now left.
Qed.

Lemma limitDocs_all {A} n (l : list A) :
  n = 0%Z \/ (Z.of_nat (List.length l) <= Z.abs n)%Z -> limitDocs n l = l.
Proof.
  unfold limitDocs. intros [-> | H]; [reflexivity |].
  destruct (n =? 0)%Z; [reflexivity |].
  apply firstn_all2. lia.
Qed.

(** What a query returns is among the documents its filter selects, and is
    all of them, reordered, when nothing is skipped and the limit does not
    cut. *)
Lemma findProducts_ok f field order limit skip coll ps :
  findProducts env f field order limit skip coll = Ok ps ->
  (forall p, In p ps -> In p coll /\ matches env f p = true)
  /\ (skip = 0%Z ->
      limit = 0%Z \/ (countProducts env f coll <= Z.abs limit)%Z ->
      Permutation ps (filter (matches env f) coll)).
Proof.
  unfold findProducts, skipDocs.
  destruct (skip <? 0)%Z eqn:Es; [discriminate |].
  intros [= <-]. split.
  - intros p Hp. apply limitDocs_incl in Hp.
    assert (Hs : In p (sortBy (sortOrder field order) (filter (matches env f) coll))).
    { rewrite <- (firstn_skipn (Z.to_nat skip)). apply in_or_app. now right. }
    apply (Permutation_in _ (sortBy_perm _ _)) in Hs.
    now apply filter_In in Hs.
  - intros -> Hl. simpl skipn.
    rewrite limitDocs_all; [apply sortBy_perm |].
    destruct Hl as [Hl | Hl]; [now left | right].
    unfold countProducts in Hl.
    now rewrite (Permutation_length (sortBy_perm _ _)).
Qed.

Lemma findProducts_err f field order limit skip coll e :
  findProducts env f field order limit skip coll = Err e -> (skip < 0)%Z.
Proof.
  unfold findProducts, skipDocs.
  destruct (skip <? 0)%Z eqn:Es; [intros _; lia | discriminate].
Qed.

End Listing.

Lemma listByCategory_cases env c page limit sort order db resp db' :
  listByCategory env c page limit sort order db = (resp, db') ->
  db' = db
  /\ ((success resp = false /\ status resp = 500%nat)
      \/ exists ps,
           findProducts env (categoryOnly c) sort order (limit * 1)
             ((page - 1) * limit) (products db) = Ok ps
           /\ resp = mkResponse 200 true None
                       (ProductPage ps
                          (mkPageInfo
                             (ceilDiv (countProducts env (categoryOnly c)
                                         (products db)) limit)
                             page
                             (countProducts env (categoryOnly c) (products db))))).
Proof.
  unfold listByCategory, tryCatch, bind, getDb, lift, ret, throw.
  fold (categoryOnly c).
  destruct (findProducts env (categoryOnly c) sort order (limit * 1)
              ((page - 1) * limit) (products db)) as [ps | e];
    intros [= <- <-]; split; auto.
  right. exists ps. auto.
Qed.

Lemma buildFilter_category q c :
  ListQuery.category q = Some c -> c <> EmptyString ->
  ListQuery.search q = None -> ListQuery.minPrice q = None ->
  ListQuery.maxPrice q = None -> ListQuery.size q = None ->
  ListQuery.color q = None -> ListQuery.featured q = None ->
  buildFilter q = categoryOnly c.
Proof.
  unfold buildFilter. intros -> Hc -> -> -> -> -> ->. simpl.
  destruct c; [congruence | reflexivity].
Qed.

Lemma listProducts_cases env user q db resp db' :
  listProducts env user q db = (resp, db') ->
  (success resp = false /\ status resp = 500%nat /\ db' = db)
  \/ exists ps,
       findProducts env (buildFilter q) (ListQuery.sort q) (ListQuery.order q)
         (ListQuery.limit q * 1) ((ListQuery.page q - 1) * ListQuery.limit q)
         (products db) = Ok ps
       /\ resp = mkResponse 200 true None
                   (ProductPage ps
                      (mkPageInfo
                         (ceilDiv (countProducts env (buildFilter q) (products db))
                                  (ListQuery.limit q))
                         (ListQuery.page q)
                         (countProducts env (buildFilter q) (products db))))
       /\ db' = match user with
                | Some _ =>
                    with_products (incViews (map Product._id ps) (products db)) db
                | None => db
                end.
Proof.
  unfold listProducts, tryCatch, bind, getDb, putDb, lift, ret, throw.
  destruct (findProducts env (buildFilter q) (ListQuery.sort q)
              (ListQuery.order q) (ListQuery.limit q * 1)
              ((ListQuery.page q - 1) * ListQuery.limit q) (products db))
    as [ps | e].
  - destruct user; intros [= <- <-]; right; exists ps; auto.
  - intros [= <- <-]. left. auto.
Qed.

Section CategoryPage.

Variables (env : Env) (c : string) (coll : list Product.t).
Variables (field order : string) (page limit : Z) (ps : list Product.t).
Hypothesis found :
  findProducts env (categoryOnly c) field order (limit * 1)
    ((page - 1) * limit) coll = Ok ps.

Lemma categoryPage_sound p : In p ps -> In p coll /\ inCategory c p.
Proof.
  intros Hp.
  destruct (proj1 (findProducts_ok _ _ _ _ _ _ _ _ found) p Hp) as [Hin Hm].
  split; [exact Hin | now apply (matches_categoryOnly env)].
Qed.

Lemma categoryPage_complete :
  page = 1%Z ->
  limit = 0%Z \/ (countProducts env (categoryOnly c) coll <= Z.abs limit)%Z ->
  forall p, In p ps <-> In p coll /\ inCategory c p.
Proof.
  intros Hpage Hlimit p. split; [apply categoryPage_sound |].
  intros [Hin Hc].
  assert (Hperm : Permutation ps (filter (matches env (categoryOnly c)) coll)).
  { apply (proj2 (findProducts_ok _ _ _ _ _ _ _ _ found)).
    - subst page. reflexivity.
    - rewrite Z.mul_1_r. exact Hlimit. }
  apply (Permutation_in _ (Permutation_sym Hperm)).
  apply filter_In. split; [exact Hin | now apply matches_categoryOnly].
Qed.

End CategoryPage.

(** C8. A listing filtered by the category id [c] alone selects the
    available products that reference [c] in the legacy [category] field or
    in the [categories] array: the filter holds of a product exactly when
    that disjunction does; every product of the returned page is such a
    product of the collection, [total] counts them all, and the first page
    holds exactly them when the limit does not cut it.  This is so for
    [GET /api/products/category/:categoryId] and for [GET /api/products]
    with [category] as its only filter. *)
Theorem category_filter_is_or :
  (forall env c p, matches env (categoryOnly c) p = true <-> inCategory c p)
  /\ (forall env c page limit sort order db resp db',
        listByCategory env c page limit sort order db = (resp, db') ->
        success resp = true ->
        total (match data resp with
               | ProductPage _ info => info
               | _ => mkPageInfo None 0 0
               end) = countProducts env (categoryOnly c) (products db)
        /\ (forall p, In p (pageProducts resp) ->
                      In p (products db) /\ inCategory c p)
        /\ (page = 1%Z ->
            limit = 0%Z
            \/ (countProducts env (categoryOnly c) (products db) <= Z.abs limit)%Z ->
            forall p, In p (pageProducts resp)
                      <-> In p (products db) /\ inCategory c p))
  /\ (forall env user q db resp db' c,
        listProducts env user q db = (resp, db') ->
        success resp = true ->
        ListQuery.category q = Some c -> c <> EmptyString ->
        ListQuery.search q = None -> ListQuery.minPrice q = None ->
        ListQuery.maxPrice q = None -> ListQuery.size q = None ->
        ListQuery.color q = None -> ListQuery.featured q = None ->
        total (match data resp with
               | ProductPage _ info => info
               | _ => mkPageInfo None 0 0
               end) = countProducts env (categoryOnly c) (products db)
        /\ (forall p, In p (pageProducts resp) ->
                      In p (products db) /\ inCategory c p)
        /\ (ListQuery.page q = 1%Z ->
            ListQuery.limit q = 0%Z
            \/ (countProducts env (categoryOnly c) (products db)
                <= Z.abs (ListQuery.limit q))%Z ->
            forall p, In p (pageProducts resp)
                      <-> In p (products db) /\ inCategory c p)).
Proof.
  split; [exact matches_categoryOnly |].
  split.
  - intros env c page limit sort order db resp db' Hrun Hok.
    destruct (listByCategory_cases _ _ _ _ _ _ _ _ _ Hrun)
      as (_ & [(Hf & _) | (ps & Hfound & ->)]); [congruence |].
    unfold pageProducts. simpl. split; [reflexivity |]. split.
    + apply (categoryPage_sound _ _ _ _ _ _ _ _ Hfound).
    + apply (categoryPage_complete _ _ _ _ _ _ _ _ Hfound).
  - intros env user q db resp db' c Hrun Hok Hc Hne Hs Hlo Hhi Hsz Hcol Hfeat.
    pose proof (buildFilter_category q c Hc Hne Hs Hlo Hhi Hsz Hcol Hfeat) as Hf.
    destruct (listProducts_cases _ _ _ _ _ _ Hrun)
      as [(Hfail & _) | (ps & Hfound & -> & _)]; [congruence |].
    rewrite Hf in *.
    unfold pageProducts. simpl. split; [reflexivity |]. split.
    + apply (categoryPage_sound _ _ _ _ _ _ _ _ Hfound).
    + apply (categoryPage_complete _ _ _ _ _ _ _ _ Hfound).
Qed.

(** In the sample catalog the page of c1 holds the product that references
    it by the legacy field alone and the one that holds it in its array. *)
Lemma category_filter_is_or_witness :
  In Sample.legacyOnly
     (pageProducts (fst (listByCategory (Sample.env "x") "c1" 1 12 "createdAt"
                           "desc" Sample.catalog)))
  /\ In Sample.arrayOnly
       (pageProducts (fst (listByCategory (Sample.env "x") "c1" 1 12 "createdAt"
                             "desc" Sample.catalog)))
  /\ map Product._id
       (pageProducts (fst (listByCategory (Sample.env "x") "c1" 1 12 "createdAt"
                             "desc" Sample.catalog))) = ["b"; "a"].
Proof.
  destruct (proj1 (proj2 category_filter_is_or) (Sample.env "x") "c1" 1%Z 12%Z
              "createdAt" "desc" Sample.catalog _ _ (surjective_pairing _)
              eq_refl) as (_ & _ & Hall).
  assert (Hfits : 12%Z = 0%Z
                  \/ (countProducts (Sample.env "x") (categoryOnly "c1")
                        (products Sample.catalog) <= Z.abs 12)%Z)
    by (right; vm_compute; discriminate).
  split; [| split; [| reflexivity]].
  - apply (Hall eq_refl Hfits). split; [simpl; auto |].
    split; [reflexivity | left; reflexivity].
  - apply (Hall eq_refl Hfits). split; [simpl; auto |].
    split; [reflexivity | right; simpl; auto].
Defined.

(** ** Creating an order *)

Section Pricing.

Variable db : Db.

Lemma priceItems_cons item rest acc sub :
  priceItems (item :: rest) acc sub db
  = match findProductById (ItemRequest.product item) (products db) with
    | None =>
        (Reply (failure 400 ("Product with ID " ++ ItemRequest.product item
                             ++ " not found")), db)
    | Some product =>
        if Product.isAvailable product then
          priceItems rest
            (acc ++ [OrderItem.mk (Product._id product)
                       (ItemRequest.quantity item) 1%float
                       (Product.price product)
                       (Product.price product * ItemRequest.quantity item * 1)%float])
            (sub + Product.price product * ItemRequest.quantity item * 1)%float
            db
        else
          (Reply (failure 400 ("Product " ++ Product.name product
                               ++ " is not available")), db)
    end.
Proof.
  simpl. unfold bind, getDb, ret, reply.
  destruct (findProductById _ _) as [product |]; [| reflexivity].
  destruct (Product.isAvailable product); reflexivity.
Qed.

(** The loop either answers 400 for a missing or unavailable product, or
    prices every item from its product and adds the line totals to the
    running subtotal. *)
Lemma priceItems_cases items : forall acc sub,
  (exists msg, priceItems items acc sub db = (Reply (failure 400 msg), db))
  \/ (exists lines,
        priceItems items acc sub db
        = (Next (acc ++ lines, sumLines lines sub), db)
        /\ Forall2 (linePriced (products db)) items lines).
Proof.
  induction items as [| item rest IH]; intros acc sub.
  - right. exists []. split; [| constructor].
    simpl. unfold ret. now rewrite app_nil_r.
  - rewrite priceItems_cons.
    destruct (findProductById (ItemRequest.product item) (products db))
      as [product |] eqn:F; [| left; eexists; reflexivity].
    destruct (Product.isAvailable product) eqn:A;
      [| left; eexists; reflexivity].
    set (line := OrderItem.mk (Product._id product) (ItemRequest.quantity item)
                   1%float (Product.price product)
                   (Product.price product * ItemRequest.quantity item * 1)%float).
    destruct (IH (acc ++ [line])
                 (sub + Product.price product * ItemRequest.quantity item * 1)%float)
      as [(msg & H) | (lines & H & HF)]; rewrite H.
    + left. now exists msg.
    + right. exists (line :: lines). split.
      * rewrite <- app_assoc. reflexivity.
      * constructor; [| exact HF]. exists product. auto.
Qed.

End Pricing.

Lemma saveOrder_new env o coll o' coll' :
  saveOrder env true o coll = Ok (o', coll') ->
  validateOrder o = true
  /\ o' = Order.set_orderNumber (makeOrderNumber env) o
  /\ coll' = coll ++ [o'].
Proof.
  unfold saveOrder. destruct (validateOrder o); simpl; [| discriminate].
  destruct (orderNumberConflict coll _); [discriminate |].
  intros [= <- <-]. auto.
Qed.

(** A creation either fails and leaves the database as it was, or passes
    the three date rules, prices every item and appends the new order. *)
Lemma createOrderAs_cases owner guest env errs body db resp db' :
  createOrderAs owner guest env errs body db = (resp, db') ->
  (success resp = false /\ db' = db
   /\ (status resp = 400%nat \/ status resp = 500%nat))
  \/ (exists lines,
        let subtotal := sumLines lines 0%float in
        let shippingCost :=
          (if PrimFloat.ltb 100 subtotal then 0 else 10)%float in
        let tax := (subtotal * 0.08)%float in
        let o :=
          Order.mk (newId env) owner guest lines
            (NewOrder.shippingAddress body) (NewOrder.paymentMethod body)
            PaymentPending Pending subtotal shippingCost tax
            (subtotal + shippingCost + tax)%float
            (Some (makeOrderNumber env))
            (NewOrder.rentalStartDate body) (NewOrder.rentalEndDate body)
            (NewOrder.needDate body) (NewOrder.notes body) None true in
        Forall2 (linePriced (products db)) (NewOrder.items body) lines
        /\ isValidDate (NewOrder.rentalStartDate body) = true
        /\ isValidDate (NewOrder.rentalEndDate body) = true
        /\ isValidDate (NewOrder.needDate body) = true
        /\ date_lt (NewOrder.rentalStartDate body) (startOfToday env) = false
        /\ date_le (NewOrder.rentalEndDate body) (NewOrder.rentalStartDate body)
           = false
        /\ date_lt (NewOrder.needDate body) (startOfToday env) = false
        /\ resp = mkResponse 201 true (Some "Order created successfully")
                    (OneOrder o)
        /\ db' = with_orders (orders db ++ [o]) db).
Proof.
  unfold createOrderAs, tryCatch.
  unfold bind at 1. destruct errs as [| e errs]; simpl;
    [| intros [= <- <-]; left; auto].
  unfold bind at 1.
  destruct (date_lt (NewOrder.rentalStartDate body) (startOfToday env)) eqn:D1;
    simpl; [intros [= <- <-]; left; auto |].
  unfold bind at 1.
  destruct (date_le (NewOrder.rentalEndDate body) (NewOrder.rentalStartDate body))
    eqn:D2; simpl; [intros [= <- <-]; left; auto |].
  unfold bind at 1.
  destruct (date_lt (NewOrder.needDate body) (startOfToday env)) eqn:D3;
    simpl; [intros [= <- <-]; left; auto |].
  unfold bind at 1.
  destruct (priceItems_cases db (NewOrder.items body) [] 0%float)
    as [(msg & H) | (lines & H & HF)]; rewrite H;
    [intros [= <- <-]; left; auto |].
  unfold bind, getDb, putDb, lift, ret, throw. cbn [fst snd app].
  destruct (saveOrder env true _ (orders db)) as [[o' coll'] | e] eqn:S.
  - apply saveOrder_new in S as (V & -> & ->).
    unfold validateOrder in V. cbn [Order.rentalStartDate Order.rentalEndDate
      Order.needDate] in V.
    repeat (apply andb_true_iff in V as [V ?]).
    simpl. intros [= <- <-]. right. exists lines. cbv zeta.
    repeat split; assumption.
  - intros [= <- <-]. left. auto.
Qed.

(** C2. Every order that either creation handler persists is priced from
    the products in the database: each item carries the current price of
    its product, the quantity asked, a rental duration of 1 whatever the
    client sent, and price times quantity times 1 as its line total; the
    subtotal adds the line totals from 0 in item order; shipping is 0 when
    100 < subtotal and 10 otherwise; tax is subtotal times 0.08; the total
    is subtotal plus shipping plus tax.  All arithmetic is that of binary64
    numbers.  Items at 40 and 70, one of each, give 110, 0, 8.8 and 118.8;
    a guest order of one item at 60 gives 60, 10, 4.8 and 74.8. *)
Theorem order_pricing :
  (forall owner guest env errs body db resp db',
      createOrderAs owner guest env errs body db = (resp, db') ->
      success resp = true ->
      exists o,
        data resp = OneOrder o
        /\ orders db' = orders db ++ [o]
        /\ Forall2 (linePriced (products db)) (NewOrder.items body)
             (Order.items o)
        /\ Order.subtotal o = sumLines (Order.items o) 0%float
        /\ Order.shippingCost o
           = (if PrimFloat.ltb 100 (Order.subtotal o) then 0 else 10)%float
        /\ Order.tax o = (Order.subtotal o * 0.08)%float
        /\ Order.totalAmount o
           = (Order.subtotal o + Order.shippingCost o + Order.tax o)%float)
  /\ Sample.amounts (fst (createOrder Sample.alice (Sample.env "o1") []
                            Sample.basket Sample.wardrobe))
     = Some (110, 0, 8.8, 118.8)%float
  /\ Sample.amounts (fst (createGuestOrder (Sample.env "o2") []
                            Sample.smallBasket Sample.wardrobe))
     = Some (60, 10, 4.8, 74.8)%float.
Proof.
  split; [| split; reflexivity].
  intros owner guest env errs body db resp db' Hrun Hok.
  destruct (createOrderAs_cases _ _ _ _ _ _ _ _ Hrun)
    as [(Hf & _) | (lines & HF & _ & _ & _ & _ & _ & _ & -> & ->)];
    [congruence |].
  eexists. split; [reflexivity |]. simpl. repeat split. exact HF.
Qed.

(** The sample basket through the general statement: the stored items are
    priced at 40 and 70 for one day, and the amounts follow. *)
Lemma order_pricing_witness :
  exists o,
    responseOrder (fst (createOrder Sample.alice (Sample.env "o1") []
                          Sample.basket Sample.wardrobe)) = Some o
    /\ map OrderItem.totalPrice (Order.items o) = [40; 70]%float
    /\ map OrderItem.rentalDuration (Order.items o) = [1; 1]%float
    /\ Order.subtotal o = 110%float
    /\ Order.totalAmount o = 118.8%float.
Proof.
  destruct (proj1 order_pricing (Some "u1") false (Sample.env "o1") []
              Sample.basket Sample.wardrobe _ _ (surjective_pairing _) eq_refl)
    as (o & Hdata & _ & _ & Hsub & Hship & Htax & Htotal).
  exists o. unfold responseOrder.
  change (createOrder Sample.alice) with (createOrderAs (Some "u1") false).
  rewrite Hdata. split; [reflexivity |].
  vm_compute in Hdata. injection Hdata as <-.
  repeat split; reflexivity.
Defined.

(** ** The date rules *)

Lemma startOfToday_local env :
  exists t m,
    startOfToday env = Some t
    /\ (m mod msPerDay = 0)%Z
    /\ (m <= now env + localTZA env (now env) true < m + msPerDay)%Z
    /\ t = (m - localTZA env m false)%Z.
Proof.
  unfold startOfToday, utcOf, localTime.
  set (l := (now env + localTZA env (now env) true)%Z).
  exists (l / msPerDay * msPerDay - localTZA env (l / msPerDay * msPerDay) false)%Z,
         (l / msPerDay * msPerDay)%Z.
  assert (Hd : (0 < msPerDay)%Z) by reflexivity.
  pose proof (Z.mod_pos_bound l msPerDay Hd) as Hb.
  pose proof (Z.div_mod l msPerDay ltac:(lia)) as Hdm.
  split; [reflexivity |]. split; [apply Z_mod_mult |]. split; [lia | reflexivity].
Qed.

Lemma startOfToday_midnight env off :
  (forall t b, localTZA env t b = off) ->
  exists t,
    startOfToday env = Some t
    /\ ((t + off) mod msPerDay = 0)%Z
    /\ (t <= now env < t + msPerDay)%Z.
Proof.
  intros Hfixed.
  destruct (startOfToday_local env) as (t & m & Ht & Hm & Hb & ->).
  rewrite !Hfixed in *. eexists. split; [exact Ht |].
  split; [| lia].
  now replace (m - off + off)%Z with m by lia.
Qed.

(** C4. Order creation, authenticated or guest, answers 400 and persists
    nothing when the rental start date is before local midnight of the
    current day, when the rental end date is at or before the start date,
    or when the need date is before that midnight; with a well-formed body
    the answer is one of the three date messages.  The midnight compared
    with is the instant at which the local calendar day of the clock
    begins: its local time of day is zero and the local time of the clock
    lies within the day it starts.  In a zone with a fixed offset it is
    less than 24 hours before the clock; on the 25-hour day of the sample
    zone it is 04:00 UTC.  A request one of whose dates is not a date at
    all is not stored either. *)
Theorem order_dates_checked :
  ((forall env,
      exists t m,
        startOfToday env = Some t
        /\ (m mod msPerDay = 0)%Z
        /\ (m <= now env + localTZA env (now env) true < m + msPerDay)%Z
        /\ t = (m - localTZA env m false)%Z)
   /\ (forall env off,
         (forall t b, localTZA env t b = off) ->
         exists t,
           startOfToday env = Some t
           /\ ((t + off) mod msPerDay = 0)%Z
           /\ (t <= now env < t + msPerDay)%Z)
   /\ startOfToday Sample.autumn = Some 1730606400000%Z)
  /\ (forall owner guest env errs body db resp db' today,
        createOrderAs owner guest env errs body db = (resp, db') ->
        startOfToday env = Some today ->
        (exists s, NewOrder.rentalStartDate body = Some s /\ (s < today)%Z)
        \/ (exists s e, NewOrder.rentalStartDate body = Some s
                        /\ NewOrder.rentalEndDate body = Some e
                        /\ (e <= s)%Z)
        \/ (exists n, NewOrder.needDate body = Some n /\ (n < today)%Z) ->
        status resp = 400%nat
        /\ success resp = false
        /\ db' = db
        /\ (errs = [] -> In (message resp) dateRuleMessages))
  /\ (forall owner guest env errs body db resp db',
        createOrderAs owner guest env errs body db = (resp, db') ->
        NewOrder.rentalStartDate body = None
        \/ NewOrder.rentalEndDate body = None
        \/ NewOrder.needDate body = None ->
        success resp = false /\ db' = db).
Proof.
  split.
  { split; [exact startOfToday_local |].
    split; [exact startOfToday_midnight | reflexivity]. }
  split.
  2:{ intros owner guest env errs body db resp db' Hrun Hinvalid.
      destruct (createOrderAs_cases _ _ _ _ _ _ _ _ Hrun)
        as [(Hf & -> & _) | (lines & _ & V1 & V2 & V3 & _)]; [auto |].
      destruct Hinvalid as [H | [H | H]]; rewrite H in *; discriminate. }
  intros owner guest env errs body db resp db' today Hrun Htoday Hrule.
  revert Hrun. unfold createOrderAs, tryCatch.
  unfold bind at 1. destruct errs as [| e errs]; simpl;
    [| intros [= <- <-]; repeat split; discriminate].
  unfold bind at 1.
  destruct (date_lt (NewOrder.rentalStartDate body) (startOfToday env)) eqn:D1;
    simpl; [intros [= <- <-]; simpl; repeat split; intros _; auto 10 |].
  unfold bind at 1.
  destruct (date_le (NewOrder.rentalEndDate body) (NewOrder.rentalStartDate body))
    eqn:D2; simpl; [intros [= <- <-]; simpl; repeat split; intros _; auto 10 |].
  unfold bind at 1.
  destruct (date_lt (NewOrder.needDate body) (startOfToday env)) eqn:D3;
    simpl; [intros [= <- <-]; simpl; repeat split; intros _; auto 10 |].
  exfalso. rewrite Htoday in *.
  destruct Hrule as [(s & Hs & Hlt) | [(s & e & Hs & He & Hle) | (n & Hn & Hlt)]].
  - rewrite Hs in D1. simpl in D1. apply Z.ltb_ge in D1. lia.
  - rewrite Hs, He in D2. simpl in D2. apply Z.leb_gt in D2. lia.
  - rewrite Hn in D3. simpl in D3. apply Z.ltb_ge in D3. lia.
Qed.

(** A basket due back on the day it starts is refused, and nothing is
    stored. *)
Lemma order_dates_checked_witness :
  createOrder Sample.alice (Sample.env "o1") [] Sample.sameDayBasket
    Sample.wardrobe
  = (failure 400 "Rental end date must be after start date", Sample.wardrobe)
  /\ status (fst (createOrder Sample.alice (Sample.env "o1") []
                    Sample.sameDayBasket Sample.wardrobe)) = 400%nat
  /\ snd (createOrder Sample.alice (Sample.env "o1") [] Sample.sameDayBasket
            Sample.wardrobe) = Sample.wardrobe.
Proof.
  split; [reflexivity |].
  destruct (proj1 (proj2 order_dates_checked) (Some "u1") false
              (Sample.env "o1") []
              Sample.sameDayBasket Sample.wardrobe _ _ _
              (surjective_pairing _) eq_refl
              (or_intror (or_introl
                 (ex_intro _ Sample.tomorrow
                    (ex_intro _ Sample.tomorrow
                       (conj eq_refl (conj eq_refl (Z.le_refl _))))))))
    as (Hs & _ & Hdb & _).
  split; [exact Hs | exact Hdb].
Defined.

(** ** Reading and cancelling an order *)

Section Ownership.

Variable user : AuthUser.
Variable o : Order.t.
Variable db : Db.

Lemma notAllowed_admin :
  isAdmin user = true -> notAllowed user o db = (Next false, db).
Proof. unfold notAllowed. now intros ->. Qed.

Lemma notAllowed_guest :
  isAdmin user = false -> Order.user o = None ->
  notAllowed user o db = (Throw TypeError, db).
Proof.
  unfold notAllowed, ownerString, bind, throw. now intros -> ->.
Qed.

Lemma notAllowed_user u :
  isAdmin user = false -> Order.user o = Some u ->
  notAllowed user o db = (Next (negb (String.eqb u (id user))), db).
Proof.
  unfold notAllowed, ownerString, bind, ret. now intros -> ->.
Qed.

End Ownership.

Lemma cancellable_iff st :
  includes cancellableStatuses (orderStatusName st) = true
  <-> st = Pending \/ st = Confirmed.
Proof.
  destruct st; simpl; split; intros H; auto; try discriminate;
    destruct H; discriminate.
Qed.

Lemma findOrderById_id i coll o :
  findOrderById i coll = Some o -> Order._id o = i.
Proof.
  unfold findOrderById. intros H. apply find_some in H as [_ H].
  now apply String.eqb_eq.
Qed.

Lemma findOrderById_replace q coll :
  findOrderById (Order._id q) coll <> None ->
  findOrderById (Order._id q) (replaceOrder q coll) = Some q.
Proof.
  unfold findOrderById, replaceOrder.
  induction coll as [| y l IH]; simpl; [congruence |].
  destruct (String.eqb (Order._id y) (Order._id q)) eqn:E; simpl.
  - now rewrite String.eqb_refl.
  - rewrite E. exact IH.
Qed.

(** What the cancel handler does once the order is found and the requester
    is let through. *)
Lemma cancelOrder_allowed env user i notes db o :
  findOrderById i (orders db) = Some o ->
  notAllowed user o db = (Next false, db) ->
  cancelOrder env user i notes db
  = if includes cancellableStatuses (orderStatusName (Order.orderStatus o))
    then
      let o' :=
        if isAdmin user then
          Order.set_adminNotes
            (trim (match truthyParam notes with
                   | Some note => note
                   | None => "Order cancelled by admin"
                   end)) (Order.set_orderStatus Cancelled o)
        else Order.set_orderStatus Cancelled o in
      if validateOrder o then
        (mkResponse 200 true (Some "Order cancelled successfully") (OneOrder o'),
         with_orders (replaceOrder o' (orders db)) db)
      else (failure 500 "Server error while cancelling order", db)
    else (failure 400 "Order cannot be cancelled in its current status", db).
Proof.
  intros Hfind Hok. unfold cancelOrder, tryCatch.
  unfold bind at 1, getDb at 1. rewrite Hfind.
  unfold bind at 1. rewrite Hok. cbv beta iota.
  unfold bind at 1. change (negb false) with true. cbv beta iota.
  unfold ret at 1. cbv beta iota.
  unfold bind at 1.
  destruct (includes cancellableStatuses (orderStatusName (Order.orderStatus o)));
    [| reflexivity].
  unfold bind, getDb, putDb, lift, ret, throw, saveOrder, orderPreSave.
  destruct (isAdmin user); simpl;
    change (validateOrder _) with (validateOrder o);
    destruct (validateOrder o); reflexivity.
Qed.

Lemma cancelOrder_denied env user i notes db o :
  findOrderById i (orders db) = Some o ->
  notAllowed user o db = (Next true, db) ->
  cancelOrder env user i notes db = (failure 403 "Access denied", db).
Proof.
  intros Hfind Hno. unfold cancelOrder, tryCatch.
  unfold bind at 1, getDb at 1. rewrite Hfind.
  unfold bind at 1. rewrite Hno. reflexivity.
Qed.

Lemma cancelOrder_thrown env user i notes db o :
  findOrderById i (orders db) = Some o ->
  notAllowed user o db = (Throw TypeError, db) ->
  cancelOrder env user i notes db
  = (failure 500 "Server error while cancelling order", db).
Proof.
  intros Hfind Hno. unfold cancelOrder, tryCatch.
  unfold bind at 1, getDb at 1. rewrite Hfind.
  unfold bind at 1. rewrite Hno. reflexivity.
Qed.

Lemma populateOwner_guest user accounts o :
  Order.user o = None -> populateOwner user accounts o = o.
Proof. unfold populateOwner. now intros ->. Qed.

Lemma populateOwner_own user accounts o :
  Order.user o = Some (id user) -> populateOwner user accounts o = o.
Proof. unfold populateOwner. intros ->. now rewrite String.eqb_refl. Qed.

Lemma populateOwner_found user accounts o u :
  Order.user o = Some u -> In u accounts -> populateOwner user accounts o = o.
Proof.
  unfold populateOwner. intros -> Hin.
  assert (H : includes accounts u = true).
  { unfold includes. apply existsb_exists. exists u.
    split; [exact Hin | apply String.eqb_refl]. }
  now rewrite H, orb_true_r.
Qed.

Lemma populateOwner_orphan user accounts o u :
  Order.user o = Some u -> u <> id user -> ~ In u accounts ->
  Order.user (populateOwner user accounts o) = None.
Proof.
  unfold populateOwner. intros -> Hne Hout.
  apply String.eqb_neq in Hne. rewrite Hne.
  destruct (includes accounts u) eqn:I; [| reflexivity].
  exfalso. apply Hout. unfold includes in I.
  apply existsb_exists in I as (x & Hx & Heq).
  apply String.eqb_eq in Heq. now subst.
Qed.

Lemma getOrder_run user i db o :
  findOrderById i (orders db) = Some o ->
  getOrder user i db
  = match notAllowed user (populateOwner user (users db) o) db with
    | (Next false, _) => (mkResponse 200 true None (OneOrder o), db)
    | (Next true, _) => (failure 403 "Access denied", db)
    | (_, _) => (failure 500 "Server error while fetching order", db)
    end.
Proof.
  intros Hfind. unfold getOrder, tryCatch.
  unfold bind at 1, getDb at 1. rewrite Hfind.
  unfold bind at 1.
  destruct (isAdmin user) eqn:A.
  - rewrite notAllowed_admin by exact A. reflexivity.
  - destruct (Order.user (populateOwner user (users db) o)) as [u |] eqn:U.
    + rewrite (notAllowed_user _ _ _ u A U).
      destruct (String.eqb u (id user)); reflexivity.
    + rewrite notAllowed_guest by assumption. reflexivity.
Qed.

Lemma notAllowed_mayCancel user o db :
  mayCancel user o -> notAllowed user o db = (Next false, db).
Proof.
  intros [A | U].
  - now apply notAllowed_admin.
  - destruct (isAdmin user) eqn:A; [now apply notAllowed_admin |].
    rewrite (notAllowed_user _ _ _ _ A U). now rewrite String.eqb_refl.
Qed.

Lemma notAllowed_stranger user o db :
  ~ mayCancel user o ->
  notAllowed user o db = (Next true, db)
  \/ notAllowed user o db = (Throw TypeError, db).
Proof.
  unfold mayCancel. intros H.
  destruct (isAdmin user) eqn:A; [exfalso; auto |].
  destruct (Order.user o) as [u |] eqn:U.
  - left. rewrite (notAllowed_user _ _ _ _ A U).
    destruct (String.eqb_spec u (id user)) as [-> | _]; [exfalso; auto | reflexivity].
  - right. now apply notAllowed_guest.
Qed.

Lemma mayCancel_dec user o : mayCancel user o \/ ~ mayCancel user o.
Proof.
  unfold mayCancel. destruct (isAdmin user); [left; now left |].
  destruct (Order.user o) as [u |].
  - destruct (String.eqb_spec u (id user)) as [-> | Hn]; [left; now right |].
    right. intros [H | H]; congruence.
  - right. intros [H | H]; discriminate.
Qed.

(** C5. A cancellation request on an existing order succeeds only when the
    requester is an admin or the owner and the order is Pending or
    Confirmed, and it does succeed then (the stored order being valid); in
    every other status, and on every failure, the answer is an error and
    the database is unchanged, the answer to an allowed requester being the
    400 of the status rule; on success the stored order is the old one with
    [orderStatus] Cancelled, and with the default note as [adminNotes] when
    an admin cancels without a note, while a cancellation by the owner
    leaves [adminNotes] alone. *)
Theorem cancellation_rules :
  forall env user i notes db o resp db',
    findOrderById i (orders db) = Some o ->
    cancelOrder env user i notes db = (resp, db') ->
    (success resp = true -> mayCancel user o /\ isCancellable o)
    /\ (mayCancel user o -> isCancellable o -> validateOrder o = true ->
        success resp = true)
    /\ (~ isCancellable o -> success resp = false /\ db' = db)
    /\ (mayCancel user o -> ~ isCancellable o ->
        resp = failure 400 "Order cannot be cancelled in its current status")
    /\ (success resp = false -> db' = db)
    /\ (success resp = true ->
        exists o',
          data resp = OneOrder o'
          /\ findOrderById i (orders db') = Some o'
          /\ Order.orderStatus o' = Cancelled
          /\ Order.user o' = Order.user o
          /\ Order.items o' = Order.items o
          /\ Order.totalAmount o' = Order.totalAmount o
          /\ (isAdmin user = true ->
              notes = None \/ notes = Some EmptyString ->
              Order.adminNotes o' = Some "Order cancelled by admin")
          /\ (isAdmin user = false ->
              Order.adminNotes o' = Order.adminNotes o)).
Proof.
  intros env user i notes db o resp db' Hfind Hrun.
  destruct (mayCancel_dec user o) as [Hmay | Hnot].
  - rewrite (cancelOrder_allowed _ _ _ _ _ _ Hfind
               (notAllowed_mayCancel _ _ _ Hmay)) in Hrun.
    destruct (includes cancellableStatuses
                (orderStatusName (Order.orderStatus o))) eqn:C.
    + apply cancellable_iff in C.
      cbv zeta in Hrun. destruct (validateOrder o) eqn:V.
      * injection Hrun as <- <-.
        split; [intros _; split; assumption |].
        split; [reflexivity |].
        split; [intros Hn; exfalso; now apply Hn |].
        split; [intros _ Hn; exfalso; now apply Hn |].
        split; [discriminate |].
        intros _.
        assert (Hstored : forall q,
                  Order._id q = Order._id o ->
                  findOrderById i (replaceOrder q (orders db)) = Some q).
        { intros q Hq. rewrite <- (findOrderById_id _ _ _ Hfind), <- Hq.
          apply findOrderById_replace.
          rewrite Hq, (findOrderById_id _ _ _ Hfind), Hfind. discriminate. }
        destruct (isAdmin user); eexists; (split; [reflexivity |]);
          (split; [apply Hstored; reflexivity |]); simpl.
        { split; [reflexivity |]. split; [reflexivity |].
          split; [reflexivity |]. split; [reflexivity |].
          split; [| discriminate].
          intros _ [-> | ->]; reflexivity. }
        { split; [reflexivity |]. split; [reflexivity |].
          split; [reflexivity |]. split; [reflexivity |].
          split; [discriminate | reflexivity]. }
      * injection Hrun as <- <-.
        split; [discriminate |].
        split; [intros _ _ Hv; discriminate |].
        split; [intros Hn; exfalso; now apply Hn |].
        split; [intros _ Hn; exfalso; now apply Hn |].
        split; [reflexivity | discriminate].
    + assert (Hn : ~ isCancellable o).
      { intros H. apply cancellable_iff in H. congruence. }
      injection Hrun as <- <-.
      split; [discriminate |].
      split; [intros _ Hc; exfalso; now apply Hn |].
      split; [intros _; split; reflexivity |].
      split; [reflexivity |].
      split; [reflexivity | discriminate].
  - assert (Hfail : success resp = false /\ db' = db).
    { destruct (notAllowed_stranger user o db Hnot) as [H | H].
      - rewrite (cancelOrder_denied _ _ _ _ _ _ Hfind H) in Hrun.
        injection Hrun as <- <-. auto.
      - rewrite (cancelOrder_thrown _ _ _ _ _ _ Hfind H) in Hrun.
        injection Hrun as <- <-. auto. }
    destruct Hfail as [Hf ->].
    split; [intros Ht; congruence |].
    split; [intros Hm; exfalso; now apply Hnot |].
    split; [intros _; split; [exact Hf | reflexivity] |].
    split; [intros Hm; exfalso; now apply Hnot |].
    split; [reflexivity | intros Ht; congruence].
Qed.

(** Alice cancels her pending order; once it is shipped she no longer can. *)
Lemma cancellation_rules_witness :
  (exists o',
      findOrderById "o1"
        (orders (snd (cancelOrder (Sample.env "x") Sample.alice "o1" None
                        Sample.placed))) = Some o'
      /\ Order.orderStatus o' = Cancelled)
  /\ cancelOrder (Sample.env "x") Sample.alice "o1" None Sample.shipped
     = (failure 400 "Order cannot be cancelled in its current status",
        Sample.shipped).
Proof.
  split; [| reflexivity].
  destruct (cancellation_rules (Sample.env "x") Sample.alice "o1" None
              Sample.placed
              (Order.set_orderNumber "ORD240505007"
                 (Order.mk "o1" (Some "u1") false
                    [OrderItem.mk "p40" 1 1 40 40; OrderItem.mk "p70" 1 1 70 70]
                    Sample.home "PayPal" PaymentPending Pending 110 0 8.8 118.8
                    None (Some Sample.tomorrow) (Some Sample.dayAfter)
                    (Some Sample.tomorrow) None None true))
              _ _ eq_refl (surjective_pairing _))
    as (_ & _ & _ & _ & _ & Hdone).
  destruct (Hdone eq_refl) as (o' & _ & Hstored & Hstatus & _).
  exists o'. split; [exact Hstored | exact Hstatus].
Defined.

(** C10. A guest order is stored with a null [user] and the guest flag.
    When an authenticated user who is not an admin asks for such an order,
    or asks to cancel it, the ownership check reads a property of that
    null, the handler throws, and the answer is the 500 of its catch
    clause, not a 403; the database is unchanged.  An admin, for whom the
    check is skipped, gets the order, and can cancel it under the status
    rule. *)
Theorem guest_order_access :
  (forall env errs body db resp db',
      createGuestOrder env errs body db = (resp, db') ->
      success resp = true ->
      exists o,
        data resp = OneOrder o
        /\ orders db' = orders db ++ [o]
        /\ Order.user o = None
        /\ Order.isGuestOrder o = true)
  /\ (forall env user i notes db o,
        findOrderById i (orders db) = Some o ->
        Order.user o = None ->
        isAdmin user = false ->
        getOrder user i db
        = (failure 500 "Server error while fetching order", db)
        /\ cancelOrder env user i notes db
           = (failure 500 "Server error while cancelling order", db))
  /\ (forall env user i notes db o,
        findOrderById i (orders db) = Some o ->
        Order.user o = None ->
        isAdmin user = true ->
        getOrder user i db = (mkResponse 200 true None (OneOrder o), db)
        /\ (isCancellable o -> validateOrder o = true ->
            success (fst (cancelOrder env user i notes db)) = true)).
Proof.
  split; [| split].
  - intros env errs body db resp db' Hrun Hok.
    destruct (createOrderAs_cases _ _ _ _ _ _ _ _ Hrun)
      as [(Hf & _) | (lines & _ & _ & _ & _ & _ & _ & _ & -> & ->)];
      [congruence |].
    eexists. split; [reflexivity |]. simpl. auto.
  - intros env user i notes db o Hfind Hguest Huser.
    pose proof (notAllowed_guest user o db Huser Hguest) as Hthrow.
    split.
    + rewrite (getOrder_run _ _ _ _ Hfind),
        (populateOwner_guest _ _ _ Hguest), Hthrow.
      reflexivity.
    + exact (cancelOrder_thrown _ _ _ _ _ _ Hfind Hthrow).
  - intros env user i notes db o Hfind Hguest Hadmin.
    split.
    + rewrite (getOrder_run _ _ _ _ Hfind), (notAllowed_admin _ _ _ Hadmin).
      reflexivity.
    + intros Hc Hv.
      rewrite (cancelOrder_allowed _ _ _ _ _ _ Hfind
                 (notAllowed_admin _ _ _ Hadmin)).
      apply cancellable_iff in Hc. rewrite Hc. cbv zeta. rewrite Hv.
      reflexivity.
Qed.

(** Bob, who is no admin, asks for the guest's order and to cancel it: both
    answers are 500. *)
Lemma guest_order_access_witness :
  getOrder Sample.bob "o2" Sample.placedByGuest
  = (failure 500 "Server error while fetching order", Sample.placedByGuest)
  /\ cancelOrder (Sample.env "x") Sample.bob "o2" None Sample.placedByGuest
     = (failure 500 "Server error while cancelling order",
        Sample.placedByGuest).
Proof.
  exact (proj1 (proj2 guest_order_access) (Sample.env "x") Sample.bob "o2" None
           Sample.placedByGuest
           (Order.set_orderNumber "ORD240505007"
              (Order.mk "o2" None true [OrderItem.mk "p60" 1 1 60 60]
                 Sample.home "Cash on Delivery" PaymentPending Pending 60 10
                 4.8 74.8 None (Some Sample.tomorrow) (Some Sample.dayAfter)
                 (Some Sample.tomorrow) None None true))
           eq_refl eq_refl eq_refl).
Defined.

(** ** Order statistics *)

Lemma revenueMatch_delivered o :
  revenueMatch o = true <-> Order.orderStatus o = Delivered.
Proof.
  unfold revenueMatch. destruct (Order.orderStatus o); simpl; split;
    intros H; auto; discriminate.
Qed.

(** C6, as the code has it.  The revenue pipeline matches on [orderStatus]
    alone: an order enters the sum exactly when it is Delivered, 'Paid' not
    being an order status.  On the sample shop, whose one order is paid and
    not delivered, the endpoint reports 0 where the specification's sum
    over delivered or paid orders is 118.8. *)
Theorem revenue_skips_paid_orders :
  (forall o, revenueMatch o = true <-> Order.orderStatus o = Delivered)
  /\ map Order.paymentStatus (orders Sample.paid) = [Paid]
  /\ map Order.orderStatus (orders Sample.paid) = [Pending]
  /\ Sample.revenue (fst (orderStats Sample.paid)) = Some 0%float
  /\ spec_totalRevenue (orders Sample.paid) = 118.8%float.
Proof.
  split; [exact revenueMatch_delivered |].
  repeat split.
Qed.

(** * Further properties *)

(** ** Reading orders *)

Lemma getOrder_unchanged user i db : snd (getOrder user i db) = db.
Proof.
  unfold getOrder, tryCatch. unfold bind at 1, getDb at 1.
  destruct (findOrderById i (orders db)) as [o |] eqn:Hfind; [| reflexivity].
  unfold bind at 1.
  destruct (isAdmin user) eqn:A.
  - rewrite notAllowed_admin by exact A. reflexivity.
  - destruct (Order.user (populateOwner user (users db) o)) as [u |] eqn:U.
    + rewrite (notAllowed_user _ _ _ u A U).
      destruct (String.eqb u (id user)); reflexivity.
    + rewrite notAllowed_guest by assumption. reflexivity.
Qed.

(** X1. Reading one order never writes.  An order that does not exist is
    a 404.  An admin is shown any order.  A customer is shown their own
    order; asking for the order of another user they are refused with 403,
    not 404, as long as that user's account exists, and answered 500 once
    the account has been deleted, the handler reading the id of an owner
    that is no longer there. *)
Theorem order_read_access :
  forall user i db,
    snd (getOrder user i db) = db
    /\ (findOrderById i (orders db) = None ->
        fst (getOrder user i db) = failure 404 "Order not found")
    /\ (forall o,
          findOrderById i (orders db) = Some o ->
          (isAdmin user = true ->
           fst (getOrder user i db) = mkResponse 200 true None (OneOrder o))
          /\ (isAdmin user = false ->
              (Order.user o = Some (id user) ->
               fst (getOrder user i db)
               = mkResponse 200 true None (OneOrder o))
              /\ (forall owner,
                    Order.user o = Some owner -> owner <> id user ->
                    (In owner (users db) ->
                     fst (getOrder user i db) = failure 403 "Access denied")
                    /\ (~ In owner (users db) ->
                        fst (getOrder user i db)
                        = failure 500 "Server error while fetching order")))).
Proof.
  intros user i db. split; [apply getOrder_unchanged |]. split.
  - intros Hnone. unfold getOrder, tryCatch, bind, getDb.
    now rewrite Hnone.
  - intros o Hfind. rewrite (getOrder_run _ _ _ _ Hfind). split.
    + intros A. rewrite notAllowed_admin by exact A. reflexivity.
    + intros A. split.
      * intros Hown. rewrite (populateOwner_own _ _ _ Hown).
        rewrite (notAllowed_user _ _ _ _ A Hown), String.eqb_refl.
        reflexivity.
      * intros owner Howner Hne. split.
        { intros Hin. rewrite (populateOwner_found _ _ _ _ Howner Hin).
          rewrite (notAllowed_user _ _ _ _ A Howner).
          apply String.eqb_neq in Hne. now rewrite Hne. }
        { intros Hout.
          rewrite (notAllowed_guest _ _ _ A
                     (populateOwner_orphan _ _ _ _ Howner Hne Hout)).
          reflexivity. }
Qed.

(** Bob asks for Alice's order and is refused; Alice gets it; after the
    admin has deleted Alice's account, Bob's request is answered 500. *)
Lemma order_read_access_witness :
  fst (getOrder Sample.bob "o1" Sample.placed) = failure 403 "Access denied"
  /\ fst (getOrder Sample.alice "o1" Sample.placed)
     = mkResponse 200 true None (OneOrder More.aliceOrder)
  /\ fst (deleteUser Sample.root "u1" Sample.placed)
     = mkResponse 200 true (Some "User deleted successfully") NoData
  /\ fst (getOrder Sample.bob "o1" More.orphaned)
     = failure 500 "Server error while fetching order".
Proof.
  destruct (order_read_access Sample.bob "o1" Sample.placed) as (_ & _ & Hb).
  destruct (order_read_access Sample.alice "o1" Sample.placed) as (_ & _ & Ha).
  destruct (order_read_access Sample.bob "o1" More.orphaned) as (_ & _ & Ho).
  assert (Hne : "u1" <> id Sample.bob) by discriminate.
  split; [| split; [| split]].
  - apply (proj2 (proj2 (Hb More.aliceOrder eq_refl) eq_refl) "u1" eq_refl Hne).
    simpl. auto.
  - exact (proj1 (proj2 (Ha More.aliceOrder eq_refl) eq_refl) eq_refl).
  - reflexivity.
  - apply (proj2 (proj2 (Ho More.aliceOrder eq_refl) eq_refl) "u1" eq_refl Hne).
    simpl. intuition discriminate.
Defined.

(** ** Listing orders *)

Lemma filter_all {A} (f : A -> bool) l :
  (forall x, f x = true) -> filter f l = l.
Proof.
  intros H. induction l as [| x r IH]; simpl; [reflexivity |].
  now rewrite H, IH.
Qed.

Lemma sortOrders_perm field order l : Permutation (sortOrders field order l) l.
Proof.
  unfold sortOrders. destruct (String.eqb field "createdAt").
  - destruct (String.eqb order "desc");
      [apply Permutation_sym, Permutation_rev | reflexivity].
  - apply sortBy_perm.
Qed.

Lemma listOrders_cases user page limit status sort order db :
  snd (listOrders user page limit status sort order db) = db
  /\ forall pg,
       served (fst (listOrders user page limit status sort order db)) = Some pg ->
       let flt := mkOrderFilter
                    (if negb (isAdmin user) then Some (id user) else None)
                    (truthyParam status) in
       (forall o, In o (pageItems pg) ->
                  In o (orders db) /\ matchesOrder flt o = true)
       /\ total (pageInfo pg)
          = Z.of_nat (List.length (filter (matchesOrder flt) (orders db)))
       /\ (page = 1%Z ->
           limit = 0%Z
           \/ (Z.of_nat (List.length (filter (matchesOrder flt) (orders db)))
               <= Z.abs limit)%Z ->
           Permutation (pageItems pg) (filter (matchesOrder flt) (orders db))).
Proof.
  unfold listOrders, serve, bind, getDb, lift, ret, throw, skipDocs.
  destruct ((page - 1) * limit <? 0)%Z eqn:Es; simpl.
  - split; [reflexivity | discriminate].
  - split; [reflexivity |]. intros pg [= <-]. simpl. split; [| split].
    + intros o Ho. apply limitDocs_incl in Ho.
      match type of Ho with
      | In _ (skipn ?n ?l) =>
          assert (Hs : In o l)
            by (rewrite <- (firstn_skipn n l); apply in_or_app; now right)
      end.
      apply (Permutation_in _ (sortOrders_perm _ _ _)) in Hs.
      now apply filter_In in Hs.
    + reflexivity.
    + intros -> Hl. simpl.
      rewrite limitDocs_all; [apply sortOrders_perm |].
      rewrite Z.mul_1_r.
      destruct Hl as [Hl | Hl]; [now left | right].
      now rewrite (Permutation_length (sortOrders_perm _ _ _)).
Qed.

(** X2. Listing orders never writes.  The filter of a listing selects an
    order exactly when the requester is an admin or the order is the
    requester's own, and, when a status is asked for, the order has that
    status; so a user who is not an admin never gets a guest order or the
    order of another user, and an admin gets the orders of every user.
    Every order of a page is a stored order the filter selects, [total]
    counts all the orders it selects, whatever the page, and the first
    page holds exactly those orders when the limit does not cut it. *)
Theorem order_list_scoped :
  forall user page limit status sort order db,
    let flt := mkOrderFilter
                 (if negb (isAdmin user) then Some (id user) else None)
                 (truthyParam status) in
    snd (listOrders user page limit status sort order db) = db
    /\ (forall o,
          matchesOrder flt o = true
          <-> (isAdmin user = true \/ Order.user o = Some (id user))
              /\ (forall st, truthyParam status = Some st ->
                     orderStatusName (Order.orderStatus o) = st))
    /\ forall pg,
         served (fst (listOrders user page limit status sort order db))
         = Some pg ->
         (forall o, In o (pageItems pg) ->
            In o (orders db) /\ matchesOrder flt o = true)
         /\ total (pageInfo pg)
            = Z.of_nat (List.length (filter (matchesOrder flt) (orders db)))
         /\ (page = 1%Z ->
             limit = 0%Z
             \/ (Z.of_nat (List.length (filter (matchesOrder flt) (orders db)))
                 <= Z.abs limit)%Z ->
             forall o, In o (pageItems pg)
                       <-> In o (orders db) /\ matchesOrder flt o = true).
Proof.
  intros user page limit status sort order db flt.
  destruct (listOrders_cases user page limit status sort order db) as [Hdb Hpg].
  split; [exact Hdb |]. split.
  - intros o. unfold flt, matchesOrder. simpl.
    rewrite andb_true_iff. split.
    + intros [Hu Hst]. split.
      * destruct (isAdmin user); [now left | right]. simpl in Hu.
        destruct (Order.user o) as [u |]; simpl in Hu; [| discriminate].
        apply String.eqb_eq in Hu. now subst.
      * intros st Hs. rewrite Hs in Hst. simpl in Hst.
        now apply String.eqb_eq in Hst.
    + intros [Hu Hst]. split.
      * destruct (isAdmin user); [reflexivity |]. simpl.
        destruct Hu as [Hu | Hu]; [discriminate |].
        rewrite Hu. simpl. apply String.eqb_refl.
      * destruct (truthyParam status) as [st |]; [| reflexivity]. simpl.
        rewrite (Hst st eq_refl). apply String.eqb_refl.
  - intros pg Hserved.
    destruct (Hpg pg Hserved) as (Hin & Htotal & Hall).
    split; [exact Hin |]. split; [exact Htotal |].
    intros Hp Hl o. split; [apply Hin |].
    intros [Hcoll Hm].
    apply (Permutation_in _ (Permutation_sym (Hall Hp Hl))).
    apply filter_In. now split.
Qed.

(** Alice's list holds her order and not the guest's, and counts one
    order; the admin's list counts both. *)
Lemma order_list_scoped_witness :
  exists pg pg',
    served (fst (listOrders Sample.alice 1 10 None "createdAt" "desc"
                   More.twoOrders)) = Some pg
    /\ (forall o, In o (pageItems pg) -> Order.user o = Some "u1")
    /\ map Order._id (pageItems pg) = ["o1"]
    /\ total (pageInfo pg) = 1%Z
    /\ map Order._id (orders More.twoOrders) = ["o1"; "o2"]
    /\ served (fst (listOrders Sample.root 2 1 None "createdAt" "desc"
                      More.twoOrders)) = Some pg'
    /\ total (pageInfo pg') = 2%Z.
Proof.
  destruct (order_list_scoped Sample.alice 1 10 None "createdAt" "desc"
              More.twoOrders) as (_ & Hchar & H).
  destruct (order_list_scoped Sample.root 2 1 None "createdAt" "desc"
              More.twoOrders) as (_ & _ & H').
  eexists. eexists. split; [reflexivity |].
  destruct (H _ eq_refl) as (Hin & Htotal & _).
  destruct (H' _ eq_refl) as (_ & Htotal' & _).
  split; [| split; [| split; [| split; [| split]]]].
  - intros o Ho. destruct (Hin o Ho) as [_ Hm].
    destruct (proj1 (proj1 (Hchar o) Hm)) as [A | U];
      [discriminate | exact U].
  - reflexivity.
  - exact Htotal.
  - reflexivity.
  - reflexivity.
  - exact Htotal'.
Defined.

(** ** Saving an order again *)

Lemma saveOrder_existing env o coll :
  saveOrder env false o coll
  = if validateOrder o then Ok (o, replaceOrder o coll) else Err ValidationError.
Proof. unfold saveOrder, orderPreSave. now destruct (validateOrder o). Qed.

Lemma validateOrder_same o o' :
  sameOrderBut o o' -> validateOrder o' = validateOrder o.
Proof.
  unfold sameOrderBut, validateOrder.
  intros (_ & _ & _ & -> & -> & -> & -> & -> & -> & -> & _ & -> & -> & -> & _).
  reflexivity.
Qed.

Lemma statusUpdated_same body o : sameOrderBut o (statusUpdated body o).
Proof.
  unfold statusUpdated, sameOrderBut.
  destruct (StatusUpdate.paymentStatus body),
    (truthyParam (option_map trim (StatusUpdate.adminNotes body)));
    simpl; repeat split.
Qed.

Lemma cancelledBy_same user notes o : sameOrderBut o (cancelledBy user notes o).
Proof.
  unfold cancelledBy, sameOrderBut. destruct (isAdmin user); simpl; repeat split.
Qed.

Lemma findOrderById_stored i coll o o' :
  findOrderById i coll = Some o ->
  Order._id o' = Order._id o ->
  findOrderById i (replaceOrder o' coll) = Some o'.
Proof.
  intros Hfind Hid.
  rewrite <- (findOrderById_id _ _ _ Hfind), <- Hid.
  apply findOrderById_replace.
  rewrite Hid, (findOrderById_id _ _ _ Hfind), Hfind. discriminate.
Qed.

(** The status update either fails and writes nothing, or saves the order
    found with the fields of the body set. *)
Lemma updateOrderStatus_cases env errs i body db :
  updateOrderStatus env errs i body db
  = match errs with
    | _ :: _ => (validationFailure errs, db)
    | [] =>
        match findOrderById i (orders db) with
        | None => (failure 404 "Order not found", db)
        | Some o =>
            if validateOrder o then
              (mkResponse 200 true (Some "Order status updated successfully")
                 (OneOrder (statusUpdated body o)),
               with_orders (replaceOrder (statusUpdated body o) (orders db)) db)
            else (failure 500 "Server error while updating order status", db)
        end
    end.
Proof.
  unfold updateOrderStatus, tryCatch.
  unfold bind at 1. destruct errs as [| e errs]; [| reflexivity].
  cbv beta iota. unfold ret at 1. cbv beta iota.
  unfold bind at 1, getDb at 1. cbv beta iota.
  destruct (findOrderById i (orders db)) as [o |]; [| reflexivity].
  fold (statusUpdated body o).
  unfold bind, putDb, lift, ret, throw.
  rewrite saveOrder_existing, (validateOrder_same _ _ (statusUpdated_same body o)).
  destruct (validateOrder o); reflexivity.
Qed.

(** X3. The admin status update enforces no transition graph: whatever
    the current status of a stored, valid order, a well-formed request
    succeeds and sets [orderStatus] to the value sent.  [paymentStatus]
    changes only when one is sent, and [adminNotes] only when the note sent
    is not blank, so the endpoint cannot clear a note; the items, the
    amounts, the owner, the dates and the order number stay as they were.
    A request that fails writes nothing. *)
Theorem status_update_unconstrained :
  forall env errs i body db resp db',
    updateOrderStatus env errs i body db = (resp, db') ->
    (success resp = false -> db' = db)
    /\ (forall o,
          findOrderById i (orders db) = Some o ->
          errs = [] -> validateOrder o = true ->
          exists o',
            resp = mkResponse 200 true (Some "Order status updated successfully")
                     (OneOrder o')
            /\ findOrderById i (orders db') = Some o'
            /\ Order.orderStatus o' = StatusUpdate.orderStatus body
            /\ Order.paymentStatus o'
               = orElse (StatusUpdate.paymentStatus body) (Order.paymentStatus o)
            /\ Order.adminNotes o'
               = match truthyParam (option_map trim (StatusUpdate.adminNotes body)) with
                 | Some note => Some (trim note)
                 | None => Order.adminNotes o
                 end
            /\ sameOrderBut o o').
Proof.
  intros env errs i body db resp db' Hrun.
  rewrite updateOrderStatus_cases in Hrun. split.
  - destruct errs; [| now injection Hrun as <- <-].
    destruct (findOrderById i (orders db)) as [o |];
      [| now injection Hrun as <- <-].
    destruct (validateOrder o); injection Hrun as <- <-;
      [discriminate | reflexivity].
  - intros o Hfind -> Hv. rewrite Hfind, Hv in Hrun.
    injection Hrun as <- <-. exists (statusUpdated body o).
    split; [reflexivity |]. split.
    { simpl. apply (findOrderById_stored _ _ _ _ Hfind).
      apply (statusUpdated_same body o). }
    split; [| split; [| split; [| apply statusUpdated_same]]];
      unfold statusUpdated;
      destruct (StatusUpdate.paymentStatus body),
        (truthyParam (option_map trim (StatusUpdate.adminNotes body)));
      reflexivity.
Qed.

(** Alice's order, still pending, is set to Delivered and Paid in one
    request; the blank note sent leaves the notes as they were. *)
Lemma status_update_unconstrained_witness :
  exists o',
    findOrderById "o1"
      (orders (snd (updateOrderStatus (Sample.env "x") [] "o1" More.deliver
                      Sample.placed))) = Some o'
    /\ Order.orderStatus o' = Delivered
    /\ Order.paymentStatus o' = Paid
    /\ Order.adminNotes o' = None
    /\ Order.orderNumber o' = Some "ORD240505007".
Proof.
  destruct (proj2 (status_update_unconstrained (Sample.env "x") [] "o1"
                     More.deliver Sample.placed _ _ (surjective_pairing _))
              More.aliceOrder eq_refl eq_refl eq_refl)
    as (o' & _ & Hstored & Hst & Hpay & Hnotes & Hsame).
  exists o'. split; [exact Hstored |]. split; [exact Hst |].
  split; [exact Hpay |]. split; [exact Hnotes |].
  destruct Hsame as (_ & _ & _ & _ & _ & _ & _ & _ & _ & _ & Hn & _).
  exact Hn.
Defined.

(** ** Order numbers *)

Section NumberFormat.

Lemma allChars_app ok a b :
  allChars ok (a ++ b) = allChars ok a && allChars ok b.
Proof.
  induction a as [| c r IH]; simpl; [reflexivity |].
  now rewrite IH, andb_assoc.
Qed.

Lemma isDigits_app j k a b :
  isDigits j a = true -> isDigits k b = true -> isDigits (j + k) (a ++ b) = true.
Proof.
  unfold isDigits. intros Ha Hb.
  apply andb_true_iff in Ha as [La Da], Hb as [Lb Db].
  apply Nat.eqb_eq in La, Lb.
  rewrite append_length, allChars_app, La, Lb, Da, Db, Nat.eqb_refl.
  reflexivity.
Qed.

Lemma isDigits_in_range (f : nat -> string) k start len n :
  forallb (fun m => isDigits k (f m)) (seq start len) = true ->
  (start <= n < start + len)%nat -> isDigits k (f n) = true.
Proof.
  intros Hall Hn. rewrite forallb_forall in Hall.
  apply Hall, in_seq. exact Hn.
Qed.

Lemma year_digits y :
  (10 <= y < 4999)%nat -> isDigits 2 (lastTwo (decimal y)) = true.
Proof.
  intros Hy. apply (isDigits_in_range (fun m => lastTwo (decimal m)) 2 10 4989).
  - vm_compute. reflexivity.
  - lia.
Qed.

Lemma month_digits m :
  (m < 12)%nat -> isDigits 2 (padStart 2 (decimal (m + 1))) = true.
Proof.
  intros Hm.
  apply (isDigits_in_range (fun k => padStart 2 (decimal (k + 1))) 2 0 12).
  - vm_compute. reflexivity.
  - lia.
Qed.

Lemma day_digits d :
  (1 <= d <= 31)%nat -> isDigits 2 (padStart 2 (decimal d)) = true.
Proof.
  intros Hd. apply (isDigits_in_range (fun k => padStart 2 (decimal k)) 2 1 31).
  - vm_compute. reflexivity.
  - lia.
Qed.

Lemma random_digits r :
  (r < 1000)%nat -> isDigits 3 (padStart 3 (decimal r)) = true.
Proof.
  intros Hr. apply (isDigits_in_range (fun k => padStart 3 (decimal k)) 3 0 1000).
  - vm_compute. reflexivity.
  - lia.
Qed.

Lemma agree_in_range (f g : nat -> string) start len n :
  forallb (fun m => String.eqb (f m) (g m)) (seq start len) = true ->
  (start <= n < start + len)%nat -> f n = g n.
Proof.
  intros Hall Hn. rewrite forallb_forall in Hall.
  apply String.eqb_eq, Hall, in_seq. exact Hn.
Qed.

Lemma year_value y :
  (10 <= y < 4999)%nat -> lastTwo (decimal y) = fixedDigits 2 (y mod 100).
Proof.
  intros Hy.
  apply (agree_in_range (fun m => lastTwo (decimal m))
           (fun m => fixedDigits 2 (m mod 100)) 10 4989).
  - vm_compute. reflexivity.
  - lia.
Qed.

Lemma month_value m :
  (m < 12)%nat -> padStart 2 (decimal (m + 1)) = fixedDigits 2 (m + 1).
Proof.
  intros Hm.
  apply (agree_in_range (fun k => padStart 2 (decimal (k + 1)))
           (fun k => fixedDigits 2 (k + 1)) 0 12).
  - vm_compute. reflexivity.
  - lia.
Qed.

Lemma day_value d :
  (1 <= d <= 31)%nat -> padStart 2 (decimal d) = fixedDigits 2 d.
Proof.
  intros Hd.
  apply (agree_in_range (fun k => padStart 2 (decimal k))
           (fun k => fixedDigits 2 k) 1 31).
  - vm_compute. reflexivity.
  - lia.
Qed.

Lemma random_value r :
  (r < 1000)%nat -> padStart 3 (decimal r) = fixedDigits 3 r.
Proof.
  intros Hr.
  apply (agree_in_range (fun k => padStart 3 (decimal k))
           (fun k => fixedDigits 3 k) 0 1000).
  - vm_compute. reflexivity.
  - lia.
Qed.

(** Under a plausible clock the order number is ORD and nine digits: the
    year modulo 100, the month counted from 1, the day and the draw. *)
Lemma makeOrderNumber_format env :
  plausibleClock env ->
  exists ds,
    makeOrderNumber env = ("ORD" ++ ds)%string
    /\ ds = (fixedDigits 2 (fullYear env mod 100)
             ++ fixedDigits 2 (month env + 1)
             ++ fixedDigits 2 (dayOfMonth env)
             ++ fixedDigits 3 (random1000 env))%string
    /\ String.length ds = 9%nat
    /\ allChars is_digit ds = true.
Proof.
  intros (Hy & Hm & Hd & Hr).
  exists (lastTwo (decimal (fullYear env))
          ++ padStart 2 (decimal (month env + 1))
          ++ padStart 2 (decimal (dayOfMonth env))
          ++ padStart 3 (decimal (random1000 env)))%string.
  split; [reflexivity |]. split.
  { now rewrite (year_value _ Hy), (month_value _ Hm), (day_value _ Hd),
      (random_value _ Hr). }
  pose proof (isDigits_app _ _ _ _ (year_digits _ Hy)
                (isDigits_app _ _ _ _ (month_digits _ Hm)
                   (isDigits_app _ _ _ _ (day_digits _ Hd) (random_digits _ Hr))))
    as H.
  unfold isDigits in H. apply andb_true_iff in H as [L D].
  apply Nat.eqb_eq in L. split; [exact L | exact D].
Qed.

End NumberFormat.

(** What a successful creation saved. *)
Lemma createOrderAs_saved owner guest env errs body db resp db' :
  createOrderAs owner guest env errs body db = (resp, db') ->
  success resp = true ->
  exists o,
    resp = mkResponse 201 true (Some "Order created successfully") (OneOrder o)
    /\ db' = with_orders (orders db ++ [o]) db
    /\ Order._id o = newId env
    /\ Order.orderNumber o = Some (makeOrderNumber env)
    /\ Order.orderStatus o = Pending
    /\ Order.paymentStatus o = PaymentPending
    /\ orderNumberConflict (orders db) o = false.
Proof.
  unfold createOrderAs, tryCatch.
  unfold bind at 1. destruct errs as [| e errs]; simpl;
    [| intros [= <- <-]; discriminate].
  unfold bind at 1.
  destruct (date_lt (NewOrder.rentalStartDate body) (startOfToday env));
    simpl; [intros [= <- <-]; discriminate |].
  unfold bind at 1.
  destruct (date_le (NewOrder.rentalEndDate body) (NewOrder.rentalStartDate body));
    simpl; [intros [= <- <-]; discriminate |].
  unfold bind at 1.
  destruct (date_lt (NewOrder.needDate body) (startOfToday env));
    simpl; [intros [= <- <-]; discriminate |].
  unfold bind at 1.
  destruct (priceItems_cases db (NewOrder.items body) [] 0%float)
    as [(msg & H) | (lines & H & HF)]; rewrite H;
    [intros [= <- <-]; discriminate |].
  unfold bind, getDb, putDb, lift, ret, throw. cbn [fst snd app].
  destruct (saveOrder env true _ (orders db)) as [[o' coll'] | e] eqn:S;
    [| intros [= <- <-]; discriminate].
  intros [= <- <-] _. exists o'.
  unfold saveOrder in S.
  destruct (validateOrder _); simpl in S; [| discriminate].
  destruct (orderNumberConflict (orders db) _) eqn:C; [discriminate |].
  injection S as <- <-. repeat split. exact C.
Qed.

(** X4. Every order a creation handler stores carries the order number
    built from the clock and the random draw of the request.  Under a
    plausible clock (a year from 10 to 4998, a month, a day, a draw below
    1000) that number is ORD followed by exactly nine decimal digits: the
    two digits of the year modulo 100, the two digits of the month counted
    from 1, the two digits of the day of the month, and the three digits
    of the draw. *)
Theorem order_number_format :
  forall owner guest env errs body db resp db',
    createOrderAs owner guest env errs body db = (resp, db') ->
    success resp = true ->
    plausibleClock env ->
    exists o ds,
      data resp = OneOrder o
      /\ In o (orders db')
      /\ Order.orderNumber o = Some ("ORD" ++ ds)%string
      /\ ds = (fixedDigits 2 (fullYear env mod 100)
               ++ fixedDigits 2 (month env + 1)
               ++ fixedDigits 2 (dayOfMonth env)
               ++ fixedDigits 3 (random1000 env))%string
      /\ String.length ds = 9%nat
      /\ allChars is_digit ds = true.
Proof.
  intros owner guest env errs body db resp db' Hrun Hok Hclock.
  destruct (createOrderAs_saved _ _ _ _ _ _ _ _ Hrun Hok)
    as (o & -> & -> & _ & Hn & _).
  destruct (makeOrderNumber_format env Hclock)
    as (ds & Hds & Hval & Hlen & Hdig).
  exists o, ds. split; [reflexivity |]. split.
  - simpl. apply in_or_app. right. now left.
  - rewrite Hn, Hds. auto.
Qed.

(** The order of 5 May 2024 with draw 7 is numbered ORD240505007. *)
Lemma order_number_format_witness :
  exists o ds,
    data (fst (createOrder Sample.alice (Sample.env "o1") [] Sample.basket
                 Sample.wardrobe)) = OneOrder o
    /\ Order.orderNumber o = Some ("ORD" ++ ds)%string
    /\ ds = "240505007".
Proof.
  assert (Hclock : plausibleClock (Sample.env "o1"))
    by (unfold plausibleClock; simpl; lia).
  destruct (order_number_format (Some "u1") false (Sample.env "o1") []
              Sample.basket Sample.wardrobe _ _ (surjective_pairing _) eq_refl
              Hclock) as (o & ds & Hdata & _ & Hn & Hval & _).
  exists o, ds. split; [exact Hdata |]. split; [exact Hn |].
  rewrite Hval. reflexivity.
Defined.

Lemma priceItems_products items : forall acc sub db db0,
  products db0 = products db ->
  fst (priceItems items acc sub db0) = fst (priceItems items acc sub db).
Proof.
  induction items as [| item rest IH]; intros acc sub db db0 Hp;
    [reflexivity |].
  cbn [priceItems]. unfold bind, getDb, reply, ret. cbv beta iota.
  rewrite Hp.
  destruct (findProductById (ItemRequest.product item) (products db))
    as [product |]; [| reflexivity].
  destruct (Product.isAvailable product); cbv beta iota; [| reflexivity].
  rewrite (surjective_pairing (priceItems rest _ _ db0)),
    (surjective_pairing (priceItems rest _ _ db)).
  now rewrite (IH _ _ db db0 Hp).
Qed.

Lemma priceItems_reads items acc sub db :
  snd (priceItems items acc sub db) = db.
Proof.
  destruct (priceItems_cases db items acc sub)
    as [(msg & H) | (lines & H & _)]; now rewrite H.
Qed.

(** The run of a creation handler on a well-formed body, step by step. *)
Lemma createOrderAs_steps owner guest env body db :
  createOrderAs owner guest env [] body db
  = if date_lt (NewOrder.rentalStartDate body) (startOfToday env) then
      (failure 400 "Rental start date cannot be in the past", db)
    else if date_le (NewOrder.rentalEndDate body)
              (NewOrder.rentalStartDate body) then
      (failure 400 "Rental end date must be after start date", db)
    else if date_lt (NewOrder.needDate body) (startOfToday env) then
      (failure 400 "Need date cannot be in the past", db)
    else
      match fst (priceItems (NewOrder.items body) [] 0%float db) with
      | Next priced =>
          match saveOrder env true (draftOrder owner guest env body priced)
                  (orders db) with
          | Ok saved =>
              (mkResponse 201 true (Some "Order created successfully")
                 (OneOrder (fst saved)),
               with_orders (snd saved) db)
          | Err _ => (failure 500 "Server error while creating order", db)
          end
      | Reply r => (r, db)
      | Throw _ => (failure 500 "Server error while creating order", db)
      end.
Proof.
  unfold createOrderAs, tryCatch.
  unfold bind at 1. simpl.
  unfold bind at 1.
  destruct (date_lt (NewOrder.rentalStartDate body) (startOfToday env));
    simpl; [reflexivity |].
  unfold bind at 1.
  destruct (date_le (NewOrder.rentalEndDate body) (NewOrder.rentalStartDate body));
    simpl; [reflexivity |].
  unfold bind at 1.
  destruct (date_lt (NewOrder.needDate body) (startOfToday env));
    simpl; [reflexivity |].
  unfold bind at 1.
  destruct (priceItems_cases db (NewOrder.items body) [] 0%float)
    as [(msg & H) | (lines & H & _)]; rewrite H; [reflexivity |].
  unfold bind, getDb, putDb, lift, ret, throw. cbn [fst snd app].
  unfold draftOrder. cbn [fst snd].
  destruct (saveOrder env true _ (orders db)) as [[o' coll'] | e];
    reflexivity.
Qed.

(** X5. Order numbers are not probed for collisions.  When an order of the
    collection already carries the number the request would get (same day,
    same draw), no creation succeeds and nothing is stored; and a request
    that the shop would store if it held no such order, its products being
    the same, is answered 500. *)
Theorem order_number_collision :
  forall owner guest env errs body db q,
    In q (orders db) ->
    Order.orderNumber q = Some (makeOrderNumber env) ->
    Order._id q <> newId env ->
    (success (fst (createOrderAs owner guest env errs body db)) = false
     /\ snd (createOrderAs owner guest env errs body db) = db)
    /\ (forall db0,
          products db0 = products db ->
          success (fst (createOrderAs owner guest env errs body db0)) = true ->
          createOrderAs owner guest env errs body db
          = (failure 500 "Server error while creating order", db)).
Proof.
  intros owner guest env errs body db q Hin Hq Hid.
  assert (Hclash : forall o,
            orderNumberConflict (orders db)
              (Order.set_orderNumber (makeOrderNumber env)
                 (draftOrder owner guest env body o)) = true).
  { intros o. unfold orderNumberConflict. apply existsb_exists.
    exists q. split; [exact Hin |].
    rewrite Hq. simpl. rewrite String.eqb_refl. simpl.
    apply negb_true_iff, String.eqb_neq. exact Hid. }
  split.
  - destruct (createOrderAs owner guest env errs body db) as [resp db'] eqn:Hrun.
    destruct (createOrderAs_cases _ _ _ _ _ _ _ _ Hrun)
      as [(Hf & Hdb & _) | (lines & _ & _ & _ & _ & _ & _ & _ & Hr & _)];
      [auto |].
    exfalso.
    assert (Hok : success resp = true) by (rewrite Hr; reflexivity).
    destruct (createOrderAs_saved _ _ _ _ _ _ _ _ Hrun Hok)
      as (o & _ & _ & Hido & Hn & _ & _ & Hc).
    unfold orderNumberConflict in Hc.
    assert (Hex : existsb
              (fun q0 => option_eqb String.eqb (Order.orderNumber q0)
                           (Order.orderNumber o)
                         && negb (String.eqb (Order._id q0) (Order._id o)))
              (orders db) = true).
    { apply existsb_exists. exists q. split; [exact Hin |].
      rewrite Hq, Hn, Hido. simpl. rewrite String.eqb_refl. simpl.
      apply negb_true_iff, String.eqb_neq. exact Hid. }
    congruence.
  - intros db0 Hp Hok.
    destruct errs as [| e errs]; [| discriminate].
    rewrite createOrderAs_steps in *.
    destruct (date_lt (NewOrder.rentalStartDate body) (startOfToday env));
      [discriminate |].
    destruct (date_le (NewOrder.rentalEndDate body)
                (NewOrder.rentalStartDate body)); [discriminate |].
    destruct (date_lt (NewOrder.needDate body) (startOfToday env));
      [discriminate |].
    pose proof (priceItems_products (NewOrder.items body) [] 0%float db db0 Hp)
      as Hfst.
    destruct (priceItems_cases db0 (NewOrder.items body) [] 0%float)
      as [(msg & H) | (lines & H & _)];
      rewrite H in Hok, Hfst; cbn [fst] in Hok, Hfst; rewrite <- Hfst;
      [discriminate |].
    set (priced := ([] ++ lines, sumLines lines 0%float)) in *.
    unfold saveOrder in *.
    destruct (validateOrder (draftOrder owner guest env body priced));
      [| reflexivity].
    cbn [negb]. cbv iota. unfold orderPreSave. cbn [negb]. cbv iota zeta.
    now rewrite Hclash.
Qed.

(** A second order on the day of Alice's, with the same draw, is answered
    500 and not stored; the wardrobe without orders would store it. *)
Lemma order_number_collision_witness :
  createOrder Sample.bob (Sample.env "o3") [] Sample.smallBasket Sample.placed
  = (failure 500 "Server error while creating order", Sample.placed)
  /\ success (fst (createOrder Sample.bob (Sample.env "o3") []
                     Sample.smallBasket Sample.wardrobe)) = true.
Proof.
  split; [| reflexivity].
  refine (proj2 (order_number_collision (Some "u2") false
                   (Sample.env "o3") [] Sample.smallBasket Sample.placed
                   More.aliceOrder _ eq_refl _) Sample.wardrobe eq_refl eq_refl).
  - left. reflexivity.
  - discriminate.
Defined.

(** ** The totals of stored orders *)

Lemma totalsConsistent_iff o :
  totalsConsistent o
  <-> Order.subtotal o = sumLines (Order.items o) 0%float
      /\ Order.totalAmount o
         = (Order.subtotal o + Order.shippingCost o + Order.tax o)%float.
Proof.
  unfold totalsConsistent, calculateTotal, sumLines. split.
  - intros H. injection H as Ht Ho.
    pose proof (f_equal Order.subtotal Ho) as Hs. simpl in Hs.
    split; [now symmetry |]. now rewrite <- Hs, Ht.
  - intros [Hs Ht]. destruct o; simpl in *. subst. reflexivity.
Qed.

Lemma totalsConsistent_same o o' :
  sameOrderBut o o' -> totalsConsistent o -> totalsConsistent o'.
Proof.
  intros (_ & _ & _ & Hi & _ & _ & Hs & Hsh & Htx & Ht & _) H.
  apply totalsConsistent_iff in H as [H1 H2].
  apply totalsConsistent_iff. rewrite Hi, Hs, Hsh, Htx, Ht. auto.
Qed.

Lemma Forall_replaceOrder (P : Order.t -> Prop) o' coll :
  Forall P coll -> P o' -> Forall P (replaceOrder o' coll).
Proof.
  intros Hall Ho. unfold replaceOrder. apply Forall_forall.
  intros x Hx. apply in_map_iff in Hx as (y & <- & Hy).
  destruct (String.eqb (Order._id y) (Order._id o')); [exact Ho |].
  now apply (proj1 (Forall_forall P coll) Hall).
Qed.

Lemma findOrderById_In i coll o : findOrderById i coll = Some o -> In o coll.
Proof. unfold findOrderById. intros H. now apply find_some in H. Qed.

(** What a cancellation writes, if anything. *)
Lemma cancelOrder_writes env user i notes db :
  snd (cancelOrder env user i notes db) = db
  \/ exists o,
       findOrderById i (orders db) = Some o
       /\ snd (cancelOrder env user i notes db)
          = with_orders (replaceOrder (cancelledBy user notes o) (orders db)) db.
Proof.
  destruct (findOrderById i (orders db)) as [o |] eqn:Hfind.
  - destruct (mayCancel_dec user o) as [Hmay | Hnot].
    + rewrite (cancelOrder_allowed _ _ _ _ _ _ Hfind
                 (notAllowed_mayCancel _ _ _ Hmay)).
      destruct (includes cancellableStatuses _); [| now left].
      cbv zeta. destruct (validateOrder o); [| now left].
      right. exists o. split; reflexivity.
    + left. destruct (notAllowed_stranger user o db Hnot) as [H | H].
      * now rewrite (cancelOrder_denied _ _ _ _ _ _ Hfind H).
      * now rewrite (cancelOrder_thrown _ _ _ _ _ _ Hfind H).
  - left. unfold cancelOrder, tryCatch, bind, getDb. now rewrite Hfind.
Qed.

(** X6. The stored totals agree with the method [calculateTotal]: if
    every order of the collection has the [subtotal] and [totalAmount] that
    method would assign, so has every order after a creation, after a
    cancellation and after a status update.  A collection built by these
    handlers alone therefore never needs the method run. *)
Theorem order_totals_invariant :
  (forall owner guest env errs body db,
      Forall totalsConsistent (orders db) ->
      Forall totalsConsistent
        (orders (snd (createOrderAs owner guest env errs body db))))
  /\ (forall env user i notes db,
        Forall totalsConsistent (orders db) ->
        Forall totalsConsistent
          (orders (snd (cancelOrder env user i notes db))))
  /\ (forall env errs i body db,
        Forall totalsConsistent (orders db) ->
        Forall totalsConsistent
          (orders (snd (updateOrderStatus env errs i body db)))).
Proof.
  split; [| split].
  - intros owner guest env errs body db Hall.
    destruct (createOrderAs owner guest env errs body db) as [resp db'] eqn:Hrun.
    destruct (createOrderAs_cases _ _ _ _ _ _ _ _ Hrun)
      as [(_ & -> & _) | (lines & _ & _ & _ & _ & _ & _ & _ & _ & ->)];
      [exact Hall |].
    simpl. apply Forall_app. split; [exact Hall |].
    constructor; [| constructor].
    apply totalsConsistent_iff. simpl. split; reflexivity.
  - intros env user i notes db Hall.
    destruct (cancelOrder_writes env user i notes db) as [-> | (o & Hfind & ->)];
      [exact Hall |].
    simpl. apply Forall_replaceOrder; [exact Hall |].
    apply (totalsConsistent_same o); [apply cancelledBy_same |].
    apply (proj1 (Forall_forall _ _) Hall), (findOrderById_In _ _ _ Hfind).
  - intros env errs i body db Hall.
    rewrite updateOrderStatus_cases.
    destruct errs; [| exact Hall].
    destruct (findOrderById i (orders db)) as [o |] eqn:Hfind; [| exact Hall].
    destruct (validateOrder o); [| exact Hall].
    simpl. apply Forall_replaceOrder; [exact Hall |].
    apply (totalsConsistent_same o); [apply statusUpdated_same |].
    apply (proj1 (Forall_forall _ _) Hall), (findOrderById_In _ _ _ Hfind).
Qed.

(** Alice's order, created in an empty collection and then delivered, has
    consistent totals. *)
Lemma order_totals_invariant_witness :
  Forall totalsConsistent
    (orders (snd (updateOrderStatus (Sample.env "x") [] "o1" More.deliver
                    Sample.placed))).
Proof.
  apply (proj2 (proj2 order_totals_invariant)).
  apply (proj1 order_totals_invariant (Some "u1") false (Sample.env "o1") []
           Sample.basket Sample.wardrobe).
  constructor.
Defined.

(** ** Created products *)

Lemma verifyCategories_passed cs db :
  verifyCategories cs db = (Next tt, db) ->
  forall c, In c (castIds cs) -> findCategoryById c (categories db) <> None.
Proof.
  induction cs as [| v rest IH]; simpl; [intros _ c [] |].
  unfold bind, getDb.
  destruct v as [s |].
  - destruct (findCategoryById s (categories db)) eqn:F; [| discriminate].
    intros H c [<- | Hc]; [now rewrite F | now apply IH].
  - destruct (findCategoryById EmptyString (categories db)); [| discriminate].
    intros H c Hc. now apply IH.
Qed.

(** What a successful creation checked and saved. *)
Lemma createProduct_created env errs body db resp db' :
  createProduct env errs body db = (resp, db') ->
  success resp = true ->
  exists p,
    resp = mkResponse 201 true (Some "Product created successfully")
             (OneProduct p)
    /\ db' = with_products (products db ++ [p]) db
    /\ (forall c, In c (Product.categories p) ->
          findCategoryById c (categories db) <> None)
    /\ Product._id p = newId env
    /\ Product.name p = NewProduct.name body
    /\ Product.categories p
       = castIds (filterCategories (NewProduct.categories body))
    /\ Product.category p = hd_error (Product.categories p)
    /\ Product.views p = 0%Z
    /\ Product.isAvailable p = true
    /\ (exists k, Product.slug p
                  = Some (slugCandidate (baseSlug (NewProduct.name body)) k))
    /\ (forall q, In q (products db) -> Product._id q <> newId env ->
          Product.slug q <> Product.slug p).
Proof.
  intros Hrun Hok.
  assert (Hv : verifyCategories (filterCategories (NewProduct.categories body)) db
               = (Next tt, db)).
  { revert Hrun. unfold createProduct, tryCatch.
    unfold bind at 1. destruct errs as [| e errs]; simpl;
      [| intros [= <- _]; discriminate].
    unfold bind at 1.
    destruct (List.length (filterCategories (NewProduct.categories body)) =? 0)%nat;
      simpl; [intros [= <- _]; discriminate |].
    unfold bind at 1.
    destruct (verifyCategories_cases
                (filterCategories (NewProduct.categories body)) db)
      as [Hv | (msg & Hv)]; rewrite Hv; [reflexivity |].
    intros [= <- _]. discriminate. }
  destruct (createProduct_cases _ _ _ _ _ _ Hrun)
    as [(Hf & _) | (urls & p & coll' & Hne & Hs & -> & ->)]; [congruence |].
  exists p.
  pose proof (saveProduct_id _ _ _ _ _ _ Hs) as Hid.
  pose proof (saveProduct_categories _ _ _ _ _ _ Hs) as Hcats.
  pose proof (saveProduct_category _ _ _ _ _ _ Hs) as Hcat.
  destruct (saveProduct_ok _ _ _ _ _ _ Hs) as (_ & Hp & _ & ->).
  simpl in Hid, Hcats.
  split; [reflexivity |]. split; [reflexivity |].
  split; [rewrite Hcats; now apply verifyCategories_passed |].
  split; [exact Hid |].
  assert (Hname : forall x,
             Product.name (productPreSaveCategory x) = Product.name x).
  { intros x. unfold productPreSaveCategory.
    destruct (Product.categories x); reflexivity. }
  destruct (productPreSaveSlug_modified (products db)
              (productPreSaveCategory
                 (Product.mk (newId env) (NewProduct.name body)
                    (trim (NewProduct.description body))
                    (castIds (filterCategories (NewProduct.categories body)))
                    None urls (NewProduct.price body)
                    (NewProduct.originalPrice body) (NewProduct.sizes body)
                    (trim (NewProduct.color body)) (NewProduct.rentalDuration body)
                    true
                    (match NewProduct.isFeatured body with
                     | Some b => b
                     | None => false
                     end) None 0%Z (now env))))
    as (k & _ & Hset & Hslug & _).
  rewrite <- Hp in Hset, Hslug. rewrite Hname in Hset, Hslug. simpl in Hset, Hslug.
  split.
  { rewrite Hset. unfold productPreSaveCategory. simpl.
    destruct (castIds _); reflexivity. }
  split; [exact Hcats |].
  split.
  { apply Hcat. rewrite Hcats. now apply castIds_filter_not_nil. }
  split.
  { rewrite Hset. unfold productPreSaveCategory. simpl.
    destruct (castIds _); reflexivity. }
  split.
  { rewrite Hset. unfold productPreSaveCategory. simpl.
    destruct (castIds _); reflexivity. }
  split; [now exists k |].
  intros q Hin Hq. rewrite Hp.
  apply productPreSaveSlug_unique; [exact Hin |].
  rewrite (proj1 (productPreSaveCategory_fields _)). exact Hq.
Qed.





(** A successful update checked the categories it was sent. *)
Lemma updateProduct_verified env errs i body db resp db' cs :
  updateProduct env errs i body db = (resp, db') ->
  success resp = true ->
  ProductUpdate.categories body = Some cs ->
  forall c, In c (castIds (filterCategories cs)) ->
            findCategoryById c (categories db) <> None.
Proof.
  unfold updateProduct, tryCatch.
  unfold bind at 1. destruct errs as [| e errs]; simpl;
    [| intros [= <- _]; discriminate].
  unfold bind at 1, getDb at 1.
  destruct (findProductById i (products db)) as [p |];
    [| intros [= <- _]; discriminate].
  intros Hrun Hok Hcs. revert Hrun.
  unfold bind at 1, prepareCategories. rewrite Hcs.
  unfold bind at 1.
  destruct (List.length (filterCategories cs) =? 0)%nat; simpl;
    [intros [= <- _]; discriminate |].
  unfold bind at 1.
  destruct (verifyCategories_cases (filterCategories cs) db)
    as [Hv | (msg & Hv)]; rewrite Hv.
  - intros _. now apply verifyCategories_passed.
  - intros [= <- _]. discriminate.
Qed.

(** X8. The categories of a product are checked when they are written: a
    successful creation, and a successful update that carries
    [categories], store only ids of categories that exist at that moment;
    and a new product starts with no views, available, and with the first
    of its categories as its legacy [category]. *)
Theorem stored_categories_exist :
  (forall env errs body db resp db',
      createProduct env errs body db = (resp, db') ->
      success resp = true ->
      exists p,
        data resp = OneProduct p
        /\ In p (products db')
        /\ categories db' = categories db
        /\ (forall c, In c (Product.categories p) ->
              findCategoryById c (categories db') <> None)
        /\ Product.category p = hd_error (Product.categories p)
        /\ Product.views p = 0%Z
        /\ Product.isAvailable p = true)
  /\ (forall env errs i body db resp db' cs,
        updateProduct env errs i body db = (resp, db') ->
        success resp = true ->
        ProductUpdate.categories body = Some cs ->
        exists p',
          data resp = OneProduct p'
          /\ findProductById i (products db') = Some p'
          /\ categories db' = categories db
          /\ (forall c, In c (Product.categories p') ->
                findCategoryById c (categories db') <> None)).
Proof.
  split.
  - intros env errs body db resp db' Hrun Hok.
    destruct (createProduct_created _ _ _ _ _ _ Hrun Hok)
      as (p & -> & -> & Hex & _ & _ & _ & Hcat & Hv & Ha & _).
    exists p. split; [reflexivity |]. split.
    { simpl. apply in_or_app. right. now left. }
    split; [reflexivity |]. auto.
  - intros env errs i body db resp db' cs Hrun Hok Hcs.
    pose proof (updateProduct_verified _ _ _ _ _ _ _ cs Hrun Hok Hcs) as Hver.
    destruct (updateProduct_cases _ _ _ _ _ _ _ Hrun)
      as [(Hf & _) | (p & body' & Hfind & Hcats & _ & _ & _ & _ & -> & ->)];
      [congruence |].
    exists (applyUpdate body' p). split; [reflexivity |]. split.
    { simpl. rewrite <- (findProductById_id _ _ _ Hfind) at 1.
      change (Product._id p) with (Product._id (applyUpdate body' p)).
      apply findProductById_replace. simpl.
      rewrite (findProductById_id _ _ _ Hfind), Hfind. discriminate. }
    split; [reflexivity |].
    simpl. rewrite Hcats, Hcs. simpl. exact Hver.
Qed.

(** The red dress is created in category c1, which the shop has. *)
Lemma stored_categories_exist_witness :
  exists p,
    data (fst (createProduct (Sample.env "p1") [] Sample.redDress
                 Sample.emptyShop)) = OneProduct p
    /\ Product.categories p = ["c1"]
    /\ findCategoryById "c1" (categories Sample.emptyShop) <> None.
Proof.
  destruct (proj1 stored_categories_exist (Sample.env "p1") [] Sample.redDress
              Sample.emptyShop _ _ (surjective_pairing _) eq_refl)
    as (p & Hdata & _ & _ & Hex & _).
  exists p. split; [exact Hdata |].
  vm_compute in Hdata. injection Hdata as <-.
  split; [reflexivity |]. apply Hex. now left.
Defined.

(** ** Views *)

Lemma validateProduct_views v p :
  validateProduct (Product.set_views v p) = validateProduct p.
Proof. reflexivity. Qed.

(** The document an authenticated read stores in place of [p]. *)
Lemma getProduct_viewed u i db p :
  findProductById i (products db) = Some p ->
  Product.isAvailable p = true ->
  validateProduct p = true ->
  slugConflict (products db) p = false ->
  exists p',
    getProduct (Some u) i db
    = (mkResponse 200 true None (OneProduct p'),
       with_products (replaceProduct p' (products db)) db)
    /\ findProductById i (replaceProduct p' (products db)) = Some p'
    /\ Product._id p' = Product._id p
    /\ Product.views p' = (Product.views p + 1)%Z
    /\ Product.slug p' = Product.slug p
    /\ Product.name p' = Product.name p
    /\ Product.categories p' = Product.categories p
    /\ Product.category p'
       = match populated (categories db) (Product.categories p) with
         | c :: _ => Some c
         | [] => Product.category p
         end.
Proof.
  intros Hfind Ha Hval Hfree.
  set (seen := Product.set_categories
                 (populated (categories db) (Product.categories p))
                 (Product.set_views (Product.views p + 1)%Z p)).
  set (p' := Product.set_categories (Product.categories p)
               (productPreSaveCategory seen)).
  assert (Hfields :
            Product._id p' = Product._id p
            /\ Product.views p' = (Product.views p + 1)%Z
            /\ Product.slug p' = Product.slug p
            /\ Product.name p' = Product.name p
            /\ Product.categories p' = Product.categories p
            /\ Product.category p'
               = match populated (categories db) (Product.categories p) with
                 | c :: _ => Some c
                 | [] => Product.category p
                 end).
  { unfold p', seen, productPreSaveCategory. simpl.
    destruct (populated (categories db) (Product.categories p));
      simpl; auto 10. }
  destruct Hfields as (Hid & Hv & Hs & Hn & Hcs & Hc).
  assert (Hseen : Product._id (productPreSaveCategory seen) = Product._id p
                  /\ Product.slug (productPreSaveCategory seen)
                     = Product.slug p).
  { unfold seen, productPreSaveCategory. simpl.
    destruct (populated (categories db) (Product.categories p)); simpl; auto. }
  assert (Hfree' : slugConflict (products db) (productPreSaveCategory seen)
                   = false).
  { unfold slugConflict in *. destruct Hseen as [-> ->]. exact Hfree. }
  exists p'. split.
  - unfold getProduct, tryCatch, bind, getDb, putDb, ret, lift. simpl.
    rewrite Hfind. simpl. rewrite Ha. simpl.
    unfold savePopulated, saveProduct.
    change (Product.categories (Product.set_views (Product.views p + 1)%Z p))
      with (Product.categories p).
    fold seen.
    change (validateProduct seen) with (validateProduct p).
    rewrite Hval. unfold productPreSaveSlug.
    change (negb true) with false. change (negb false) with true.
    cbv iota zeta.
    rewrite Hfree'. reflexivity.
  - split; [| auto 10].
    rewrite <- (findProductById_id _ _ _ Hfind), <- Hid.
    apply findProductById_replace.
    rewrite Hid, (findProductById_id _ _ _ Hfind), Hfind. discriminate.
Qed.

(** X9. Reading an available product by id counts as a view only for an
    authenticated caller.  The anonymous read returns the stored document
    and writes nothing.  The authenticated read saves the document as it
    was populated: when it passes validation and the slug index, the
    collection holds it with one more view, the same slug and the same
    [categories], and with the first of its categories that still exists
    as its legacy [category], which is left as it was when none exists;
    when the stored document does not pass validation the same read fails
    with 500 and writes nothing. *)
Theorem product_view_counting :
  forall i db p,
    findProductById i (products db) = Some p ->
    Product.isAvailable p = true ->
    getProduct None i db = (mkResponse 200 true None (OneProduct p), db)
    /\ forall u,
         (validateProduct p = false ->
            getProduct (Some u) i db
            = (failure 500 "Server error while fetching product", db))
         /\ (validateProduct p = true ->
             slugConflict (products db) p = false ->
             exists p',
               getProduct (Some u) i db
               = (mkResponse 200 true None (OneProduct p'),
                  with_products (replaceProduct p' (products db)) db)
               /\ findProductById i (replaceProduct p' (products db)) = Some p'
               /\ Product.views p' = (Product.views p + 1)%Z
               /\ Product.slug p' = Product.slug p
               /\ Product.name p' = Product.name p
               /\ Product.categories p' = Product.categories p
               /\ Product.category p'
                  = match populated (categories db) (Product.categories p) with
                    | c :: _ => Some c
                    | [] => Product.category p
                    end).
Proof.
  intros i db p Hfind Ha. split.
  - unfold getProduct, tryCatch, bind, getDb, ret. simpl.
    rewrite Hfind. simpl. now rewrite Ha.
  - intros u. split.
    + intros Hinv.
      unfold getProduct, tryCatch, bind, getDb, ret, lift. simpl.
      rewrite Hfind. simpl. rewrite Ha. simpl.
      unfold savePopulated, saveProduct.
      change (validateProduct
                (Product.set_categories
                   (populated (categories db)
                      (Product.categories
                         (Product.set_views (Product.views p + 1)%Z p)))
                   (Product.set_views (Product.views p + 1)%Z p)))
        with (validateProduct p).
      rewrite Hinv. reflexivity.
    + intros Hval Hfree.
      destruct (getProduct_viewed u i db p Hfind Ha Hval Hfree)
        as (p' & Hrun & Hstored & _ & Hrest).
      exists p'. auto.
Qed.

(** The red dress of the shop, read by a visitor and then by Alice. *)
Lemma product_view_counting_witness :
  getProduct None "p1" Sample.shop
  = (mkResponse 200 true None (OneProduct Sample.firstRedDress), Sample.shop)
  /\ exists p',
       fst (getProduct (Some Sample.alice) "p1" Sample.shop)
       = mkResponse 200 true None (OneProduct p')
       /\ Product.views p' = 1%Z
       /\ Product.category p' = Some "c1".
Proof.
  destruct (product_view_counting "p1" Sample.shop Sample.firstRedDress
              eq_refl eq_refl) as [Hanon Hauth].
  split; [exact Hanon |].
  destruct (proj2 (Hauth Sample.alice) eq_refl eq_refl)
    as (p' & Hrun & _ & Hv & _ & _ & _ & Hc).
  exists p'. split; [now rewrite Hrun |]. split; [exact Hv | exact Hc].
Defined.

(** C1, as the code has it.  The first hook assigns [categories[0]] of the
    document it is given, and the two product reads save the document as
    it was populated, the references to categories that are gone dropped.
    So once the first category of a product has been deleted, an
    authenticated read stores the first category that is left as the
    legacy [category], while [categories] keeps the deleted one at its
    head.  On the sample shop the admin deletes category c9, Alice reads
    the red dress, whose categories are c9 and c2, and the stored dress has
    [category] c2 where [categories[0]] is c9. *)
Theorem view_breaks_category_sync :
  (forall u i db p first rest c,
      findProductById i (products db) = Some p ->
      Product.isAvailable p = true ->
      validateProduct p = true ->
      slugConflict (products db) p = false ->
      Product.categories p = first :: rest ->
      findCategoryById first (categories db) = None ->
      hd_error (populated (categories db) rest) = Some c ->
      exists p',
        success (fst (getProduct (Some u) i db)) = true
        /\ findProductById i (products (snd (getProduct (Some u) i db)))
           = Some p'
        /\ Product.categories p' = first :: rest
        /\ Product.category p' = Some c
        /\ c <> first)
  /\ fst (deleteCategory "c9" More.beforeRetiring)
     = mkResponse 200 true (Some "Category deleted successfully") NoData
  /\ products More.afterRetiring = [More.mixedDress]
  /\ Product.category More.mixedDress
     = hd_error (Product.categories More.mixedDress)
  /\ success (fst (getProduct (Some Sample.alice) "p1" More.afterRetiring))
     = true
  /\ map (fun p => (Product.categories p, Product.category p))
       (products (snd (getProduct (Some Sample.alice) "p1"
                         More.afterRetiring)))
     = [(["c9"; "c2"], Some "c2")].
Proof.
  split; [| repeat split].
  intros u i db p first rest c Hfind Ha Hval Hfree Hcs Hgone Hleft.
  destruct (getProduct_viewed u i db p Hfind Ha Hval Hfree)
    as (p' & Hrun & Hstored & _ & _ & _ & _ & Hcs' & Hc).
  exists p'. rewrite Hrun. simpl fst. simpl snd.
  split; [reflexivity |]. split; [exact Hstored |].
  split; [now rewrite Hcs', Hcs |].
  rewrite Hcs in Hc. unfold populated in Hc, Hleft. simpl in Hc.
  rewrite Hgone in Hc.
  destruct (filter _ rest) as [| c' r] eqn:F; [discriminate |].
  injection Hleft as ->. split; [exact Hc |].
  intros ->.
  assert (Hin : In first (filter
                 (fun c => match findCategoryById c (categories db) with
                           | Some _ => true
                           | None => false
                           end) rest)) by (rewrite F; now left).
  apply filter_In in Hin as [_ Hfound]. now rewrite Hgone in Hfound.
Qed.

(** ** Listings *)

(** X10. Every product on a page of [GET /api/products] is a stored,
    available product that satisfies the bounds and keys the request
    carried: the price is at least [minPrice] and at most [maxPrice], the
    product has the requested size, and it is featured when [featured] is
    the string true.  Any other value of [featured] puts no condition on
    the products. *)
Theorem listing_filters :
  forall env user q db resp db',
    listProducts env user q db = (resp, db') ->
    success resp = true ->
    (forall p, In p (pageProducts resp) ->
       In p (products db)
       /\ Product.isAvailable p = true
       /\ (forall lo, ListQuery.minPrice q = Some lo ->
              PrimFloat.leb lo (Product.price p) = true)
       /\ (forall hi, ListQuery.maxPrice q = Some hi ->
              PrimFloat.leb (Product.price p) hi = true)
       /\ (forall s, ListQuery.size q = Some s -> s <> EmptyString ->
              exists z, In z (Product.sizes p) /\ Size.size z = s)
       /\ (ListQuery.featured q = Some "true" -> Product.isFeatured p = true))
    /\ (ListQuery.featured q <> Some "true" ->
        f_isFeatured (buildFilter q) = None).
Proof.
  intros env user q db resp db' Hrun Hok. split.
  - destruct (listProducts_cases _ _ _ _ _ _ Hrun)
      as [(Hf & _) | (ps & Hfound & -> & _)]; [congruence |].
    intros p Hp. change (In p ps) in Hp.
    destruct (proj1 (findProducts_ok _ _ _ _ _ _ _ _ Hfound) p Hp) as [Hin Hm].
    split; [exact Hin |].
    unfold matches, buildFilter in Hm. cbn [f_isAvailable f_or_category f_text
      f_price f_size f_color f_isFeatured] in Hm.
    apply andb_true_iff in Hm as [Hm Hfeat].
    apply andb_true_iff in Hm as [Hm _].
    apply andb_true_iff in Hm as [Hm Hsize].
    apply andb_true_iff in Hm as [Hm Hprice].
    apply andb_true_iff in Hm as [Hm _].
    apply andb_true_iff in Hm as [Havail _].
    simpl in Havail. apply eqb_prop in Havail.
    split; [exact Havail |].
    split; [| split; [| split]].
    + intros lo Hlo. rewrite Hlo in Hprice.
      destruct (ListQuery.maxPrice q); simpl in Hprice;
        rewrite ?andb_true_r in Hprice;
        try (apply andb_true_iff in Hprice; destruct Hprice); assumption.
    + intros hi Hhi. rewrite Hhi in Hprice.
      destruct (ListQuery.minPrice q); simpl in Hprice;
        try (apply andb_true_iff in Hprice; destruct Hprice); assumption.
    + intros s Hs Hne. rewrite Hs in Hsize.
      destruct s as [| a r]; [congruence |]. simpl in Hsize.
      apply existsb_exists in Hsize as (z & Hz & Heq).
      exists z. split; [exact Hz | now apply String.eqb_eq].
    + intros Hq. rewrite Hq in Hfeat. simpl in Hfeat.
      now apply eqb_prop in Hfeat.
  - intros Hq. unfold buildFilter. simpl.
    destruct (ListQuery.featured q) as [s |]; [| reflexivity].
    destruct (String.eqb s "true") eqn:E; [| reflexivity].
    apply String.eqb_eq in E. congruence.
Qed.

(** Of the wardrobe at 40, 70 and 60 a day, a listing from 50 a day shows
    the dress at 70. *)
Lemma listing_filters_witness :
  In (Sample.priced "p70" 70)
     (pageProducts
        (fst (listProducts (Sample.env "x") None
                (ListQuery.mk 1 12 None None (Some 50%float) None None None
                   "createdAt" "desc" None) Sample.wardrobe)))
  /\ PrimFloat.leb 50 (Product.price (Sample.priced "p70" 70)) = true.
Proof.
  assert (Hin : In (Sample.priced "p70" 70)
     (pageProducts
        (fst (listProducts (Sample.env "x") None
                (ListQuery.mk 1 12 None None (Some 50%float) None None None
                   "createdAt" "desc" None) Sample.wardrobe)))).
  { vm_compute. intuition. }
  split; [exact Hin |].
  destruct (listing_filters (Sample.env "x") None
              (ListQuery.mk 1 12 None None (Some 50%float) None None None
                 "createdAt" "desc" None) Sample.wardrobe _ _
              (surjective_pairing _) eq_refl) as [Hpage _].
  destruct (Hpage _ Hin) as (_ & _ & Hlo & _).
  exact (Hlo _ eq_refl).
Defined.

(** What an authenticated listing adds to the views of a collection. *)
Lemma totalViews_incViews ids coll :
  totalViews (incViews ids coll)
  = (totalViews coll
     + Z.of_nat (List.length
                   (filter (fun p => includes ids (Product._id p)) coll)))%Z.
Proof.
  unfold incViews, totalViews.
  induction coll as [| p r IH]; [reflexivity |].
  cbn [map filter fold_right]. rewrite IH.
  destruct (includes ids (Product._id p)); cbn [List.length Product.views Product.set_views]; lia.
Qed.

Lemma incViews_ids ids coll :
  map Product._id (incViews ids coll) = map Product._id coll.
Proof.
  unfold incViews. rewrite map_map. apply map_ext.
  intros p. now destruct (includes ids (Product._id p)).
Qed.

Lemma NoDup_map_injective {A B} (f : A -> B) l x y :
  NoDup (map f l) -> In x l -> In y l -> f x = f y -> x = y.
Proof.
  induction l as [| a r IH]; simpl; [easy |].
  intros Hnd [-> | Hx] [-> | Hy] Hf; auto.
  - inversion Hnd as [| ? ? Hnot _]. subst. exfalso. apply Hnot.
    rewrite Hf. now apply in_map.
  - inversion Hnd as [| ? ? Hnot _]. subst. exfalso. apply Hnot.
    rewrite <- Hf. now apply in_map.
  - inversion Hnd. subst. auto.
Qed.

Lemma findProducts_NoDup env f field order limit skip coll ps :
  findProducts env f field order limit skip coll = Ok ps ->
  NoDup coll -> NoDup ps.
Proof.
  unfold findProducts, skipDocs.
  destruct (skip <? 0)%Z; [discriminate |]. intros [= <-] Hnd.
  assert (Hs : NoDup (sortBy (sortOrder field order) (filter (matches env f) coll))).
  { eapply Permutation_NoDup; [apply Permutation_sym, sortBy_perm |].
    now apply NoDup_filter. }
  assert (Hk : NoDup (skipn (Z.to_nat skip)
                        (sortBy (sortOrder field order)
                           (filter (matches env f) coll)))).
  { rewrite <- (firstn_skipn (Z.to_nat skip)) in Hs.
    now apply NoDup_app_remove_l in Hs. }
  unfold limitDocs. destruct (limit =? 0)%Z; [exact Hk |].
  rewrite <- (firstn_skipn (Z.abs_nat limit)) in Hk.
  now apply NoDup_app_remove_r in Hk.
Qed.

Lemma shown_counted coll ps :
  NoDup (map Product._id coll) -> NoDup ps -> incl ps coll ->
  List.length (filter (fun p => includes (map Product._id ps) (Product._id p))
                 coll)
  = List.length ps.
Proof.
  intros Hids Hps Hincl.
  apply Permutation_length, NoDup_Permutation; [| exact Hps |].
  - apply NoDup_filter. eapply NoDup_map_inv; exact Hids.
  - intros x. rewrite filter_In. unfold includes. rewrite existsb_exists.
    split.
    + intros (Hx & i & Hi & Heq). apply String.eqb_eq in Heq.
      apply in_map_iff in Hi as (y & Hy & Hin). subst i.
      assert (x = y) as ->; [| exact Hin].
      eapply NoDup_map_injective; eauto.
    + intros Hx. split; [now apply Hincl |].
      exists (Product._id x). split; [now apply in_map | apply String.eqb_refl].
Qed.

(** X11. A listing counts a view for each product it shows, and only when
    the caller is authenticated: with distinct product ids, the views of
    the collection grow by the length of the page, or not at all for a
    visitor; the ids, the orders and the categories stay, and the response
    shows the documents as they were before the count. *)
Theorem listing_counts_views :
  forall env user q db resp db',
    listProducts env user q db = (resp, db') ->
    success resp = true ->
    NoDup (map Product._id (products db)) ->
    (forall p, In p (pageProducts resp) -> In p (products db))
    /\ map Product._id (products db') = map Product._id (products db)
    /\ orders db' = orders db
    /\ categories db' = categories db
    /\ totalViews (products db')
       = (totalViews (products db)
          + match user with
            | Some _ => Z.of_nat (List.length (pageProducts resp))
            | None => 0
            end)%Z.
Proof.
  intros env user q db resp db' Hrun Hok Hids.
  destruct (listProducts_cases _ _ _ _ _ _ Hrun)
    as [(Hf & _) | (ps & Hfound & -> & ->)]; [congruence |].
  change (pageProducts _) with ps.
  assert (Hincl : incl ps (products db)).
  { intros p Hp. now apply (proj1 (findProducts_ok _ _ _ _ _ _ _ _ Hfound)). }
  split; [exact Hincl |].
  destruct user as [u |]; simpl.
  - rewrite incViews_ids, totalViews_incViews, shown_counted; auto.
    eapply findProducts_NoDup; [exact Hfound |].
    eapply NoDup_map_inv; exact Hids.
  - repeat split; lia.
Qed.

(** Alice lists the catalog: its three available products are shown and
    counted. *)
Lemma listing_counts_views_witness :
  totalViews
    (products
       (snd (listProducts (Sample.env "x") (Some Sample.alice)
               (ListQuery.mk 1 12 None None None None None None
                  "createdAt" "desc" None) Sample.catalog)))
  = 3%Z.
Proof.
  assert (Hids : NoDup (map Product._id (products Sample.catalog))).
  { simpl. repeat (constructor; [simpl; intuition discriminate |]).
    constructor. }
  destruct (listing_counts_views (Sample.env "x") (Some Sample.alice)
              (ListQuery.mk 1 12 None None None None None None
                 "createdAt" "desc" None) Sample.catalog _ _
              (surjective_pairing _) eq_refl Hids) as (_ & _ & _ & _ & Hsum).
  rewrite Hsum. reflexivity.
Defined.

(** *** Pages *)









(** ** Deleting a product *)

Lemma occurs_app c a b :
  occurs c (a ++ b)%string = occurs c a || occurs c b.
Proof.
  induction a as [| d r IH]; simpl; [reflexivity |].
  now rewrite IH, orb_assoc.
Qed.

Lemma afterLast_free c s : forall acc,
  occurs c acc = false -> occurs c (afterLast c s acc) = false.
Proof.
  induction s as [| d r IH]; intros acc Hacc; simpl; [exact Hacc |].
  destruct (Ascii.eqb d c) eqn:E; apply IH; [reflexivity |].
  rewrite occurs_app, Hacc. simpl. now rewrite E.
Qed.

Lemma beforeFirst_free c s : occurs c (beforeFirst c s) = false.
Proof.
  induction s as [| d r IH]; simpl; [reflexivity |].
  destruct (Ascii.eqb d c) eqn:E; simpl; [reflexivity |].
  now rewrite E.
Qed.

Lemma beforeFirst_keeps_free c d s :
  occurs c s = false -> occurs c (beforeFirst d s) = false.
Proof.
  induction s as [| e r IH]; simpl; [reflexivity |].
  intros H. apply orb_false_iff in H as [He Hr].
  destruct (Ascii.eqb e d); simpl; [reflexivity |].
  now rewrite He, IH.
Qed.

Lemma cleanupImages_silent destroy imgs db :
  cleanupImages destroy imgs db = (Next tt, db).
Proof.
  induction imgs as [| image rest IH]; [reflexivity |].
  simpl. unfold bind.
  destruct (includesString "cloudinary" image);
    [destruct (destroy (publicIdOf image)) |]; exact IH.
Qed.

Lemma deleteProductById_other i j coll :
  j <> i ->
  findProductById j (deleteProductById i coll) = findProductById j coll.
Proof.
  intros Hne. unfold findProductById.
  induction coll as [| p r IH]; [reflexivity |]. simpl.
  destruct (String.eqb (Product._id p) i) eqn:E.
  - apply String.eqb_eq in E.
    destruct (String.eqb (Product._id p) j) eqn:E'; [| reflexivity].
    apply String.eqb_eq in E'. congruence.
  - simpl. now rewrite IH.
Qed.

Lemma deleteProductById_gone i coll :
  NoDup (map Product._id coll) ->
  findProductById i (deleteProductById i coll) = None.
Proof.
  unfold findProductById.
  induction coll as [| p r IH]; [reflexivity |]. simpl.
  intros Hnd. inversion Hnd as [| ? ? Hnot Hr]. subst.
  destruct (String.eqb (Product._id p) i) eqn:E.
  - apply String.eqb_eq in E. subst i.
    destruct (find _ r) as [q |] eqn:F; [| reflexivity].
    apply find_some in F as [Hin Hq]. apply String.eqb_eq in Hq.
    exfalso. apply Hnot. rewrite <- Hq. now apply in_map.
  - simpl. rewrite E. now apply IH.
Qed.

Lemma deleteProductById_length i coll p :
  findProductById i coll = Some p ->
  S (List.length (deleteProductById i coll)) = List.length coll.
Proof.
  unfold findProductById.
  induction coll as [| q r IH]; simpl; [discriminate |].
  destruct (String.eqb (Product._id q) i); [reflexivity |].
  intros H. simpl. now rewrite IH.
Qed.

(** X13. [DELETE /api/products/:id].  An unknown id is answered 404 and
    nothing changes.  A known one is answered 200 and exactly that
    document leaves the collection: one product fewer, every other id
    resolves as before, and with distinct ids the deleted one no longer
    resolves.  The orders and categories are left as they are, so order
    lines that name the product stay.  The image store cannot change the
    outcome: whatever [destroy] answers or throws, response and database
    are the same.  The public id handed to it never holds a slash or a
    dot, so it names no image inside a folder. *)
Theorem product_deletion :
  forall destroy i db,
    (findProductById i (products db) = None ->
       deleteProduct destroy i db = (failure 404 "Product not found", db))
    /\ (forall p, findProductById i (products db) = Some p ->
          deleteProduct destroy i db
          = (mkResponse 200 true (Some "Product deleted successfully") NoData,
             with_products (deleteProductById i (products db)) db)
          /\ S (List.length (deleteProductById i (products db)))
             = List.length (products db)
          /\ (forall j, j <> i ->
                findProductById j (deleteProductById i (products db))
                = findProductById j (products db))
          /\ (NoDup (map Product._id (products db)) ->
                findProductById i (deleteProductById i (products db)) = None))
    /\ orders (snd (deleteProduct destroy i db)) = orders db
    /\ categories (snd (deleteProduct destroy i db)) = categories db
    /\ (forall destroy', deleteProduct destroy' i db = deleteProduct destroy i db)
    /\ (forall image,
          occurs "/"%char (publicIdOf image) = false
          /\ occurs "."%char (publicIdOf image) = false).
Proof.
  intros destroy i db.
  assert (Hrun : forall d,
            deleteProduct d i db
            = match findProductById i (products db) with
              | None => (failure 404 "Product not found", db)
              | Some _ =>
                  (mkResponse 200 true (Some "Product deleted successfully")
                     NoData,
                   with_products (deleteProductById i (products db)) db)
              end).
  { intros d. unfold deleteProduct, tryCatch.
    unfold bind at 1, getDb at 1.
    destruct (findProductById i (products db)) as [p |]; [| reflexivity].
    unfold bind at 1. rewrite cleanupImages_silent. reflexivity. }
  split; [| split; [| split; [| split; [| split]]]].
  - intros Hnone. now rewrite Hrun, Hnone.
  - intros p Hp. split; [now rewrite Hrun, Hp |].
    split; [eapply deleteProductById_length; exact Hp |].
    split; [intros j Hj; now apply deleteProductById_other |].
    apply deleteProductById_gone.
  - rewrite Hrun. now destruct (findProductById i (products db)).
  - rewrite Hrun. now destruct (findProductById i (products db)).
  - intros d. now rewrite !Hrun.
  - intros image. unfold publicIdOf. split.
    + apply beforeFirst_keeps_free. now apply afterLast_free.
    + apply beforeFirst_free.
Qed.

(** The gown leaves the boutique, whose image store refuses every call;
    the red dress and Alice's order stay. *)
Lemma product_deletion_witness :
  fst (deleteProduct (fun _ => false) "p9" More.boutique)
  = mkResponse 200 true (Some "Product deleted successfully") NoData
  /\ map Product._id (products (snd (deleteProduct (fun _ => false) "p9"
                                      More.boutique))) = ["p1"]
  /\ orders (snd (deleteProduct (fun _ => false) "p9" More.boutique))
     = [More.aliceOrder]
  /\ map publicIdOf (Product.images More.hosted) = ["gown"; "gown"].
Proof.
  destruct (product_deletion (fun _ => false) "p9" More.boutique)
    as (_ & Hdel & Horders & _).
  destruct (Hdel More.hosted eq_refl) as (Hrun & _).
  split; [now rewrite Hrun |]. split; [now rewrite Hrun |].
  split; [exact Horders | reflexivity].
Defined.

(** ** Categories *)

Lemma createCategory_run env body db :
  createCategory env [] body db
  = match findCategoryByName (trim (NewCategory.name body)) (categories db) with
    | Some _ =>
        (Refused (failure 400 "Category with this name already exists"), db)
    | None =>
        match (if String.prefix "data:image" (NewCategory.image body)
               then uploadImage env (NewCategory.image body)
               else Some (NewCategory.image body)) with
        | None =>
            (Refused (failure 500 "Server error while creating category"), db)
        | Some url =>
            match saveCategory true true
                    (Category.mk (newId env) (trim (NewCategory.name body)) None
                       true (orElse (NewCategory.sortOrder body) 0%Z))
                    (option_map trim (NewCategory.description body))
                    (Some url) (categories db) with
            | Ok saved =>
                (Served 201 (Some "Category created successfully") (fst saved),
                 with_categories (snd saved) db)
            | Err _ =>
                (Refused (failure 500 "Server error while creating category"),
                 db)
            end
        end
    end.
Proof.
  unfold createCategory, serve, storeImage, lift.
  unfold bind, getDb, putDb, ret, reply, throw.
  cbv beta iota.
  destruct (findCategoryByName _ (categories db)); [reflexivity |].
  destruct (String.prefix "data:image" (NewCategory.image body)).
  - destruct (uploadImage env (NewCategory.image body)); [| reflexivity].
    cbv beta iota.
    destruct (saveCategory _ _ _ _ _ _) as [[c coll] | e]; reflexivity.
  - cbv beta iota.
    destruct (saveCategory _ _ _ _ _ _) as [[c coll] | e]; reflexivity.
Qed.

Lemma createCategory_invalid env e errs body db :
  createCategory env (e :: errs) body db
  = (Refused (validationFailure (e :: errs)), db).
Proof. reflexivity. Qed.

Lemma saveCategory_ok isNew m c d img coll c' coll' :
  saveCategory isNew m c d img coll = Ok (c', coll') ->
  validateCategory c d img = true
  /\ c' = categoryPreSaveSlug m c
  /\ categoryConflict coll c' = None
  /\ coll' = (if isNew then coll ++ [c'] else replaceCategory c' coll).
Proof.
  unfold saveCategory.
  destruct (validateCategory c d img); simpl; [| discriminate].
  destruct (categoryConflict coll _) eqn:C; [discriminate |].
  intros [= <- <-]. auto.
Qed.

Lemma existsb_false {A} (f : A -> bool) l :
  existsb f l = false -> forall x, In x l -> f x = false.
Proof.
  intros H x Hin. destruct (f x) eqn:E; [| reflexivity].
  assert (existsb f l = true) by (apply existsb_exists; eauto). congruence.
Qed.

Lemma categoryConflict_none coll c :
  categoryConflict coll c = None ->
  forall q, In q coll -> Category._id q <> Category._id c ->
            Category.name q <> Category.name c
            /\ Category.slug q <> Category.slug c.
Proof.
  unfold categoryConflict.
  destruct (existsb _ coll) eqn:N; [discriminate |].
  destruct (existsb _ coll) eqn:S in |- *; [discriminate |].
  intros _ q Hin Hid.
  apply String.eqb_neq in Hid.
  pose proof (existsb_false _ _ N q Hin) as Hn.
  pose proof (existsb_false _ _ S q Hin) as Hs.
  cbv beta in Hn, Hs. rewrite Hid in Hn, Hs. simpl in Hn, Hs.
  rewrite andb_true_r in Hn, Hs. split.
  - now apply String.eqb_neq.
  - intros Heq. rewrite Heq in Hs.
    destruct (Category.slug c); simpl in Hs; [| discriminate].
    now rewrite String.eqb_refl in Hs.
Qed.

Lemma categoryConflict_slug coll c q :
  In q coll -> Category._id q <> Category._id c ->
  Category.slug q = Category.slug c -> Category.slug c <> None ->
  categoryConflict coll c <> None.
Proof.
  intros Hin Hid Hs Hsome. unfold categoryConflict.
  destruct (existsb _ coll); [discriminate |].
  destruct (existsb _ coll) eqn:S in |- *; [discriminate |].
  exfalso.
  pose proof (existsb_false _ _ S q Hin) as Hq.
  cbv beta in Hq. apply String.eqb_neq in Hid. rewrite Hid, Hs in Hq.
  destruct (Category.slug c); [| congruence]. simpl in Hq.
  now rewrite String.eqb_refl in Hq.
Qed.

Lemma findCategoryByName_none n coll :
  findCategoryByName n coll = None <->
  forall q, In q coll -> Category.name q <> n.
Proof.
  unfold findCategoryByName. split.
  - intros H q Hin. apply String.eqb_neq. exact (find_none _ _ H q Hin).
  - intros H. destruct (find _ coll) as [q |] eqn:F; [| reflexivity].
    apply find_some in F as [Hin Hq]. apply String.eqb_eq in Hq.
    now elim (H q Hin).
Qed.

(** X14. [POST /api/categories].  A created category carries the new id,
    the trimmed name, the slug of that name and is active; it is appended
    to the collection, where no category had its name and no other one its
    slug.  A request that is refused writes nothing.  A name that is
    already taken is refused with 400; a new name whose slug another
    category holds is refused with 500, the handler having no answer of
    its own for the unique index. *)
Theorem category_creation :
  forall env errs body db out db',
    createCategory env errs body db = (out, db') ->
    (forall c, served out = Some c ->
       out = Served 201 (Some "Category created successfully") c
       /\ errs = []
       /\ Category._id c = newId env
       /\ Category.name c = trim (NewCategory.name body)
       /\ Category.slug c = Some (baseSlug (trim (NewCategory.name body)))
       /\ Category.isActive c = true
       /\ db' = with_categories (categories db ++ [c]) db
       /\ (forall q, In q (categories db) -> Category.name q <> Category.name c)
       /\ (forall q, In q (categories db) -> Category._id q <> Category._id c ->
             Category.slug q <> Category.slug c))
    /\ (served out = None -> db' = db)
    /\ (errs = [] ->
        (exists q, In q (categories db)
                   /\ Category.name q = trim (NewCategory.name body)) ->
        out = Refused (failure 400 "Category with this name already exists"))
    /\ (errs = [] ->
        (forall q, In q (categories db) ->
                   Category.name q <> trim (NewCategory.name body)) ->
        (exists q, In q (categories db)
                   /\ Category.slug q
                      = Some (baseSlug (trim (NewCategory.name body)))
                   /\ Category._id q <> newId env) ->
        out = Refused (failure 500 "Server error while creating category")).
Proof.
  intros env errs body db out db' Hrun.
  destruct errs as [| e errs].
  2:{ rewrite createCategory_invalid in Hrun. injection Hrun as <- <-.
      repeat split; try discriminate. }
  rewrite createCategory_run in Hrun.
  destruct (findCategoryByName _ (categories db)) as [q0 |] eqn:Hname.
  { injection Hrun as <- <-.
    split; [discriminate |]. split; [reflexivity |].
    split; [reflexivity |].
    intros _ Hfree _. exfalso.
    unfold findCategoryByName in Hname. apply find_some in Hname as [Hin Hq].
    apply String.eqb_eq in Hq. exact (Hfree q0 Hin Hq). }
  assert (Htaken : ~ exists q, In q (categories db)
                     /\ Category.name q = trim (NewCategory.name body)).
  { intros (q & Hin & Hq).
    exact (proj1 (findCategoryByName_none _ _) Hname q Hin Hq). }
  destruct (if String.prefix "data:image" (NewCategory.image body)
            then uploadImage env (NewCategory.image body)
            else Some (NewCategory.image body)) as [url |].
  2:{ injection Hrun as <- <-.
      split; [discriminate |]. split; [reflexivity |].
      split; [intros _ H; now elim Htaken | reflexivity]. }
  destruct (saveCategory _ _ _ _ _ _) as [[c coll] | e] eqn:Hsave.
  2:{ injection Hrun as <- <-.
      split; [discriminate |]. split; [reflexivity |].
      split; [intros _ H; now elim Htaken | reflexivity]. }
  injection Hrun as <- <-. simpl fst. simpl snd.
  destruct (saveCategory_ok _ _ _ _ _ _ _ _ Hsave) as (_ & Hc & Hfree & ->).
  assert (Hslug : Category.slug c
                  = Some (baseSlug (trim (NewCategory.name body)))).
  { rewrite Hc. simpl. now rewrite toLowerCase_baseSlug. }
  assert (Hid : Category._id c = newId env) by now rewrite Hc.
  assert (Hn : Category.name c = trim (NewCategory.name body)) by now rewrite Hc.
  split; [| split; [discriminate | split]].
  - intros c0 [= <-].
    split; [reflexivity |]. split; [reflexivity |].
    split; [exact Hid |]. split; [exact Hn |]. split; [exact Hslug |].
    split; [now rewrite Hc |]. split; [reflexivity |]. split.
    + intros q Hin. rewrite Hn.
      exact (proj1 (findCategoryByName_none _ _) Hname q Hin).
    + intros q Hin Hq. now apply (categoryConflict_none _ _ Hfree q Hin Hq).
  - intros _ H. now elim Htaken.
  - intros _ _ (q & Hin & Hq & Hidq). exfalso.
    apply (categoryConflict_slug (categories db) c q); auto.
    + congruence.
    + congruence.
    + congruence.
Qed.

(** Summer Tops is created with the slug summer-tops; a second category
    that is named differently and slugs alike is refused with 500. *)
Lemma category_creation_witness :
  (exists c,
     served (fst (createCategory (Sample.env "c3") [] More.tops Sample.emptyShop))
     = Some c
     /\ Category.name c = "Summer Tops"
     /\ Category.slug c = Some "summer-tops")
  /\ fst (createCategory (Sample.env "c4") [] More.topsAgain More.withTops)
     = Refused (failure 500 "Server error while creating category").
Proof.
  split.
  - destruct (category_creation (Sample.env "c3") [] More.tops Sample.emptyShop
                _ _ (surjective_pairing _)) as (Hserved & _).
    eexists. split; [reflexivity |].
    destruct (Hserved _ eq_refl) as (_ & _ & _ & Hn & Hs & _).
    split; [exact Hn | exact Hs].
  - destruct (category_creation (Sample.env "c4") [] More.topsAgain More.withTops
                _ _ (surjective_pairing _)) as (_ & _ & _ & Hslug).
    apply Hslug; [reflexivity | |].
    + intros q Hin. vm_compute in Hin.
      destruct Hin as [<- | [<- | [<- | []]]]; vm_compute; discriminate.
    + eexists. split; [right; right; left; reflexivity |].
      split; [reflexivity | discriminate].
Defined.

Lemma updateCategory_cases env errs i body db out db' :
  updateCategory env errs i body db = (out, db') ->
  (exists r, out = Refused r /\ success r = false /\ db' = db)
  \/ (exists c c' coll',
        errs = []
        /\ findCategoryById i (categories db) = Some c
        /\ saveCategory false
             (match truthyParam (option_map trim (CategoryUpdate.name body)) with
              | Some n => negb (String.eqb n (Category.name c))
              | None => false
              end)
             (Category.mk (Category._id c)
                (orElse (truthyParam (option_map trim (CategoryUpdate.name body)))
                        (Category.name c))
                (Category.slug c)
                (orElse (CategoryUpdate.isActive body) (Category.isActive c))
                (orElse (CategoryUpdate.sortOrder body) (Category.sortOrder c)))
             (option_map trim (CategoryUpdate.description body)) None
             (categories db) = Ok (c', coll')
        /\ out = Served 200 (Some "Category updated successfully") c'
        /\ db' = with_categories coll' db).
Proof.
  destruct errs as [| e errs].
  2:{ intros [= <- <-]. left. eexists. auto. }
  unfold updateCategory, serve, storeImage, lift.
  unfold bind, getDb, putDb, ret, reply, throw.
  cbv beta iota.
  destruct (findCategoryById i (categories db)) as [c |].
  2:{ intros [= <- <-]. left. eexists. auto. }
  destruct (negb _ || _).
  2:{ intros [= <- <-]. left. eexists. auto. }
  cbv beta iota.
  destruct (truthyParam (CategoryUpdate.image body)) as [image |].
  - destruct (String.prefix "data:image" image).
    + destruct (uploadImage env image).
      * cbv beta iota.
        destruct (saveCategory _ _ _ _ _ _) as [[c' coll'] | e] eqn:Hsave;
          intros [= <- <-]; [right | left; eexists; auto].
        exists c, c', coll'. auto.
      * intros [= <- <-]. left. eexists. auto.
    + cbv beta iota.
      destruct (saveCategory _ _ _ _ _ _) as [[c' coll'] | e] eqn:Hsave;
        intros [= <- <-]; [right | left; eexists; auto].
      exists c, c', coll'. auto.
  - cbv beta iota.
    destruct (saveCategory _ _ _ _ _ _) as [[c' coll'] | e] eqn:Hsave;
      intros [= <- <-]; [right | left; eexists; auto].
    exists c, c', coll'. auto.
Qed.

(** X15. [PUT /api/categories/:id].  A refused update writes nothing.  A
    served one keeps the id and writes the document over the stored one;
    the name changes only to a trimmed, non-empty name that was sent; the
    slug follows the name, recomputed when the name changed and kept when
    it did not; no other category has the name or the slug of the result;
    and the products, which name categories by id, are not touched. *)
Theorem category_update :
  forall env errs i body db out db',
    updateCategory env errs i body db = (out, db') ->
    (served out = None -> db' = db)
    /\ (forall c', served out = Some c' ->
          exists c,
            findCategoryById i (categories db) = Some c
            /\ Category._id c' = Category._id c
            /\ Category.name c'
               = orElse (truthyParam (option_map trim (CategoryUpdate.name body)))
                        (Category.name c)
            /\ (Category.name c' = Category.name c ->
                Category.slug c' = Category.slug c)
            /\ (Category.name c' <> Category.name c ->
                Category.slug c' = Some (baseSlug (Category.name c')))
            /\ Category.isActive c'
               = orElse (CategoryUpdate.isActive body) (Category.isActive c)
            /\ db' = with_categories (replaceCategory c' (categories db)) db
            /\ products db' = products db
            /\ (forall q, In q (categories db) ->
                  Category._id q <> Category._id c' ->
                  Category.name q <> Category.name c'
                  /\ Category.slug q <> Category.slug c')).
Proof.
  intros env errs i body db out db' Hrun.
  destruct (updateCategory_cases _ _ _ _ _ _ _ Hrun)
    as [(r & -> & _ & ->) | (c & c' & coll' & _ & Hfind & Hsave & -> & ->)].
  { split; [reflexivity | discriminate]. }
  split; [discriminate |].
  intros c0 [= <-]. exists c. split; [exact Hfind |].
  destruct (saveCategory_ok _ _ _ _ _ _ _ _ Hsave) as (_ & Hc & Hfree & ->).
  split; [| split; [| split; [| split; [| split; [| split; [| split]]]]]].
  - rewrite Hc. unfold categoryPreSaveSlug. now destruct (negb _).
  - rewrite Hc. unfold categoryPreSaveSlug. now destruct (negb _).
  - intros Hsame. rewrite Hc in *. unfold categoryPreSaveSlug in *.
    destruct (truthyParam (option_map trim (CategoryUpdate.name body)))
      as [n |]; simpl in *; [| reflexivity].
    destruct (String.eqb n (Category.name c)) eqn:E; simpl in *;
      [reflexivity |].
    apply String.eqb_neq in E. congruence.
  - intros Hdiff. rewrite Hc in *. unfold categoryPreSaveSlug in *.
    destruct (truthyParam (option_map trim (CategoryUpdate.name body)))
      as [n |]; simpl in *; [| congruence].
    destruct (String.eqb n (Category.name c)) eqn:E; simpl in *.
    + apply String.eqb_eq in E. congruence.
    + now rewrite toLowerCase_baseSlug.
  - rewrite Hc. unfold categoryPreSaveSlug. now destruct (negb _).
  - reflexivity.
  - reflexivity.
  - intros q Hin Hq. now apply (categoryConflict_none _ _ Hfree q Hin Hq).
Qed.

(** Dresses renamed to Evening Dresses gets the slug of the new name. *)
Lemma category_update_witness :
  exists c',
    served (fst (updateCategory (Sample.env "x") [] "c1"
                   (CategoryUpdate.mk (Some "  Evening Dresses ") None None
                      None None) Sample.emptyShop)) = Some c'
    /\ Category._id c' = "c1"
    /\ Category.slug c' = Some "evening-dresses".
Proof.
  destruct (category_update (Sample.env "x") [] "c1"
              (CategoryUpdate.mk (Some "  Evening Dresses ") None None None None)
              Sample.emptyShop _ _ (surjective_pairing _)) as (_ & Hserved).
  eexists. split; [reflexivity |].
  destruct (Hserved _ eq_refl) as (c & Hfind & Hid & _ & _ & Hslug & _).
  vm_compute in Hfind. injection Hfind as <-.
  split; [exact Hid |].
  apply Hslug. vm_compute. discriminate.
Defined.

Lemma deleteCategoryById_other i j coll :
  j <> i ->
  findCategoryById j (deleteCategoryById i coll) = findCategoryById j coll.
Proof.
  intros Hne. unfold findCategoryById.
  induction coll as [| c r IH]; [reflexivity |]. simpl.
  destruct (String.eqb (Category._id c) i) eqn:E.
  - apply String.eqb_eq in E.
    destruct (String.eqb (Category._id c) j) eqn:E'; [| reflexivity].
    apply String.eqb_eq in E'. congruence.
  - simpl. now rewrite IH.
Qed.

Lemma deleteCategoryById_gone i coll :
  NoDup (map Category._id coll) ->
  findCategoryById i (deleteCategoryById i coll) = None.
Proof.
  unfold findCategoryById.
  induction coll as [| c r IH]; [reflexivity |]. simpl.
  intros Hnd. inversion Hnd as [| ? ? Hnot Hr]. subst.
  destruct (String.eqb (Category._id c) i) eqn:E.
  - apply String.eqb_eq in E. subst i.
    destruct (find _ r) as [q |] eqn:F; [| reflexivity].
    apply find_some in F as [Hin Hq]. apply String.eqb_eq in Hq.
    exfalso. apply Hnot. rewrite <- Hq. now apply in_map.
  - simpl. rewrite E. now apply IH.
Qed.

Lemma deleteCategory_run i db :
  deleteCategory i db
  = match findCategoryById i (categories db) with
    | None => (failure 404 "Category not found", db)
    | Some _ =>
        (mkResponse 200 true (Some "Category deleted successfully") NoData,
         with_categories (deleteCategoryById i (categories db)) db)
    end.
Proof.
  unfold deleteCategory, tryCatch, bind, getDb, putDb, ret, reply.
  now destruct (findCategoryById i (categories db)).
Qed.

Lemma castIds_filter_keeps cs s :
  In (Some s) cs -> s <> EmptyString -> In s (castIds (filterCategories cs)).
Proof.
  intros Hin Hs. unfold castIds. apply in_flat_map.
  exists (Some s). split; [| now left].
  unfold filterCategories. apply filter_In. split; [exact Hin |].
  destruct s; [congruence | reflexivity].
Qed.

(** X16. [DELETE /api/categories/:id].  An unknown id is answered 404 and
    nothing changes.  A known one is answered 200 and the category leaves
    the collection, the other categories resolving as before.  The
    products are not looked at: those that name the category keep naming
    it, and the listing by that category lists the same products as
    before, by id, with the same total and page count; how the response
    renders their category references is not part of the statement.  With
    distinct category ids the deleted id no longer resolves, so a later
    creation of a product in it is refused and writes nothing. *)
Theorem category_deletion :
  forall i db,
    (findCategoryById i (categories db) = None ->
       deleteCategory i db = (failure 404 "Category not found", db))
    /\ (forall c, findCategoryById i (categories db) = Some c ->
          deleteCategory i db
          = (mkResponse 200 true (Some "Category deleted successfully") NoData,
             with_categories (deleteCategoryById i (categories db)) db))
    /\ products (snd (deleteCategory i db)) = products db
    /\ orders (snd (deleteCategory i db)) = orders db
    /\ (forall j, j <> i ->
          findCategoryById j (categories (snd (deleteCategory i db)))
          = findCategoryById j (categories db))
    /\ (forall env page limit sort order,
          map Product._id
            (pageProducts (fst (listByCategory env i page limit sort order
                                  (snd (deleteCategory i db)))))
          = map Product._id
              (pageProducts (fst (listByCategory env i page limit sort order
                                    db)))
          /\ responseInfo (fst (listByCategory env i page limit sort order
                                  (snd (deleteCategory i db))))
             = responseInfo (fst (listByCategory env i page limit sort order
                                    db)))
    /\ (NoDup (map Category._id (categories db)) ->
        findCategoryById i (categories (snd (deleteCategory i db))) = None
        /\ forall env errs body resp db',
             In (Some i) (NewProduct.categories body) -> i <> EmptyString ->
             createProduct env errs body (snd (deleteCategory i db))
             = (resp, db') ->
             success resp = false /\ db' = snd (deleteCategory i db)).
Proof.
  intros i db. rewrite deleteCategory_run.
  split; [| split; [| split; [| split; [| split; [| split]]]]].
  - now intros ->.
  - now intros c ->.
  - now destruct (findCategoryById i (categories db)).
  - now destruct (findCategoryById i (categories db)).
  - intros j Hj. destruct (findCategoryById i (categories db)); [| reflexivity].
    simpl. now apply deleteCategoryById_other.
  - intros env page limit sort order.
    assert (Hsame : fst (listByCategory env i page limit sort order
                           (snd match findCategoryById i (categories db) with
                                | Some _ =>
                                    (mkResponse 200 true
                                       (Some "Category deleted successfully")
                                       NoData,
                                     with_categories
                                       (deleteCategoryById i (categories db))
                                       db)
                                | None =>
                                    (failure 404 "Category not found", db)
                                end))
                    = fst (listByCategory env i page limit sort order db)).
    { destruct (findCategoryById i (categories db)); [| reflexivity].
      unfold listByCategory, tryCatch, bind, getDb, lift, ret, throw. simpl.
      now destruct (findProducts _ _ _ _ _ _ _). }
    now rewrite Hsame.
  - intros Hnd.
    assert (Hgone : findCategoryById i
                      (categories
                         (snd match findCategoryById i (categories db) with
                              | Some _ =>
                                  (mkResponse 200 true
                                     (Some "Category deleted successfully")
                                     NoData,
                                   with_categories
                                     (deleteCategoryById i (categories db)) db)
                              | None =>
                                  (failure 404 "Category not found", db)
                              end)) = None).
    { destruct (findCategoryById i (categories db)) eqn:F; simpl;
        [now apply deleteCategoryById_gone | exact F]. }
    split; [exact Hgone |].
    intros env errs body resp db' Hin Hne Hrun.
    destruct (success resp) eqn:Hok.
    + exfalso.
      destruct (createProduct_created _ _ _ _ _ _ Hrun Hok)
        as (p & _ & _ & Hex & _ & _ & Hcs & _).
      apply (Hex i); [| exact Hgone].
      rewrite Hcs. now apply castIds_filter_keeps.
    + split; [reflexivity |].
      destruct (createProduct_cases _ _ _ _ _ _ Hrun)
        as [(_ & -> & _) | (urls & p & coll' & _ & _ & -> & _)];
        [reflexivity | discriminate].
Qed.

Lemma lower_char_idem c : lower_char (lower_char c) = lower_char c.
Proof.
  destruct c as [[] [] [] [] [] [] [] []]; reflexivity.
Qed.

Lemma toLowerCase_idem s : toLowerCase (toLowerCase s) = toLowerCase s.
Proof.
  induction s as [| c r IH]; simpl; [reflexivity |].
  now rewrite lower_char_idem, IH.
Qed.

(** X17. Which categories the public reads show.  The lookup by id serves
    any stored category, active or not.  The lookup by slug serves only an
    active category whose slug is the parameter up to letter case, and the
    list holds only active categories and counts exactly those.  None of
    the three writes. *)
Theorem category_visibility :
  forall db,
    (forall i c, findCategoryById i (categories db) = Some c ->
       getCategory i db = (Served 200 None c, db))
    /\ (forall slug out db',
          getCategoryBySlug slug db = (out, db') ->
          db' = db
          /\ forall c, served out = Some c ->
               In c (categories db)
               /\ Category.isActive c = true
               /\ option_map toLowerCase (Category.slug c)
                  = Some (toLowerCase slug))
    /\ (forall page limit sort order out db',
          listCategories page limit sort order db = (out, db') ->
          db' = db
          /\ forall pg, served out = Some pg ->
               (forall c, In c (pageItems pg) ->
                  In c (categories db) /\ Category.isActive c = true)
               /\ total (pageInfo pg)
                  = Z.of_nat (List.length
                                (filter (fun c => Category.isActive c)
                                   (categories db)))).
Proof.
  intros db. split; [| split].
  - intros i c Hc. unfold getCategory, serve, bind, getDb, ret.
    now rewrite Hc.
  - intros slug out db'. unfold getCategoryBySlug, serve, bind, getDb, ret, reply.
    destruct (find _ (categories db)) as [c |] eqn:F; intros [= <- <-];
      (split; [reflexivity |]); [| discriminate].
    intros c0 [= <-]. apply find_some in F as [Hin Hc].
    apply andb_true_iff in Hc as [Hs Ha]. apply eqb_prop in Ha.
    split; [exact Hin |]. split; [exact Ha |].
    destruct (Category.slug c); simpl in Hs; [| discriminate].
    apply String.eqb_eq in Hs. subst. simpl. now rewrite toLowerCase_idem.
  - intros page limit sort order out db'.
    unfold listCategories, serve, lift. unfold bind, getDb, ret, throw.
    cbv beta iota. unfold skipDocs.
    destruct ((page - 1) * limit <? 0)%Z; intros [= <- <-];
      (split; [reflexivity |]); [discriminate |].
    intros pg [= <-]. simpl. split.
    + intros c Hc. apply limitDocs_incl in Hc.
      assert (Hs : In c (sortBy
                 (fun a b => if String.eqb order "desc"
                             then compareCategoryField sort b a
                             else compareCategoryField sort a b)
                 (filter (fun c => Bool.eqb (Category.isActive c) true)
                    (categories db)))).
      { rewrite <- (firstn_skipn (Z.to_nat ((page - 1) * limit))).
        apply in_or_app. now right. }
      apply (Permutation_in _ (sortBy_perm _ _)) in Hs.
      apply filter_In in Hs as [Hin Ha]. apply eqb_prop in Ha. auto.
    + f_equal. f_equal. apply filter_ext. intros c.
      now destruct (Category.isActive c).
Qed.

(** ** The migration to multiple categories *)

Section Migration.

Lemma slugConflict_keys coll coll' p p' :
  map slugKey coll' = map slugKey coll -> slugKey p' = slugKey p ->
  slugConflict coll' p' = slugConflict coll p.
Proof.
  unfold slugKey. intros Hk [= Hid Hs]. unfold slugConflict. rewrite Hs, Hid.
  destruct (Product.slug p) as [s |]; [| reflexivity].
  revert coll' Hk. induction coll as [| q r IH]; intros [| q' r']; simpl;
    try discriminate; [reflexivity |].
  intros [= Hi Hsl Hr]. rewrite Hi, Hsl. f_equal. now apply IH.
Qed.

Lemma replaceProduct_keys p' coll :
  (forall q, In q coll -> Product._id q = Product._id p' ->
             Product.slug q = Product.slug p') ->
  map slugKey (replaceProduct p' coll) = map slugKey coll.
Proof.
  unfold replaceProduct. rewrite map_map. intros H.
  apply map_ext_in. intros q Hin.
  destruct (String.eqb (Product._id q) (Product._id p')) eqn:E; [| reflexivity].
  apply String.eqb_eq in E. unfold slugKey. now rewrite E, (H q Hin E).
Qed.

Lemma slugsUnique_keys coll coll' :
  map slugKey coll' = map slugKey coll -> slugsUnique coll -> slugsUnique coll'.
Proof.
  intros Hk Hu q' Hin.
  assert (Hq : In (slugKey q') (map slugKey coll)).
  { rewrite <- Hk. now apply in_map. }
  apply in_map_iff in Hq as (q & Hkq & Hq).
  rewrite (slugConflict_keys coll coll' q q' Hk (eq_sym Hkq)). now apply Hu.
Qed.

Lemma replaceProduct_ids p' coll :
  map Product._id (replaceProduct p' coll) = map Product._id coll.
Proof.
  unfold replaceProduct. rewrite map_map. apply map_ext. intros q.
  destruct (String.eqb (Product._id q) (Product._id p')) eqn:E; [| reflexivity].
  apply String.eqb_eq in E. now rewrite E.
Qed.

Lemma replaceProduct_keeps p' coll q :
  In q coll -> Product._id q <> Product._id p' ->
  In q (replaceProduct p' coll).
Proof.
  intros Hin Hne. unfold replaceProduct. apply in_map_iff. exists q.
  apply String.eqb_neq in Hne. now rewrite Hne.
Qed.

Lemma migrated_saved p c :
  Product.categories p = [] -> Product.category p = Some c ->
  productPreSaveCategory (Product.set_categories [c] p) = migrated p.
Proof.
  intros Hcs Hc. unfold migrated, productPreSaveCategory. rewrite Hcs, Hc.
  destruct p. simpl in *. now subst.
Qed.

Lemma migrated_fields p :
  Product._id (migrated p) = Product._id p
  /\ Product.slug (migrated p) = Product.slug p
  /\ Product.category (migrated p) = Product.category p
  /\ validateProduct (migrated p) = validateProduct p.
Proof.
  unfold migrated.
  destruct (Product.categories p);
    [destruct (Product.category p) eqn:C |]; repeat split; auto.
Qed.

Lemma NoDup_map_filter {A B} (f : A -> B) (g : A -> bool) l :
  NoDup (map f l) -> NoDup (map f (filter g l)).
Proof.
  induction l as [| x r IH]; simpl; [auto |].
  intros Hnd. inversion Hnd as [| ? ? Hnot Hr]. subst.
  destruct (g x); simpl; [| now apply IH].
  constructor; [| now apply IH].
  intros Hin. apply Hnot. apply in_map_iff in Hin as (y & Hy & Hin).
  apply filter_In in Hin as [Hin _]. rewrite <- Hy. now apply in_map.
Qed.

Lemma migrateLoop_spec todo : forall acc n,
  NoDup (map Product._id todo) ->
  NoDup (map Product._id acc) ->
  (forall p, In p todo ->
     In p acc /\ lacksCategories p = true
     /\ (Product.category p <> None -> validateProduct p = true)) ->
  slugsUnique acc ->
  migrateLoop todo acc n
  = (true, (n + List.length (filter migratable todo))%nat,
     map (fun q => if includes (map Product._id todo) (Product._id q)
                   then migrated q else q) acc).
Proof.
  induction todo as [| p rest IH]; intros acc n Hnd Hacc Htodo Hu.
  - simpl. rewrite Nat.add_0_r. f_equal. symmetry. apply map_id.
  - inversion Hnd as [| ? ? Hnot Hrest]. subst.
    destruct (Htodo p (or_introl eq_refl)) as (Hin & Hlacks & Hvalid).
    assert (Hcs : Product.categories p = []).
    { unfold lacksCategories in Hlacks.
      now destruct (Product.categories p). }
    assert (Hself : forall q, In q acc -> Product._id q = Product._id p ->
                              q = p).
    { intros q Hq Hid.
      exact (NoDup_map_injective Product._id acc q p Hacc Hq Hin Hid). }
    cbn [migrateLoop filter]. unfold migratable at 1. rewrite Hlacks.
    destruct (Product.category p) as [c |] eqn:Hc; cbn [andb].
    + unfold saveProduct.
      change (validateProduct (Product.set_categories [c] p))
        with (validateProduct p).
      rewrite (Hvalid ltac:(discriminate)). cbn [negb].
      unfold productPreSaveSlug. cbn [negb].
      rewrite (migrated_saved p c Hcs Hc).
      destruct (migrated_fields p) as (Hid & Hslug & _ & _).
      assert (Hk : map slugKey (replaceProduct (migrated p) acc) = map slugKey acc).
      { apply replaceProduct_keys. intros q Hq Hqid.
        rewrite Hid in Hqid. rewrite (Hself q Hq Hqid). now rewrite Hslug. }
      assert (Hfree : slugConflict acc (migrated p) = false).
      { rewrite (slugConflict_keys acc acc p (migrated p) eq_refl).
        - now apply Hu.
        - unfold slugKey. now rewrite Hid, Hslug. }
      rewrite Hfree. cbn [snd].
      rewrite IH.
      * f_equal; [f_equal; cbn [List.length]; lia |].
        unfold replaceProduct. rewrite map_map. apply map_ext_in.
        intros q Hq. rewrite Hid. cbn [map includes existsb].
        fold (includes (map Product._id rest)).
        destruct (String.eqb (Product._id q) (Product._id p)) eqn:E.
        { apply String.eqb_eq in E. rewrite (Hself q Hq E).
          rewrite Hid.
          destruct (includes (map Product._id rest) (Product._id p)) eqn:I.
          - exfalso. apply Hnot. unfold includes in I.
            apply existsb_exists in I as (x & Hx & Heq).
            apply String.eqb_eq in Heq. now subst.
          - reflexivity. }
        { reflexivity. }
      * exact Hrest.
      * now rewrite replaceProduct_ids.
      * intros p' Hp'. destruct (Htodo p' (or_intror Hp')) as (Hin' & Hrest').
        split; [| exact Hrest'].
        apply replaceProduct_keeps; [exact Hin' |].
        rewrite Hid. intros Heq. apply Hnot. rewrite <- Heq.
        now apply in_map.
      * now apply (slugsUnique_keys acc).
    + rewrite IH; auto.
      * f_equal. apply map_ext_in. intros q Hq.
        cbn [map includes existsb]. fold (includes (map Product._id rest)).
        destruct (String.eqb (Product._id q) (Product._id p)) eqn:E;
          [| reflexivity].
        apply String.eqb_eq in E. rewrite (Hself q Hq E).
        assert (Hm : migrated p = p).
        { unfold migrated. now rewrite Hcs, Hc. }
        rewrite Hm. now destruct (includes _ _).
      * intros p' Hp'. exact (Htodo p' (or_intror Hp')).
Qed.

Lemma migrateLoop_idle todo : forall acc n,
  (forall p, In p todo -> Product.category p = None) ->
  migrateLoop todo acc n = (true, n, acc).
Proof.
  induction todo as [| p rest IH]; intros acc n H; [reflexivity |].
  simpl. rewrite (H p (or_introl eq_refl)). apply IH.
  intros q Hq. apply H. now right.
Qed.

Lemma migrated_settled p :
  lacksCategories (migrated p) = true -> Product.category (migrated p) = None.
Proof.
  unfold migrated, lacksCategories.
  destruct (Product.categories p) eqn:E; [| now rewrite E].
  destruct (Product.category p) eqn:C; simpl; [discriminate |].
  now rewrite C.
Qed.

Lemma filter_migratable l :
  filter migratable (filter lacksCategories l) = filter migratable l.
Proof.
  induction l as [| p r IH]; [reflexivity |]. simpl.
  unfold migratable at 2.
  destruct (lacksCategories p) eqn:L; simpl.
  - unfold migratable at 1. rewrite L. simpl.
    destruct (Product.category p); now rewrite IH.
  - exact IH.
Qed.

End Migration.

(** X18. The migration script, on a collection with distinct ids that
    satisfies the slug index and whose migratable products pass
    validation, runs to completion and leaves exactly the collection in
    which every product without [categories] and with a legacy [category]
    has that category as its only one; it logs the number of those
    products.  A product that already has categories is stored as it was.
    The products still without categories are those that have no legacy
    category either, and a second run changes nothing. *)
Theorem migration_result :
  forall coll,
    NoDup (map Product._id coll) ->
    slugsUnique coll ->
    (forall p, In p coll -> migratable p = true -> validateProduct p = true) ->
    migrateToMultipleCategories coll
    = (true, List.length (filter migratable coll), map migrated coll)
    /\ (forall p, In p coll -> Product.categories p <> [] ->
          In p (map migrated coll))
    /\ (forall p, In p (map migrated coll) -> lacksCategories p = true ->
          In p coll /\ Product.category p = None)
    /\ migrateToMultipleCategories (map migrated coll)
       = (true, 0%nat, map migrated coll).
Proof.
  intros coll Hnd Hu Hvalid. split; [| split; [| split]].
  - unfold migrateToMultipleCategories.
    rewrite migrateLoop_spec.
    + f_equal; [f_equal |].
      * simpl. now rewrite filter_migratable.
      * apply map_ext_in. intros q Hq.
        destruct (includes _ _) eqn:I; [reflexivity |].
        unfold migrated.
        destruct (Product.categories q) eqn:E; [| reflexivity].
        exfalso.
        assert (Hin : In q (filter lacksCategories coll)).
        { apply filter_In. split; [exact Hq |].
          unfold lacksCategories. now rewrite E. }
        assert (existsb (String.eqb (Product._id q))
                  (map Product._id (filter lacksCategories coll)) = true).
        { apply existsb_exists. exists (Product._id q).
          split; [now apply in_map | apply String.eqb_refl]. }
        unfold includes in I. congruence.
    + now apply NoDup_map_filter.
    + exact Hnd.
    + intros p Hp. apply filter_In in Hp as [Hin Hl].
      split; [exact Hin |]. split; [exact Hl |].
      intros Hc. apply Hvalid; [exact Hin |].
      unfold migratable. rewrite Hl.
      now destruct (Product.category p).
    + exact Hu.
  - intros p Hin Hcs. apply in_map_iff. exists p. split; [| exact Hin].
    unfold migrated. now destruct (Product.categories p).
  - intros p Hin Hl. apply in_map_iff in Hin as (q & <- & Hq).
    pose proof (migrated_settled q Hl) as Hnone. split; [| exact Hnone].
    assert (Hm : migrated q = q); [| now rewrite Hm].
    unfold migrated in *. unfold lacksCategories in Hl.
    destruct (Product.categories q) eqn:E; [| reflexivity].
    destruct (Product.category q) eqn:C; [| reflexivity].
    simpl in Hl. discriminate.
  - unfold migrateToMultipleCategories. apply migrateLoop_idle.
    intros p Hp. apply filter_In in Hp as [Hin Hl].
    apply in_map_iff in Hin as (q & <- & _). now apply migrated_settled.
Qed.

(** Of three old products, the one with a legacy category is migrated, the
    one with neither stays without categories, and the one with categories
    is left alone. *)
Lemma migration_result_witness :
  fst (migrateToMultipleCategories More.legacy) = (true, 1%nat)
  /\ map Product.categories (snd (migrateToMultipleCategories More.legacy))
     = [["c1"]; []; ["c2"; "c1"]].
Proof.
  assert (Hnd : NoDup (map Product._id More.legacy)).
  { simpl. repeat (constructor; [simpl; intuition discriminate |]).
    constructor. }
  assert (Hu : slugsUnique More.legacy).
  { intros q [<- | [<- | [<- | []]]]; reflexivity. }
  assert (Hv : forall p, In p More.legacy -> migratable p = true ->
                         validateProduct p = true).
  { intros p [<- | [<- | [<- | []]]] _; reflexivity. }
  destruct (migration_result More.legacy Hnd Hu Hv) as (Hrun & _).
  rewrite Hrun. split; reflexivity.
Defined.

(** ** The life of an order *)

Lemma createOrderAs_placed owner guest env errs body db resp db' :
  createOrderAs owner guest env errs body db = (resp, db') ->
  success resp = true ->
  exists o,
    resp = mkResponse 201 true (Some "Order created successfully") (OneOrder o)
    /\ db' = with_orders (orders db ++ [o]) db
    /\ Order._id o = newId env
    /\ Order.user o = owner
    /\ Order.isGuestOrder o = guest
    /\ Order.orderStatus o = Pending
    /\ Order.paymentStatus o = PaymentPending
    /\ Order.adminNotes o = None
    /\ validateOrder o = true.
Proof.
  unfold createOrderAs, tryCatch.
  unfold bind at 1. destruct errs as [| e errs]; simpl;
    [| intros [= <- <-]; discriminate].
  unfold bind at 1.
  destruct (date_lt (NewOrder.rentalStartDate body) (startOfToday env));
    simpl; [intros [= <- <-]; discriminate |].
  unfold bind at 1.
  destruct (date_le (NewOrder.rentalEndDate body) (NewOrder.rentalStartDate body));
    simpl; [intros [= <- <-]; discriminate |].
  unfold bind at 1.
  destruct (date_lt (NewOrder.needDate body) (startOfToday env));
    simpl; [intros [= <- <-]; discriminate |].
  unfold bind at 1.
  destruct (priceItems_cases db (NewOrder.items body) [] 0%float)
    as [(msg & H) | (lines & H & HF)]; rewrite H;
    [intros [= <- <-]; discriminate |].
  unfold bind, getDb, putDb, lift, ret, throw. cbn [fst snd app].
  destruct (saveOrder env true _ (orders db)) as [[o' coll'] | e] eqn:S;
    [| intros [= <- <-]; discriminate].
  intros [= <- <-] _. exists o'.
  destruct (saveOrder_new _ _ _ _ _ S) as (V & -> & ->).
  repeat split. exact V.
Qed.

Lemma findOrderById_last i coll o :
  findOrderById i coll = None -> Order._id o = i ->
  findOrderById i (coll ++ [o]) = Some o.
Proof.
  unfold findOrderById. intros Hnone Hid.
  rewrite find_app_none by exact Hnone.
  now rewrite Hid, String.eqb_refl.
Qed.

(** X19. What a customer can do with an order they have just placed under
    an id of its own.  The order belongs to them and is no guest order;
    placing it leaves the products as they were, sizes and availability
    included.  Reading it back returns the order and writes nothing.
    Cancelling it succeeds, the stored order differing only in its status,
    and after that a second cancellation is refused with 400 and writes
    nothing. *)
Theorem order_lifecycle :
  forall user env errs body db resp db',
    createOrder user env errs body db = (resp, db') ->
    success resp = true ->
    findOrderById (newId env) (orders db) = None ->
    isAdmin user = false ->
    exists o,
      data resp = OneOrder o
      /\ Order.user o = Some (id user)
      /\ Order.isGuestOrder o = false
      /\ products db' = products db
      /\ getOrder user (newId env) db'
         = (mkResponse 200 true None (OneOrder o), db')
      /\ forall env2 notes,
           let cancelled := Order.set_orderStatus Cancelled o in
           let db2 := with_orders (replaceOrder cancelled (orders db')) db' in
           cancelOrder env2 user (newId env) notes db'
           = (mkResponse 200 true (Some "Order cancelled successfully")
                (OneOrder cancelled), db2)
           /\ forall env3 notes',
                cancelOrder env3 user (newId env) notes' db2
                = (failure 400 "Order cannot be cancelled in its current status",
                   db2).
Proof.
  intros user env errs body db resp db' Hrun Hok Hfresh Huser.
  destruct (createOrderAs_placed _ _ _ _ _ _ _ _ Hrun Hok)
    as (o & -> & -> & Hid & Hown & Hguest & Hst & _ & _ & Hvalid).
  exists o.
  set (db1 := with_orders (orders db ++ [o]) db).
  assert (Hfind : findOrderById (newId env) (orders db1) = Some o)
    by now apply findOrderById_last.
  assert (Hmine : forall q d, Order.user q = Some (id user) ->
                    notAllowed user q d = (Next false, d)).
  { intros q d Hq. rewrite (notAllowed_user user q d (id user) Huser Hq).
    now rewrite String.eqb_refl. }
  split; [reflexivity |]. split; [exact Hown |]. split; [exact Hguest |].
  split; [reflexivity |]. split.
  - rewrite (getOrder_run user _ db1 o Hfind).
    now rewrite (populateOwner_own _ _ _ Hown), (Hmine o _ Hown).
  - intros env2 notes cancelled db2. split.
    + rewrite (cancelOrder_allowed env2 user _ notes db1 o Hfind
                 (Hmine o _ Hown)).
      rewrite Hst, Huser. simpl includes. cbv iota zeta. now rewrite Hvalid.
    + intros env3 notes'.
      assert (Hfind2 : findOrderById (newId env) (orders db2) = Some cancelled).
      { unfold db2. simpl orders.
        apply (findOrderById_stored _ _ o cancelled Hfind). reflexivity. }
      rewrite (cancelOrder_allowed env3 user _ notes' db2 cancelled Hfind2
                 (Hmine cancelled _ Hown)).
      reflexivity.
Qed.

(** Alice places her basket, reads the order back and cancels it. *)
Lemma order_lifecycle_witness :
  exists o,
    getOrder Sample.alice "o1" Sample.placed
    = (mkResponse 200 true None (OneOrder o), Sample.placed)
    /\ Order.user o = Some "u1"
    /\ fst (cancelOrder (Sample.env "x") Sample.alice "o1" None Sample.placed)
       = mkResponse 200 true (Some "Order cancelled successfully")
           (OneOrder (Order.set_orderStatus Cancelled o)).
Proof.
  destruct (order_lifecycle Sample.alice (Sample.env "o1") [] Sample.basket
              Sample.wardrobe _ _ (surjective_pairing _) eq_refl eq_refl
              eq_refl)
    as (o & _ & Hown & _ & _ & Hget & Hcancel).
  exists o. split; [exact Hget |]. split; [exact Hown |].
  destruct (Hcancel (Sample.env "x") None) as [Hc _].
  exact (f_equal fst Hc).
Defined.

(** ** The shape of a slug *)

Section SlugShape.

Lemma alnum_words_ok s : forallb slugWord (alnum_words s) = true.
Proof.
  induction s as [| c r IH]; [reflexivity |].
  simpl. destruct (is_slug_char c) eqn:E; [| exact IH].
  destruct (alnum_words r) as [| w ws] eqn:W.
  - simpl. unfold slugWord. simpl. now rewrite E.
  - destruct r as [| c' r']; [simpl; unfold slugWord; simpl; now rewrite E |].
    simpl in IH. apply andb_true_iff in IH as [Hw Hws].
    destruct (is_slug_char c') eqn:E'; simpl.
    + rewrite Hws, andb_true_r. unfold slugWord in *. simpl. rewrite E.
      apply andb_true_iff in Hw as [_ Hw]. exact Hw.
    + rewrite Hw, Hws. unfold slugWord. simpl. now rewrite E.
Qed.

Lemma alnum_words_word w : slugWord w = true -> alnum_words w = [w].
Proof.
  unfold slugWord. induction w as [| c r IH]; [discriminate |].
  intros H. simpl in H. apply andb_true_iff in H as [E Hr].
  destruct r as [| c' r'].
  - simpl. now rewrite E.
  - change (alnum_words (String c (String c' r')))
      with (if is_slug_char c then
              match alnum_words (String c' r') with
              | w :: ws => if is_slug_char c' then String c w :: ws
                           else String c EmptyString :: w :: ws
              | [] => [String c EmptyString]
              end
            else alnum_words (String c' r')).
    rewrite E, IH by exact Hr.
    simpl in Hr. apply andb_true_iff in Hr as [E' _]. now rewrite E'.
Qed.

Lemma hyphen_not_slug_char : is_slug_char hyphen = false.
Proof. reflexivity. Qed.

Lemma alnum_words_joined w tail :
  slugWord w = true ->
  alnum_words (w ++ String hyphen tail)%string = w :: alnum_words tail.
Proof.
  unfold slugWord. induction w as [| c r IH]; [discriminate |].
  intros H. simpl in H. apply andb_true_iff in H as [E Hr].
  destruct r as [| c' r'].
  - change (alnum_words (String c EmptyString ++ String hyphen tail)%string)
      with (if is_slug_char c then
              match alnum_words (String hyphen tail) with
              | w :: ws => if is_slug_char hyphen then String c w :: ws
                           else String c EmptyString :: w :: ws
              | [] => [String c EmptyString]
              end
            else alnum_words (String hyphen tail)).
    rewrite E, hyphen_not_slug_char.
    change (alnum_words (String hyphen tail)) with (alnum_words tail).
    now destruct (alnum_words tail).
  - change (alnum_words (String c (String c' r') ++ String hyphen tail)%string)
      with (if is_slug_char c then
              match alnum_words (String c' r' ++ String hyphen tail)%string with
              | w :: ws => if is_slug_char c' then String c w :: ws
                           else String c EmptyString :: w :: ws
              | [] => [String c EmptyString]
              end
            else alnum_words (String c' r' ++ String hyphen tail)%string).
    rewrite E, IH by exact Hr.
    simpl in Hr. apply andb_true_iff in Hr as [E' _]. now rewrite E'.
Qed.

Lemma alnum_words_concat ws :
  forallb slugWord ws = true ->
  alnum_words (String.concat "-" ws) = ws.
Proof.
  induction ws as [| w rest IH]; [reflexivity |].
  intros H. simpl in H. apply andb_true_iff in H as [Hw Hrest].
  destruct rest as [| w2 rest'].
  - simpl. now apply alnum_words_word.
  - change (String.concat "-" (w :: w2 :: rest'))
      with (w ++ String hyphen (String.concat "-" (w2 :: rest')))%string.
    rewrite alnum_words_joined by exact Hw. now rewrite IH.
Qed.

Lemma slugShape_word w b tail :
  slugWord w = true ->
  slugShape b (w ++ tail)%string = slugShape false tail.
Proof.
  unfold slugWord. revert b. induction w as [| c r IH]; [discriminate |].
  intros b H. simpl in H. apply andb_true_iff in H as [E Hr].
  simpl. rewrite E. destruct r as [| c' r']; [reflexivity |].
  now apply IH.
Qed.

Lemma append_empty_r s : (s ++ EmptyString)%string = s.
Proof. induction s as [| c r IH]; simpl; [reflexivity | now rewrite IH]. Qed.

Lemma slugShape_concat ws :
  forallb slugWord ws = true -> ws <> [] ->
  slugShape true (String.concat "-" ws) = true.
Proof.
  induction ws as [| w rest IH]; [congruence |].
  intros H _. simpl in H. apply andb_true_iff in H as [Hw Hrest].
  destruct rest as [| w2 rest'].
  - simpl. rewrite <- (append_empty_r w) at 1.
    now rewrite slugShape_word.
  - change (String.concat "-" (w :: w2 :: rest'))
      with (w ++ String hyphen (String.concat "-" (w2 :: rest')))%string.
    rewrite slugShape_word by exact Hw.
    cbn [slugShape]. rewrite hyphen_not_slug_char, Ascii.eqb_refl.
    cbn [negb andb].
    apply IH; [exact Hrest | discriminate].
Qed.

Lemma isSlug_concat ws :
  forallb slugWord ws = true -> isSlug (String.concat "-" ws) = true.
Proof.
  intros H. destruct ws as [| w rest]; [reflexivity |].
  pose proof (slugShape_concat (w :: rest) H ltac:(discriminate)) as Hs.
  unfold isSlug. now destruct (String.concat "-" (w :: rest)).
Qed.

Lemma alnum_words_none s :
  allChars (fun c => negb (is_slug_char c)) s = true -> alnum_words s = [].
Proof.
  induction s as [| c r IH]; [reflexivity |]. simpl.
  intros H. apply andb_true_iff in H as [E Hr].
  apply negb_true_iff in E. rewrite E. now apply IH.
Qed.

End SlugShape.

(** X20. The slug expression of the two pre-save hooks.  Whatever the
    name, the slug is empty or made of words of [[a-z0-9]] separated by
    single hyphens, with no hyphen at either end; slugging a slug gives
    it back; and a name without any letter or digit has the empty slug,
    the first numbered candidate for such a name being -1. *)
Theorem slug_shape :
  forall name,
    isSlug (baseSlug name) = true
    /\ baseSlug (baseSlug name) = baseSlug name
    /\ (allChars (fun c => negb (is_slug_char (lower_char c))) name = true ->
        baseSlug name = EmptyString
        /\ slugCandidate (baseSlug name) 1 = "-1").
Proof.
  intros name.
  pose proof (alnum_words_ok (toLowerCase name)) as Hok.
  split; [| split].
  - rewrite baseSlug_spec. unfold spec_slug. now apply isSlug_concat.
  - rewrite (baseSlug_spec (baseSlug name)). unfold spec_slug.
    rewrite toLowerCase_baseSlug, baseSlug_spec. unfold spec_slug.
    now rewrite alnum_words_concat.
  - intros Hnone.
    assert (Hempty : baseSlug name = EmptyString).
    { rewrite baseSlug_spec. unfold spec_slug.
      rewrite alnum_words_none; [reflexivity |].
      clear Hok. induction name as [| c r IH]; [reflexivity |].
      simpl in *. apply andb_true_iff in Hnone as [E Hr].
      now rewrite E, IH. }
    now rewrite Hempty.
Qed.
